(** * IoT soil monitoring agent: frame protocol and store-and-forward delivery

    A shallow embedding of [Config.py], [SensorReader.py], [OfflineLogger.py],
    [GatewayLogger.py], [NetworkManager.py] and [MainController.py], and the
    properties of the acquisition-and-delivery pipeline proved on it.

    Python values are modelled as follows.
    - [bytes] is [list byte]; iterating it yields the integers [0..255].
    - [int] is [Z]; [&], [^] and [>>] are [Z.land], [Z.lxor] and [Z.shiftr].
    - [int / 10] (true division) is the exact rational in [Q].
    - [time.time()] is an integer number of seconds.
    - objects with mutable fields are records threaded through a state and
      exception monad; on an exception the mutations made so far are kept.
    - the serial port, the HTTP transport and the clock are oracles: each call
      consumes the next answer of a script, so that quantifying over scripts
      covers every behaviour of the environment.

    Left out: the log lines, which change no state; [register_sensor] and the
    checks the constructors run at start-up; the [run] loop with its sleeping
    and shutdown; [GatewayLogger.check_gateway_availability], which only the
    constructor calls. *)

From Stdlib Require Import Strings.String Strings.Byte.
From Stdlib Require Import ZArith QArith List Bool Lia.
Import ListNotations.

Local Open Scope Z_scope.

(** ** Python primitives *)

Module Py.

(** The integer a [bytes] element iterates as. *)
Definition byte_val (b : byte) : Z := Z.of_N (Byte.to_N b).

(** The byte holding [z mod 256]. *)
Definition byte_of_Z (z : Z) : byte :=
  match Byte.of_N (Z.to_N (z mod 256)) with
  | Some b => b
  | None => x00
  end.

(** [l[i:j]] for constants [0 <= i <= j]. *)
Definition slice {A} (l : list A) (i j : nat) : list A :=
  firstn (j - i) (skipn i l).

(** [l[-k:]]: the last [k] elements (all of [l] when it is shorter). *)
Definition slice_last {A} (l : list A) (k : nat) : list A :=
  skipn (length l - k) l.

(** [l[:-k]]: all but the last [k] elements (empty when [l] is shorter). *)
Definition slice_but_last {A} (l : list A) (k : nat) : list A :=
  firstn (length l - k) l.

(** [df.tail(n)] on the rows of a [DataFrame], [n >= 0]: the last [n] rows. *)
Definition tail {A} (l : list A) (n : nat) : list A :=
  skipn (length l - n) l.

(** [int.from_bytes(bs, 'big')]. *)
Definition int_from_bytes_big (bs : list byte) : Z :=
  fold_left (fun acc b => acc * 256 + byte_val b) bs 0.

(** [z.to_bytes(2, byteorder='little')]; [None] is the [OverflowError]
    Python raises when [z] does not fit two unsigned bytes. *)
Definition to_bytes_2_little (z : Z) : option (list byte) :=
  if (0 <=? z) && (z <? 65536)
  then Some [byte_of_Z (z mod 256); byte_of_Z (z / 256)]
  else None.

(** Equality of two [bytes] values ([==]). *)
Definition bytes_eqb (a b : list byte) : bool :=
  if list_eq_dec Byte.byte_eq_dec a b then true else false.

(** JSON values as Python sees them after [response.json()], as far as the
    program looks: it tests truthiness and passes values through. *)
Inductive value :=
| PyNone
| PyBool (b : bool)
| PyInt (z : Z)
| PyStr (s : string)
| PyOther (truth : bool).  (* a float, list or object, with its truthiness *)

(** Truthiness, as tested by [if v:] and [not v]. *)
Definition truthy (v : value) : bool :=
  match v with
  | PyNone => false
  | PyBool b => b
  | PyInt z => negb (z =? 0)
  | PyStr s => negb (String.eqb s EmptyString)
  | PyOther t => t
  end.

(** [d.get(k)] on a JSON object given as its list of fields: the first
    binding of [k], else [None]. *)
Fixpoint dict_get (d : list (string * value)) (k : string) : value :=
  match d with
  | [] => PyNone
  | (k', v) :: d' => if String.eqb k k' then v else dict_get d' k
  end.

(** [k in d]. *)
Fixpoint dict_mem (d : list (string * value)) (k : string) : bool :=
  match d with
  | [] => false
  | (k', _) :: d' => String.eqb k k' || dict_mem d' k
  end.

End Py.

(** ** Config.py *)

Module Config.

Definition DB_PI_URL : string := "http://192.168.1.95:5000".
Definition GATEWAY_PI_URL : string := "http://192.168.1.80:5000".

Definition RESPONSE_LENGTH : nat := 19.

Definition MODBUS_COMMAND : list byte :=
  [x01; x03; x00; x00; x00; x07; x04; x08].

Definition MEASUREMENT_INTERVAL : Z := 300.
Definition ASSIGNMENT_CHECK_INTERVAL : Z := 14400.
Definition GATEWAY_CHECK_INTERVAL : Z := 3600.
Definition MAX_RETRY_ATTEMPTS : nat := 3.

Definition MAX_OFFLINE_RECORDS : nat := 1000.

Definition INTERNET_TEST_URLS : list string :=
  [ (DB_PI_URL ++ "/api/test")%string;
    (GATEWAY_PI_URL ++ "/api/test")%string;
    "http://www.google.com"%string ].

Definition get_assignment_url (machine_id : string) : string :=
  (DB_PI_URL ++ "/api/sensors/" ++ machine_id ++ "/assignment")%string.

Definition get_gateway_data_url : string :=
  (GATEWAY_PI_URL ++ "/api/sensor-data")%string.

Definition get_health_url : string :=
  (DB_PI_URL ++ "/api/test")%string.

End Config.

(** ** Exceptions and the environment *)

(** The failures of [requests.get] and [requests.post]: the transport raises
    subclasses of [requests.exceptions.RequestException] only. *)
Inductive request_error :=
| ConnectionError
| Timeout
| OtherRequestError.

Inductive exn :=
| RequestException (r : request_error)
| SerialException
| OtherException.          (* ValueError, TypeError, AttributeError, ... *)

(** What [response.json()] gives.
    - [JsonObject]: a [dict].
    - [JsonInert]: a list or a string on which ['assigned' in data] is [False];
      it has no method [get].
    - [JsonError]: a body that does not decode; [as_request_exception] tells
      whether the installed [requests] raises its own [JSONDecodeError], a
      [RequestException], or a plain [ValueError]. With [false] it also stands
      for a decoded value whose first use raises a [TypeError] (a number,
      [null]): nothing is mutated between the decoding and that first use. *)
Inductive json_result :=
| JsonObject (fields : list (string * Py.value))
| JsonInert
| JsonError (as_request_exception : bool).

Record response := { status_code : Z; body : json_result }.

Inductive http_outcome :=
| Response (r : response)
| Failure (e : request_error).

(** [serial.Serial(...)]: the object, open or not, or a [SerialException]. *)
Inductive open_outcome :=
| OpenOk (is_open : bool)
| OpenFail.

(** [serial_conn.read(size)]: the bytes that arrived before the timeout, or a
    [SerialException]. *)
Inductive read_outcome :=
| ReadBytes (bs : list byte)
| ReadFail.

(** A script of answers and the number of answers consumed so far. *)
Record oracle (A : Type) := { answers : nat -> A; asked : nat }.
Arguments answers {A} _ _.
Arguments asked {A} _.

Definition ask {A} (o : oracle A) : A * oracle A :=
  (answers o (asked o), {| answers := answers o; asked := S (asked o) |}).

(** The oracle that answers from the list [l], then [d] for ever. *)
Definition script {A} (l : list A) (d : A) : oracle A :=
  {| answers := fun n => nth n l d; asked := 0 |}.

(** ** The data model *)

(** The dictionary [sensor_data] built by [read_sensor_data]. *)
Record Reading := {
  r_machine_id : string;
  timestamp : string;
  farm_id : Py.value;
  zone_code : Py.value;
  moisture : Q;
  temperature : Q;
  conductivity : Q;
  ph : Q;
  nitrogen : Q;
  phosphorus : Q;
  potassium : Q;
  crc_valid : bool;
  response_bytes : nat
}.

Inductive request :=
| Get (url : string)
| Post (url : string) (json : Reading).

Record Serial := { is_open : bool }.

Record sensor_reader := {
  machine_id : string;
  serial_conn : option Serial;
  is_assigned : Py.value;
  assigned_farm_id : Py.value;
  assigned_zone_code : Py.value;
  last_assignment_check : Z
}.

Record network_manager := {
  last_internet_check : Z;
  internet_available : bool;
  db_pi_available : bool;
  gateway_pi_available : bool
}.

(** [OfflineLogger] and the CSV file at [storage_path]: [None] when the file
    does not exist, else its rows, oldest first. The file system is taken to
    work: reading, writing and removing the file succeed, and a row read back
    stands for the reading that was written. *)
Record offline_logger := {
  max_records : nat;
  storage : option (list Reading)
}.

Record main_controller := {
  running : bool;
  cycles_completed : Z;
  data_points_collected : Z;
  last_sync_time : Z
}.

Record world := {
  clock : oracle Z;                  (* time.time() *)
  wall_clock : oracle string;        (* datetime.now().strftime(...) *)
  http : oracle http_outcome;        (* requests.get / requests.post *)
  requests : list request;           (* the requests issued, oldest first *)
  port_open : oracle open_outcome;   (* serial.Serial(...) *)
  port_write : oracle bool;          (* serial_conn.write: false raises *)
  port_read : oracle read_outcome;   (* serial_conn.read *)
  sensor : sensor_reader;
  network : network_manager;
  offline : offline_logger;
  controller : main_controller
}.

Definition with_clock (o : oracle Z) (w : world) : world :=
  {| clock := o; wall_clock := wall_clock w; http := http w;
     requests := requests w; port_open := port_open w;
     port_write := port_write w; port_read := port_read w;
     sensor := sensor w; network := network w; offline := offline w;
     controller := controller w |}.

Definition with_wall_clock (o : oracle string) (w : world) : world :=
  {| clock := clock w; wall_clock := o; http := http w;
     requests := requests w; port_open := port_open w;
     port_write := port_write w; port_read := port_read w;
     sensor := sensor w; network := network w; offline := offline w;
     controller := controller w |}.

Definition with_http (o : oracle http_outcome) (rs : list request) (w : world)
  : world :=
  {| clock := clock w; wall_clock := wall_clock w; http := o;
     requests := rs; port_open := port_open w;
     port_write := port_write w; port_read := port_read w;
     sensor := sensor w; network := network w; offline := offline w;
     controller := controller w |}.

Definition with_port_open (o : oracle open_outcome) (w : world) : world :=
  {| clock := clock w; wall_clock := wall_clock w; http := http w;
     requests := requests w; port_open := o;
     port_write := port_write w; port_read := port_read w;
     sensor := sensor w; network := network w; offline := offline w;
     controller := controller w |}.

Definition with_port_write (o : oracle bool) (w : world) : world :=
  {| clock := clock w; wall_clock := wall_clock w; http := http w;
     requests := requests w; port_open := port_open w;
     port_write := o; port_read := port_read w;
     sensor := sensor w; network := network w; offline := offline w;
     controller := controller w |}.

Definition with_port_read (o : oracle read_outcome) (w : world) : world :=
  {| clock := clock w; wall_clock := wall_clock w; http := http w;
     requests := requests w; port_open := port_open w;
     port_write := port_write w; port_read := o;
     sensor := sensor w; network := network w; offline := offline w;
     controller := controller w |}.

Definition with_sensor (s : sensor_reader) (w : world) : world :=
  {| clock := clock w; wall_clock := wall_clock w; http := http w;
     requests := requests w; port_open := port_open w;
     port_write := port_write w; port_read := port_read w;
     sensor := s; network := network w; offline := offline w;
     controller := controller w |}.

Definition with_network (n : network_manager) (w : world) : world :=
  {| clock := clock w; wall_clock := wall_clock w; http := http w;
     requests := requests w; port_open := port_open w;
     port_write := port_write w; port_read := port_read w;
     sensor := sensor w; network := n; offline := offline w;
     controller := controller w |}.

Definition with_offline (o : offline_logger) (w : world) : world :=
  {| clock := clock w; wall_clock := wall_clock w; http := http w;
     requests := requests w; port_open := port_open w;
     port_write := port_write w; port_read := port_read w;
     sensor := sensor w; network := network w; offline := o;
     controller := controller w |}.

Definition with_controller (c : main_controller) (w : world) : world :=
  {| clock := clock w; wall_clock := wall_clock w; http := http w;
     requests := requests w; port_open := port_open w;
     port_write := port_write w; port_read := port_read w;
     sensor := sensor w; network := network w; offline := offline w;
     controller := c |}.

(** ** The state and exception monad *)

Inductive result (A : Type) :=
| Ok (a : A)
| Raise (e : exn).
Arguments Ok {A} a.
Arguments Raise {A} e.

Definition M (A : Type) : Type := world -> result A * world.

Definition ret {A} (a : A) : M A := fun w => (Ok a, w).

Definition bind {A B} (m : M A) (k : A -> M B) : M B :=
  fun w =>
    match m w with
    | (Ok a, w') => k a w'
    | (Raise e, w') => (Raise e, w')
    end.

Definition raise {A} (e : exn) : M A := fun w => (Raise e, w).

(** [try: m except ...: h]; [h e = None] when no clause matches [e]. *)
Definition try_except {A} (m : M A) (h : exn -> option (M A)) : M A :=
  fun w =>
    match m w with
    | (Ok a, w') => (Ok a, w')
    | (Raise e, w') =>
        match h e with
        | Some k => k w'
        | None => (Raise e, w')
        end
    end.

Definition gets {A} (f : world -> A) : M A := fun w => (Ok (f w), w).

Definition modify (f : world -> world) : M unit := fun w => (Ok tt, f w).

Declare Scope monad_scope.
Delimit Scope monad_scope with monad.
Notation "x <- m ;; k" := (bind m (fun x => k))
  (at level 61, m at next level, right associativity) : monad_scope.
Notation "m ;; k" := (bind m (fun _ => k))
  (at level 61, right associativity) : monad_scope.
Local Open Scope monad_scope.

(** [time.time()]. *)
Definition time_time : M Z :=
  fun w => let (t, o) := ask (clock w) in (Ok t, with_clock o w).

(** [datetime.now().strftime("%Y-%m-%d %H:%M:%S")]. *)
Definition datetime_now : M string :=
  fun w => let (t, o) := ask (wall_clock w) in (Ok t, with_wall_clock o w).

(** A request is logged, then answered by the transport. *)
Definition http_request (rq : request) : M response :=
  fun w =>
    let (a, o) := ask (http w) in
    let w' := with_http o (requests w ++ [rq]) w in
    match a with
    | Response r => (Ok r, w')
    | Failure e => (Raise (RequestException e), w')
    end.

Definition requests_get (url : string) : M response := http_request (Get url).

Definition requests_post (url : string) (json : Reading) : M response :=
  http_request (Post url json).

(** [response.json()], for a use that needs a JSON object or tests a key. *)
Definition response_json (r : response)
  : M (option (list (string * Py.value))) :=
  match body r with
  | JsonObject fields => ret (Some fields)
  | JsonInert => ret None
  | JsonError true => raise (RequestException OtherRequestError)
  | JsonError false => raise OtherException
  end.

(** ** SensorReader.py *)

Module SensorReader.

Definition with_serial_conn (c : option Serial) (s : sensor_reader)
  : sensor_reader :=
  {| machine_id := machine_id s; serial_conn := c;
     is_assigned := is_assigned s;
     assigned_farm_id := assigned_farm_id s;
     assigned_zone_code := assigned_zone_code s;
     last_assignment_check := last_assignment_check s |}.

Definition with_is_assigned (v : Py.value) (s : sensor_reader)
  : sensor_reader :=
  {| machine_id := machine_id s; serial_conn := serial_conn s;
     is_assigned := v;
     assigned_farm_id := assigned_farm_id s;
     assigned_zone_code := assigned_zone_code s;
     last_assignment_check := last_assignment_check s |}.

Definition with_farm_zone (farm zone : Py.value) (s : sensor_reader)
  : sensor_reader :=
  {| machine_id := machine_id s; serial_conn := serial_conn s;
     is_assigned := is_assigned s;
     assigned_farm_id := farm;
     assigned_zone_code := zone;
     last_assignment_check := last_assignment_check s |}.

Definition with_last_assignment_check (t : Z) (s : sensor_reader)
  : sensor_reader :=
  {| machine_id := machine_id s; serial_conn := serial_conn s;
     is_assigned := is_assigned s;
     assigned_farm_id := assigned_farm_id s;
     assigned_zone_code := assigned_zone_code s;
     last_assignment_check := t |}.

Definition update (f : sensor_reader -> sensor_reader) : M unit :=
  modify (fun w => with_sensor (f (sensor w)) w).

(** The fields of [self] right after the assignments of [__init__], before
    it opens the port, registers and checks the assignment. *)
Definition init (id : string) : sensor_reader :=
  {| machine_id := id; serial_conn := None;
     is_assigned := Py.PyBool false;
     assigned_farm_id := Py.PyNone;
     assigned_zone_code := Py.PyNone;
     last_assignment_check := 0 |}.

(** One turn of the inner loop of [_crc16_modbus]. *)
Definition crc_shift (crc : Z) : Z :=
  if negb (Z.land crc 0x0001 =? 0)
  then Z.lxor (Z.shiftr crc 1) 0xA001
  else Z.shiftr crc 1.

(** One turn of the outer loop: [crc ^= byte], then [range(8)] shifts. *)
Definition crc_byte (crc : Z) (b : byte) : Z :=
  Nat.iter 8 crc_shift (Z.lxor crc (Py.byte_val b)).

(** The value of [crc] when the loop over [data] ends. *)
Definition crc_register (data : list byte) : Z :=
  fold_left crc_byte data 0xFFFF.

Definition _crc16_modbus (data : list byte) : option (list byte) :=
  Py.to_bytes_2_little (crc_register data).

(** [serial.Serial(port=..., ...)]. *)
Definition serial_Serial : M Serial :=
  fun w =>
    let (a, o) := ask (port_open w) in
    match a with
    | OpenOk opened => (Ok {| is_open := opened |}, with_port_open o w)
    | OpenFail => (Raise SerialException, with_port_open o w)
    end.

(** [self.serial_conn.write(data)]; a port that is not open raises
    [PortNotOpenError], a [SerialException]. *)
Definition serial_write (data : list byte) : M unit :=
  fun w =>
    match serial_conn (sensor w) with
    | None => (Raise OtherException, w)
    | Some c =>
        if is_open c then
          let (a, o) := ask (port_write w) in
          if a then (Ok tt, with_port_write o w)
          else (Raise SerialException, with_port_write o w)
        else (Raise SerialException, w)
    end.

(** [self.serial_conn.read(size)]. *)
Definition serial_read (size : nat) : M (list byte) :=
  fun w =>
    match serial_conn (sensor w) with
    | None => (Raise OtherException, w)
    | Some c =>
        if is_open c then
          let (a, o) := ask (port_read w) in
          match a with
          | ReadBytes bs => (Ok bs, with_port_read o w)
          | ReadFail => (Raise SerialException, with_port_read o w)
          end
        else (Raise SerialException, w)
    end.

(** The loop of [initialize_serial] over the attempts still to make; a turn
    gives [Some b] when it returns [b] and [None] when the loop goes on. *)
Fixpoint initialize_serial_loop (attempts : list nat) : M bool :=
  match attempts with
  | [] => ret false
  | attempt :: rest =>
      turn <- try_except
        (conn <- serial_Serial ;;
         update (with_serial_conn (Some conn)) ;;
         if is_open conn then ret (Some true) else ret None)
        (fun e =>
           match e with
           | SerialException =>
               Some (if (attempt <? Config.MAX_RETRY_ATTEMPTS - 1)%nat
                     then ret None            (* time.sleep(RETRY_DELAY) *)
                     else (update (with_serial_conn None) ;;
                           ret (Some false)))
           | _ => None
           end) ;;
      match turn with
      | Some b => ret b
      | None => initialize_serial_loop rest
      end
  end.

Definition initialize_serial : M bool :=
  initialize_serial_loop (seq 0 Config.MAX_RETRY_ATTEMPTS).

Definition handle_assignment_response
    (data : option (list (string * Py.value))) : M unit :=
  match data with
  | Some fields =>
      if Py.dict_mem fields "assigned" then
        update (with_is_assigned (Py.dict_get fields "assigned")) ;;
        assigned <- gets (fun w => is_assigned (sensor w)) ;;
        if Py.truthy assigned then
          update (with_farm_zone (Py.dict_get fields "farm_id")
                                 (Py.dict_get fields "zone_code"))
        else
          update (with_farm_zone Py.PyNone Py.PyNone)
      else ret tt
  | None => ret tt
  end.

(** The first [try] of [check_assignment_status], through the Gateway Pi:
    [Some v] when it returns [v], [None] when control falls through to the
    fallback. *)
Definition check_via_gateway (current_time : Z) : M (option Py.value) :=
  try_except
    (id <- gets (fun w => machine_id (sensor w)) ;;
     response <- requests_get
       (Config.GATEWAY_PI_URL ++ "/api/sensors/" ++ id ++ "/assignment") ;;
     if status_code response =? 200 then
       data <- response_json response ;;
       handle_assignment_response data ;;
       update (with_last_assignment_check current_time) ;;
       v <- gets (fun w => is_assigned (sensor w)) ;;
       ret (Some v)
     else ret None)
    (fun e =>
       match e with
       | RequestException _ => Some (ret None)
       | _ => None
       end).

(** The second [try]: the fallback to the Database Pi. *)
Definition check_via_db (current_time : Z) : M Py.value :=
  try_except
    (id <- gets (fun w => machine_id (sensor w)) ;;
     response <- requests_get (Config.get_assignment_url id) ;;
     if status_code response =? 200 then
       data <- response_json response ;;
       handle_assignment_response data ;;
       update (with_last_assignment_check current_time) ;;
       gets (fun w => is_assigned (sensor w))
     else if status_code response =? 404 then
       update (with_is_assigned (Py.PyBool false)) ;;
       update (with_last_assignment_check current_time) ;;
       ret (Py.PyBool false)
     else
       gets (fun w => is_assigned (sensor w)))
    (fun e =>
       match e with
       | RequestException ConnectionError =>
           Some (gets (fun w => is_assigned (sensor w)))
       | RequestException Timeout =>
           Some (gets (fun w => is_assigned (sensor w)))
       | _ =>
           Some (gets (fun w => is_assigned (sensor w)))
       end).

Definition check_assignment_status (force : bool) : M Py.value :=
  current_time <- time_time ;;
  last <- gets (fun w => last_assignment_check (sensor w)) ;;
  if negb force
     && (current_time - last <? Config.ASSIGNMENT_CHECK_INTERVAL)
  then gets (fun w => is_assigned (sensor w))
  else
    returned <- check_via_gateway current_time ;;
    match returned with
    | Some v => ret v
    | None => check_via_db current_time
    end.

(** [n / 10] for an [int] [n]. *)
Definition div10 (n : Z) : Q := (inject_Z n / 10)%Q.

(** The dictionary built at the end of [read_sensor_data]. *)
Definition parse_sensor_data (s : sensor_reader) (now : string)
    (response : list byte) : Reading :=
  {| r_machine_id := machine_id s;
     timestamp := now;
     farm_id := assigned_farm_id s;
     zone_code := assigned_zone_code s;
     moisture := div10 (Py.int_from_bytes_big (Py.slice response 3 5));
     temperature := div10 (Py.int_from_bytes_big (Py.slice response 5 7));
     conductivity := div10 (Py.int_from_bytes_big (Py.slice response 7 9));
     ph := div10 (Py.int_from_bytes_big (Py.slice response 9 11));
     nitrogen := div10 (Py.int_from_bytes_big (Py.slice response 11 13));
     phosphorus := div10 (Py.int_from_bytes_big (Py.slice response 13 15));
     potassium := div10 (Py.int_from_bytes_big (Py.slice response 15 17));
     crc_valid := true;
     response_bytes := length response |}.

(** The exchange that opens the [try] of [read_sensor_data]: the command is
    written, the response read, and one more read is made when the first
    came short. The value is [response] as it stands before the last
    length test. *)
Definition receive_response : M (list byte) :=
  serial_write Config.MODBUS_COMMAND ;;
  response <- serial_read Config.RESPONSE_LENGTH ;;
  if negb (length response =? Config.RESPONSE_LENGTH)%nat then
    if (length response <? Config.RESPONSE_LENGTH)%nat then
      additional <- serial_read (Config.RESPONSE_LENGTH - length response) ;;
      ret (response ++ additional)
    else ret response
  else ret response.

(** The rest of the [try]: the length test that ends the mismatch branch
    (it holds trivially when the first read was complete), the CRC check and
    the parsing. *)
Definition validate_and_parse (response : list byte) : M (option Reading) :=
  if negb (length response =? Config.RESPONSE_LENGTH)%nat then ret None
  else
    let expected_crc := Py.slice_last response 2 in
    let data_to_check := Py.slice_but_last response 2 in
    match _crc16_modbus data_to_check with
    | None => raise OtherException            (* OverflowError *)
    | Some calculated_crc =>
        if negb (Py.bytes_eqb expected_crc calculated_crc) then ret None
        else
          now <- datetime_now ;;
          s <- gets sensor ;;
          ret (Some (parse_sensor_data s now response))
    end.

(** The [try] statement of [read_sensor_data] with its handlers. *)
Definition acquire : M (option Reading) :=
  try_except
    (response <- receive_response ;;
     validate_and_parse response)
    (fun e =>
       match e with
       | SerialException =>
           Some (update (with_serial_conn None) ;; ret None)
       | _ => Some (ret None)
       end).

Definition read_sensor_data : M (option Reading) :=
  assigned <- check_assignment_status false ;;
  if negb (Py.truthy assigned) then ret None
  else
    conn <- gets (fun w => serial_conn (sensor w)) ;;
    ready <- match conn with
             | None => initialize_serial
             | Some _ => ret true
             end ;;
    if negb ready then ret None
    else acquire.

(** [close]; [serial_conn.close()] leaves the object in place, not open. *)
Definition close : M unit :=
  conn <- gets (fun w => serial_conn (sensor w)) ;;
  match conn with
  | Some c =>
      if is_open c
      then update (with_serial_conn (Some {| is_open := false |}))
      else ret tt
  | None => ret tt
  end.

End SensorReader.

(** ** OfflineLogger.py *)

Module OfflineLogger.

(** [df.to_csv(self.storage_path, index=False)]. *)
Definition to_csv (df : list Reading) (o : offline_logger) : offline_logger :=
  {| max_records := max_records o; storage := Some df |}.

(** [os.remove(self.storage_path)]. *)
Definition os_remove (o : offline_logger) : offline_logger :=
  {| max_records := max_records o; storage := None |}.

Definition init : offline_logger :=
  {| max_records := Config.MAX_OFFLINE_RECORDS; storage := None |}.

(** The rows of the queue, oldest first; none when there is no file. *)
Definition rows (o : offline_logger) : list Reading :=
  match storage o with
  | Some df => df
  | None => []
  end.

(** [df_combined] as [save] computes it. *)
Definition combined (o : offline_logger) (data : Reading) : list Reading :=
  let df_new := [data] in
  match storage o with
  | Some df_existing =>
      let df_combined := df_existing ++ df_new in
      if (max_records o <? length df_combined)%nat
      then Py.tail df_combined (max_records o)
      else df_combined
  | None => df_new
  end.

Definition save (data : Reading) : M bool :=
  try_except
    (o <- gets offline ;;
     modify (with_offline (to_csv (combined o data) o)) ;;
     ret true)
    (fun _ => Some (ret false)).

Definition load_batch (batch_size : nat) : M (list Reading) :=
  try_except
    (o <- gets offline ;;
     match storage o with
     | Some df =>
         if (0 <? length df)%nat then ret (firstn batch_size df)  (* df.head *)
         else ret []
     | None => ret []
     end)
    (fun _ => Some (ret [])).

Definition remove_synced (count : nat) : M bool :=
  try_except
    (o <- gets offline ;;
     match storage o with
     | None => ret true
     | Some df =>
         (if (length df <=? count)%nat
          then modify (with_offline (os_remove o))
          else modify (with_offline (to_csv (skipn count df) o))) ;;
         ret true
     end)
    (fun _ => Some (ret false)).

(** The entry ['total_records'] of [get_stats]. *)
Definition total_records : M nat :=
  o <- gets offline ;;
  match storage o with
  | Some df => ret (length df)
  | None => ret 0%nat
  end.

Definition load_all : M (list Reading) :=
  try_except
    (o <- gets offline ;;
     match storage o with
     | Some df => ret df
     | None => ret []
     end)
    (fun _ => Some (ret [])).

Definition clear : M bool :=
  try_except
    (o <- gets offline ;;
     match storage o with
     | Some _ => modify (with_offline (os_remove o)) ;; ret true
     | None => ret true
     end)
    (fun _ => Some (ret false)).

End OfflineLogger.

(** ** GatewayLogger.py *)

(** The fields of a [GatewayLogger]; the object is passed to its methods and
    returned by them. *)
Record gateway_logger := {
  last_gateway_check : Z;
  gateway_available : bool;
  connected_to_gateway : bool
}.

Module GatewayLogger.

Definition send_to_gateway (data : Reading) : M bool :=
  try_except
    (response <- requests_post Config.get_gateway_data_url data ;;
     if status_code response =? 200 then
       response_data <- response_json response ;;
       match response_data with
       | Some _ => ret true
       | None => raise OtherException   (* no [get] on a list or string *)
       end
     else if status_code response =? 202 then ret true
     else if status_code response =? 403 then ret false
     else if status_code response =? 503 then ret true
     else ret false)
    (fun e =>
       match e with
       | RequestException ConnectionError => Some (ret false)
       | RequestException Timeout => Some (ret false)
       | _ => Some (ret false)
       end).

Definition save (data : Reading) : M bool := send_to_gateway data.

(** The fields of [self] in [__init__] before its first check. *)
Definition init : gateway_logger :=
  {| last_gateway_check := 0;
     gateway_available := false;
     connected_to_gateway := false |}.

Definition with_gateway_available (b : bool) (self : gateway_logger)
  : gateway_logger :=
  {| last_gateway_check := last_gateway_check self;
     gateway_available := b;
     connected_to_gateway := connected_to_gateway self |}.

Definition with_connected_to_gateway (b : bool) (self : gateway_logger)
  : gateway_logger :=
  {| last_gateway_check := last_gateway_check self;
     gateway_available := gateway_available self;
     connected_to_gateway := b |}.

Definition with_last_gateway_check (t : Z) (self : gateway_logger)
  : gateway_logger :=
  {| last_gateway_check := t;
     gateway_available := gateway_available self;
     connected_to_gateway := connected_to_gateway self |}.

(** [check_gateway_availability]: the value returned and [self] afterwards. *)
Definition check_gateway_availability (force : bool) (self : gateway_logger)
  : M (bool * gateway_logger) :=
  current_time <- time_time ;;
  if negb force
     && (current_time - last_gateway_check self
         <? Config.GATEWAY_CHECK_INTERVAL)
  then ret (gateway_available self, self)
  else
    self <- try_except
      (response <- requests_get (Config.GATEWAY_PI_URL ++ "/api/test") ;;
       if status_code response =? 200 then
         ret (with_connected_to_gateway true
                (with_gateway_available true self))
       else
         ret (with_gateway_available false self))
      (fun e =>
         match e with
         | RequestException ConnectionError =>
             Some (ret (with_gateway_available false self))
         | RequestException Timeout =>
             Some (ret (with_gateway_available false self))
         | _ =>
             Some (ret (with_gateway_available false self))
         end) ;;
    let self := with_last_gateway_check current_time self in
    ret (gateway_available self, self).

(** [__init__]: the fields are set, then the gateway is checked. *)
Definition __init__ : M gateway_logger :=
  checked <- check_gateway_availability true init ;;
  ret (snd checked).

Definition is_available (self : gateway_logger) : bool :=
  gateway_available self.

End GatewayLogger.

(** ** NetworkManager.py *)

(** The dictionary [check_all_connectivity] returns. *)
Record connectivity := {
  internet : bool;
  db_pi : bool;
  gateway_pi : bool
}.

Module NetworkManager.

Definition with_last_internet_check (t : Z) (n : network_manager)
  : network_manager :=
  {| last_internet_check := t;
     internet_available := internet_available n;
     db_pi_available := db_pi_available n;
     gateway_pi_available := gateway_pi_available n |}.

Definition with_internet_available (b : bool) (n : network_manager)
  : network_manager :=
  {| last_internet_check := last_internet_check n;
     internet_available := b;
     db_pi_available := db_pi_available n;
     gateway_pi_available := gateway_pi_available n |}.

Definition with_db_pi_available (b : bool) (n : network_manager)
  : network_manager :=
  {| last_internet_check := last_internet_check n;
     internet_available := internet_available n;
     db_pi_available := b;
     gateway_pi_available := gateway_pi_available n |}.

Definition with_gateway_pi_available (b : bool) (n : network_manager)
  : network_manager :=
  {| last_internet_check := last_internet_check n;
     internet_available := internet_available n;
     db_pi_available := db_pi_available n;
     gateway_pi_available := b |}.

Definition update (f : network_manager -> network_manager) : M unit :=
  modify (fun w => with_network (f (network w)) w).

(** The fields of [self] in [__init__] before its first check. *)
Definition init : network_manager :=
  {| last_internet_check := 0;
     internet_available := false;
     db_pi_available := false;
     gateway_pi_available := false |}.

(** The loop of [check_internet] over the URLs still to try. *)
Fixpoint check_internet_loop (urls : list string) : M bool :=
  match urls with
  | [] =>
      update (with_internet_available false) ;;
      ret false
  | url :: rest =>
      found <- try_except
        (response <- requests_get url ;;
         if (status_code response =? 200)
            || (status_code response =? 301)
            || (status_code response =? 302)
         then (update (with_internet_available true) ;; ret true)
         else ret false)
        (fun _ => Some (ret false)) ;;       (* except: continue *)
      if found then ret true else check_internet_loop rest
  end.

Definition check_internet : M bool :=
  check_internet_loop Config.INTERNET_TEST_URLS.

Definition check_db_pi : M bool :=
  try_except
    (response <- requests_get Config.get_health_url ;;
     if status_code response =? 200 then
       update (with_db_pi_available true) ;; ret true
     else
       (update (with_db_pi_available false) ;; ret false))
    (fun e =>
       match e with
       | RequestException _ =>
           Some (update (with_db_pi_available false) ;; ret false)
       | _ => None
       end).

Definition check_gateway_pi : M bool :=
  try_except
    (response <- requests_get (Config.GATEWAY_PI_URL ++ "/api/test") ;;
     if status_code response =? 200 then
       update (with_gateway_pi_available true) ;; ret true
     else
       (update (with_gateway_pi_available false) ;; ret false))
    (fun e =>
       match e with
       | RequestException _ =>
           Some (update (with_gateway_pi_available false) ;; ret false)
       | _ => None
       end).

(** The dictionary of the three cached flags. *)
Definition status (n : network_manager) : connectivity :=
  {| internet := internet_available n;
     db_pi := db_pi_available n;
     gateway_pi := gateway_pi_available n |}.

Definition check_all_connectivity (force : bool) : M connectivity :=
  current_time <- time_time ;;
  last <- gets (fun w => last_internet_check (network w)) ;;
  if negb force && (current_time - last <? 300)
  then gets (fun w => status (network w))
  else
    check_internet ;;
    check_db_pi ;;
    check_gateway_pi ;;
    update (with_last_internet_check current_time) ;;
    gets (fun w => status (network w)).

Definition has_internet : M bool :=
  current_time <- time_time ;;
  last <- gets (fun w => last_internet_check (network w)) ;;
  (if current_time - last >? 300
   then (check_all_connectivity false ;; ret tt)
   else ret tt) ;;
  gets (fun w => internet_available (network w)).

Definition can_reach_db_pi : M bool :=
  gets (fun w => db_pi_available (network w)).

Definition can_reach_gateway_pi : M bool :=
  gets (fun w => gateway_pi_available (network w)).

(** [__init__]: the fields are set, then every link is checked. *)
Definition __init__ : M unit :=
  modify (with_network init) ;;
  check_all_connectivity true ;;
  ret tt.

End NetworkManager.

(** ** MainController.py *)

Module MainController.

Definition with_running (b : bool) (c : main_controller) : main_controller :=
  {| running := b;
     cycles_completed := cycles_completed c;
     data_points_collected := data_points_collected c;
     last_sync_time := last_sync_time c |}.

Definition with_data_points_collected (n : Z) (c : main_controller)
  : main_controller :=
  {| running := running c;
     cycles_completed := cycles_completed c;
     data_points_collected := n;
     last_sync_time := last_sync_time c |}.

Definition with_last_sync_time (t : Z) (c : main_controller)
  : main_controller :=
  {| running := running c;
     cycles_completed := cycles_completed c;
     data_points_collected := data_points_collected c;
     last_sync_time := t |}.

Definition update (f : main_controller -> main_controller) : M unit :=
  modify (fun w => with_controller (f (controller w)) w).

Definition init : main_controller :=
  {| running := true;
     cycles_completed := 0;
     data_points_collected := 0;
     last_sync_time := 0 |}.

(** The [for] loop of [sync_offline_data] over the records still to send;
    the value is [successful_syncs] when the loop ends. *)
Fixpoint sync_loop (records : list Reading) (successful_syncs : nat)
  : M nat :=
  match records with
  | [] => ret successful_syncs
  | data :: rest =>
      sent <- try_except
        (GatewayLogger.send_to_gateway data)
        (fun _ => Some (ret false)) ;;        (* except Exception: break *)
      if sent then sync_loop rest (successful_syncs + 1)%nat
      else ret successful_syncs               (* break *)
  end.

Definition sync_offline_data : M bool :=
  reachable <- NetworkManager.can_reach_gateway_pi ;;
  if negb reachable then ret false
  else
    current_time <- time_time ;;
    last <- gets (fun w => last_sync_time (controller w)) ;;
    if current_time - last <? 900 then ret true
    else
      offline_batch <- OfflineLogger.load_batch 20 ;;
      match offline_batch with
      | [] => ret true
      | _ :: _ =>
          successful_syncs <- sync_loop offline_batch 0 ;;
          if (0 <? successful_syncs)%nat then
            OfflineLogger.remove_synced successful_syncs ;;
            update (with_last_sync_time current_time) ;;
            ret true
          else ret false
      end.

(** [collect_and_process_data]; the log lines, with the diagnostics read for
    them every twelfth cycle, change no state and are left out. *)
Definition collect_and_process_data : M unit :=
  connectivity <- NetworkManager.check_all_connectivity false ;;
  sensor_data <- SensorReader.read_sensor_data ;;
  match sensor_data with
  | None => ret tt
  | Some data =>
      n <- gets (fun w => data_points_collected (controller w)) ;;
      update (with_data_points_collected (n + 1)) ;;
      assigned <- gets (fun w => is_assigned (sensor w)) ;;
      if negb (Py.truthy assigned) then
        update (with_running false)
      else if gateway_pi connectivity then
        sent <- GatewayLogger.save data ;;
        if sent then (sync_offline_data ;; ret tt)
        else (OfflineLogger.save data ;; ret tt)
      else
        (OfflineLogger.save data ;; ret tt)
  end.

End MainController.

(** ** Notions used in the statements *)

(** CRC-16/MODBUS as the specification words it: the register starts at
    0xFFFF; each byte is XORed into it and the register is then shifted right
    eight times, least significant bit first, the polynomial 0xA001 being
    XORed in whenever the bit shifted out was set; the result is sent low
    byte first. *)
Module Crc16Modbus.

Definition shift (r : Z) : Z :=
  if Z.odd r then Z.lxor (r / 2) 0xA001 else r / 2.

Fixpoint shifts (n : nat) (r : Z) : Z :=
  match n with
  | O => r
  | S n' => shifts n' (shift r)
  end.

Fixpoint register (r : Z) (data : list byte) : Z :=
  match data with
  | [] => r
  | b :: data' => register (shifts 8 (Z.lxor r (Py.byte_val b))) data'
  end.

Definition checksum (data : list byte) : list byte :=
  let r := register 0xFFFF data in
  [Py.byte_of_Z (r mod 256); Py.byte_of_Z (r / 256)].

End Crc16Modbus.

(** A frame passes validation: it has the configured length and its last two
    bytes are the checksum of the bytes before them. *)
Definition frame_valid (frame : list byte) : Prop :=
  length frame = Config.RESPONSE_LENGTH
  /\ SensorReader._crc16_modbus (Py.slice_but_last frame 2)
     = Some (Py.slice_last frame 2).

Definition frame_validb (frame : list byte) : bool :=
  (length frame =? Config.RESPONSE_LENGTH)%nat
  && match SensorReader._crc16_modbus (Py.slice_but_last frame 2) with
     | Some crc => Py.bytes_eqb (Py.slice_last frame 2) crc
     | None => false
     end.

(** The big-endian unsigned 16-bit field at byte offset [i] of a frame. *)
Definition be16 (frame : list byte) (i : nat) : Z :=
  256 * Py.byte_val (nth i frame x00) + Py.byte_val (nth (S i) frame x00).

(** The value and the final world of a run. *)
Definition value_of {A} (m : M A) (w : world) : result A := fst (m w).
Definition world_after {A} (m : M A) (w : world) : world := snd (m w).

(** The next answer of an oracle, and the one [n] calls later. *)
Definition next {A} (o : oracle A) : A := answers o (asked o).
Definition later {A} (o : oracle A) (n : nat) : A := answers o (asked o + n).

(** An oracle after [n] more calls. *)
Definition advance {A} (n : nat) (o : oracle A) : oracle A :=
  {| answers := answers o; asked := asked o + n |}.

(** The world once a request has been issued and answered. *)
Definition logged (rq : request) (w : world) : world :=
  with_http (advance 1 (http w)) (requests w ++ [rq]) w.

(** The world once [handle_assignment_response] has run on a JSON object. *)
Definition handled (fields : list (string * Py.value)) (w : world) : world :=
  if Py.dict_mem fields "assigned" then
    let v := Py.dict_get fields "assigned" in
    let s := SensorReader.with_is_assigned v (sensor w) in
    if Py.truthy v then
      with_sensor (SensorReader.with_farm_zone
                     (Py.dict_get fields "farm_id")
                     (Py.dict_get fields "zone_code") s) w
    else
      with_sensor (SensorReader.with_farm_zone Py.PyNone Py.PyNone s) w
  else w.

(** The world once [last_assignment_check] has been set. *)
Definition stamped (t : Z) (w : world) : world :=
  with_sensor (SensorReader.with_last_assignment_check t (sensor w)) w.

(** The assignment as the device knows it. *)
Definition assignment (w : world) : Py.value * Py.value * Py.value :=
  (is_assigned (sensor w), assigned_farm_id (sensor w),
   assigned_zone_code (sensor w)).

(** The URL of the assignment query through the Gateway Pi. *)
Definition gateway_assignment_url (w : world) : string :=
  (Config.GATEWAY_PI_URL ++ "/api/sensors/" ++ machine_id (sensor w)
   ++ "/assignment")%string.

(** An answer with which the query fails for a reason other than a 404: a
    status that is neither 200 nor 404, a connection error, a timeout, any
    other failure of the request, or a 200 whose body cannot be used. *)
Definition failed_other_than_404 (a : http_outcome) : Prop :=
  match a with
  | Response r =>
      (status_code r <> 200 /\ status_code r <> 404)
      \/ (status_code r = 200 /\ exists b, body r = JsonError b)
  | Failure _ => True
  end.

(** An answer of the Gateway Pi after which the check falls back to the
    Database Pi: a status other than 200, a failed request, or a 200 whose
    body raises a [RequestException] when decoded. *)
Definition falls_back (a : http_outcome) : Prop :=
  match a with
  | Response r => status_code r <> 200 \/ body r = JsonError true
  | Failure _ => True
  end.

(** [collect_and_process_data] with the branch that stops the run loop on an
    unassigned sensor taken out. *)
Definition collect_and_process_data_without_stop : M unit :=
  connectivity <- NetworkManager.check_all_connectivity false ;;
  sensor_data <- SensorReader.read_sensor_data ;;
  match sensor_data with
  | None => ret tt
  | Some data =>
      n <- gets (fun w => data_points_collected (controller w)) ;;
      MainController.update (MainController.with_data_points_collected (n + 1)) ;;
      if gateway_pi connectivity then
        sent <- GatewayLogger.save data ;;
        if sent then (MainController.sync_offline_data ;; ret tt)
        else (OfflineLogger.save data ;; ret tt)
      else
        (OfflineLogger.save data ;; ret tt)
  end.

(** A sequence of enqueue operations, in the order given. *)
Fixpoint save_all (readings : list Reading) : M unit :=
  match readings with
  | [] => ret tt
  | data :: rest => OfflineLogger.save data ;; save_all rest
  end.

(** What the collector's answer to a send amounts to: delivered on a 200
    with a JSON object, a 202 or a 503, failed otherwise. *)
Definition accepted (a : http_outcome) : bool :=
  match a with
  | Response r =>
      if status_code r =? 200 then
        match body r with
        | JsonObject _ => true
        | _ => false
        end
      else (status_code r =? 202) || (status_code r =? 503)
  | Failure _ => false
  end.

(** The number of sends confirmed before the first failure when [n] entries
    are sent in turn to a collector answering from [o]. *)
Fixpoint confirmed (o : oracle http_outcome) (n : nat) : nat :=
  match n with
  | O => O
  | S n' => if accepted (next o) then S (confirmed (advance 1 o) n') else O
  end.

(** The requests that send the given entries to the collector. *)
Definition posts (entries : list Reading) : list request :=
  map (Post Config.get_gateway_data_url) entries.

(** What a probe of the Database Pi or of the Gateway Pi makes of an
    answer, and what the internet check makes of one. *)
Definition reachable (a : http_outcome) : bool :=
  match a with
  | Response r => status_code r =? 200
  | Failure _ => false
  end.

Definition online (a : http_outcome) : bool :=
  match a with
  | Response r =>
      (status_code r =? 200) || (status_code r =? 301)
      || (status_code r =? 302)
  | Failure _ => false
  end.

(** The internet check over [n] test URLs answered from [o]: how many of
    them are requested, and whether one answered. *)
Fixpoint internet_scan (o : oracle http_outcome) (n : nat) : nat * bool :=
  match n with
  | O => (O, false)
  | S n' =>
      if online (next o) then (1%nat, true)
      else let (j, found) := internet_scan (advance 1 o) n' in (S j, found)
  end.

(** The world after one round of probes made at time [now]: [j] internet
    test URLs were requested, then the health URL of the Database Pi, then
    the test URL of the Gateway Pi, and the three flags and the time of the
    check were stored. *)
Definition probed (now : Z) (j : nat) (c : connectivity) (w : world) : world :=
  with_network
    {| last_internet_check := now;
       internet_available := internet c;
       db_pi_available := db_pi c;
       gateway_pi_available := gateway_pi c |}
    (with_http
       (advance (j + 2) (http w))
       (requests w
        ++ map Get (firstn j Config.INTERNET_TEST_URLS)
        ++ [Get Config.get_health_url;
            Get (Config.GATEWAY_PI_URL ++ "/api/test")%string])
       (with_clock (advance 1 (clock w)) w)).

(** The result of a round of probes answered from [o]. *)
Definition fresh (o : oracle http_outcome) : nat * connectivity :=
  let (j, found) := internet_scan o (length Config.INTERNET_TEST_URLS) in
  (j, {| internet := found;
         db_pi := reachable (later o j);
         gateway_pi := reachable (later o (j + 1)) |}).

(** The readings posted so far, oldest first. *)
Definition posted (w : world) : list Reading :=
  flat_map (fun rq => match rq with
                      | Post _ data => [data]
                      | Get _ => []
                      end) (requests w).

(** The queue, the controller and the readings posted, which neither the
    connectivity check nor the acquisition touches. *)
Definition delivery_state (w : world)
  : offline_logger * main_controller * list Reading :=
  (offline w, controller w, posted w).

(** The operation [m] leaves the quantity [f] of the world as it was. *)
Definition preserves {X A} (f : world -> X) (m : M A) : Prop :=
  forall w, f (snd (m w)) = f w.

(** The claim that a reading rejected with a 403 is not enqueued: whenever
    the gateway is held reachable, a reading is acquired and the collector
    answers the send with a 403, the cycle ends with the reading not in the
    queue. *)
Definition rejected_reading_not_enqueued : Prop :=
  forall (w w2 : world) (data : Reading) (r : response),
    gateway_pi_available
      (network (world_after (NetworkManager.check_all_connectivity false) w))
    = true ->
    SensorReader.read_sensor_data
      (world_after (NetworkManager.check_all_connectivity false) w)
    = (Ok (Some data), w2) ->
    next (http w2) = Response r ->
    status_code r = 403 ->
    ~ In data
        (OfflineLogger.rows
           (offline (world_after MainController.collect_and_process_data w))).

(** ** Sample runs *)

Module Example.

(** A response frame with moisture 50.0 and temperature 25.0 and its CRC. *)
Definition frame : list byte :=
  [x01; x03; x0e; x01; xf4; x00; xfa; x00; x64; x00; x46; x00; x0a; x00; x14;
   x00; x1e; x66; x71].

(** A device assigned to farm 7, zone A, at time 1000, with its port open. *)
Definition device : sensor_reader :=
  {| machine_id := "2485377892354";
     serial_conn := Some {| is_open := true |};
     is_assigned := Py.PyBool true;
     assigned_farm_id := Py.PyInt 7;
     assigned_zone_code := Py.PyStr "A";
     last_assignment_check := 1000 |}.

(** The three links found up at time 1000. *)
Definition links_up : network_manager :=
  {| last_internet_check := 1000;
     internet_available := true;
     db_pi_available := true;
     gateway_pi_available := true |}.

Definition reading (now : string) : Reading :=
  SensorReader.parse_sensor_data device now frame.

Definition ok_response : http_outcome :=
  Response {| status_code := 200;
              body := JsonObject [("status"%string, Py.PyStr "forwarded")] |}.

Definition status_response (code : Z) : http_outcome :=
  Response {| status_code := code; body := JsonError false |}.

(** A world in which the clock gives [times], the transport [replies], the
    port [reads], and the queue is [queue]. *)
Definition world_of (times : list Z) (replies : list http_outcome)
    (reads : list read_outcome) (queue : offline_logger) : world :=
  {| clock := script times 0;
     wall_clock := script ["2024-05-01 12:00:00"%string] EmptyString;
     http := script replies (Failure ConnectionError);
     requests := [];
     port_open := script [] OpenFail;
     port_write := script [] true;
     port_read := script reads (ReadBytes []);
     sensor := device;
     network := links_up;
     offline := queue;
     controller := MainController.init |}.

(** A cycle at time 1100: the caches are fresh, the sensor answers with
    [frame], the collector rejects the send with a 403, the queue is empty. *)
Definition rejected_cycle : world :=
  world_of [1100; 1100] [status_response 403] [ReadBytes frame]
           OfflineLogger.init.

(** The frame arrives in two pieces. *)
Definition fragmented : world :=
  world_of [] [] [ReadBytes (firstn 10 frame); ReadBytes (skipn 10 frame)]
           OfflineLogger.init.

(** A queue of three readings; the collector takes the first and fails on
    the second. *)
Definition backlog : offline_logger :=
  {| max_records := 1000;
     storage := Some [reading "t1"; reading "t2"; reading "t3"] |}.

Definition failing_drain : world :=
  world_of [5000] [ok_response; status_response 500] [] backlog.

(** A full queue of capacity two. *)
Definition full_queue : world :=
  world_of [] [] []
           {| max_records := 2; storage := Some [reading "t1"; reading "t2"] |}.

(** An assignment check at time 20000: the Gateway Pi answers 404 and the
    Database Pi times out. *)
Definition db_timeout : world :=
  world_of [20000] [status_response 404; Failure Timeout] []
           OfflineLogger.init.

(** An assignment check at time 20000: the Gateway Pi cannot be reached and
    the Database Pi answers 404. *)
Definition db_not_found : world :=
  world_of [20000] [Failure ConnectionError; status_response 404] []
           OfflineLogger.init.

(** A connectivity check at time 1100, within the window. *)
Definition within_window : world :=
  world_of [1100; 1200] [] [] OfflineLogger.init.

(** A connectivity check at time 2000, after the window: the first test URL
    answers 500, the second 200, the Database Pi 200, the Gateway Pi 503. *)
Definition expired : world :=
  world_of [2000; 2001]
           [status_response 500; ok_response; ok_response; status_response 503]
           [] OfflineLogger.init.

(** The same device while no farm has claimed it. *)
Definition unassigned_device : sensor_reader :=
  {| machine_id := "2485377892354";
     serial_conn := Some {| is_open := true |};
     is_assigned := Py.PyBool false;
     assigned_farm_id := Py.PyNone;
     assigned_zone_code := Py.PyNone;
     last_assignment_check := 1000 |}.

(** A cycle of the unassigned device at time 1100, the caches fresh. *)
Definition unassigned : world :=
  with_sensor unassigned_device
              (world_of [1100; 1100] [] [ReadBytes frame] OfflineLogger.init).

(** An assignment check at time 20000 which the Gateway Pi settles: the
    device has been moved to farm 9, zone B. *)
Definition reassigned : world :=
  world_of [20000]
           [Response {| status_code := 200;
                        body := JsonObject
                                  [("assigned"%string, Py.PyBool true);
                                   ("farm_id"%string, Py.PyInt 9);
                                   ("zone_code"%string, Py.PyStr "B")] |}]
           [] OfflineLogger.init.

(** A cycle whose assignment check is due at time 20000 and is answered by
    the Gateway Pi with a 200 whose body is not JSON. *)
Definition malformed_assignment : world :=
  world_of [1100; 20000] [status_response 200] [ReadBytes frame]
           OfflineLogger.init.

(** A drain of the three queued readings, all of them taken. *)
Definition full_drain : world :=
  world_of [5000] [ok_response; ok_response; ok_response] [] backlog.

(** The collector is back at time 5000 and takes two readings; the queue is
    empty. *)
Definition reconnected : world :=
  world_of [5000] [ok_response; ok_response] [] OfflineLogger.init.

(** A drain attempted 500 seconds after the last one. *)
Definition early_drain : world :=
  world_of [500] [ok_response] [] backlog.

End Example.

(** ** Proofs *)

Lemma byte_val_range (b : byte) : 0 <= Py.byte_val b < 256.
Proof.
  unfold Py.byte_val. pose proof (Byte.to_N_bounded b). lia.
Qed.

(** *** The checksum *)

Lemma lxor_below (n a b : Z) :
  0 < n -> 0 <= a < 2 ^ n -> 0 <= b < 2 ^ n -> 0 <= Z.lxor a b < 2 ^ n.
Proof.
  intros Hn Ha Hb.
  assert (Hpos : 0 <= Z.lxor a b) by (apply Z.lxor_nonneg; lia).
  split; [exact Hpos|].
  destruct (Z.eq_dec (Z.lxor a b) 0) as [E|E]; [rewrite E; lia|].
  apply Z.log2_lt_pow2; [lia|].
  pose proof (Z.log2_lxor a b (proj1 Ha) (proj1 Hb)) as Hl.
  assert (La : Z.log2 a < n).
  { destruct (Z.eq_dec a 0) as [->|]; [simpl|apply Z.log2_lt_pow2]; lia. }
  assert (Lb : Z.log2 b < n).
  { destruct (Z.eq_dec b 0) as [->|]; [simpl|apply Z.log2_lt_pow2]; lia. }
  lia.
Qed.

Lemma crc_shift_spec (c : Z) : SensorReader.crc_shift c = Crc16Modbus.shift c.
Proof.
  unfold SensorReader.crc_shift, Crc16Modbus.shift.
  change (Z.land c 0x0001) with (Z.land c (Z.ones 1)).
  rewrite Z.land_ones, Z.shiftr_div_pow2 by lia.
  change (2 ^ 1) with 2. rewrite Zmod_odd.
  destruct (Z.odd c); reflexivity.
Qed.

Lemma crc_shift_range (c : Z) :
  0 <= c < 65536 -> 0 <= SensorReader.crc_shift c < 65536.
Proof.
  intros Hc. rewrite crc_shift_spec. unfold Crc16Modbus.shift.
  assert (Hh : 0 <= c / 2 < 32768).
  { split; [apply Z.div_pos; lia | apply Z.div_lt_upper_bound; lia]. }
  destruct (Z.odd c); [|lia].
  change 65536 with (2 ^ 16). apply lxor_below; [lia| |]; simpl; lia.
Qed.

Lemma crc_shifts_spec (n : nat) (c : Z) :
  Nat.iter n SensorReader.crc_shift c = Crc16Modbus.shifts n c.
Proof.
  revert c. induction n as [|n IH]; intros c; [reflexivity|].
  rewrite Nat.iter_succ_r, IH, crc_shift_spec. reflexivity.
Qed.

Lemma crc_shifts_range (n : nat) (c : Z) :
  0 <= c < 65536 -> 0 <= Nat.iter n SensorReader.crc_shift c < 65536.
Proof.
  intros Hc. induction n as [|n IH]; [exact Hc|].
  rewrite Nat.iter_succ. apply crc_shift_range, IH.
Qed.

Lemma crc_byte_range (c : Z) (b : byte) :
  0 <= c < 65536 -> 0 <= SensorReader.crc_byte c b < 65536.
Proof.
  intros Hc. unfold SensorReader.crc_byte. apply crc_shifts_range.
  pose proof (byte_val_range b).
  change 65536 with (2 ^ 16). apply lxor_below; simpl; lia.
Qed.

Lemma crc_fold_range (data : list byte) (c : Z) :
  0 <= c < 65536 -> 0 <= fold_left SensorReader.crc_byte data c < 65536.
Proof.
  revert c. induction data as [|b data IH]; intros c Hc; [exact Hc|].
  simpl. apply IH, crc_byte_range, Hc.
Qed.

Lemma crc_register_range (data : list byte) :
  0 <= SensorReader.crc_register data < 65536.
Proof. apply crc_fold_range. lia. Qed.

Lemma crc_fold_spec (data : list byte) (c : Z) :
  fold_left SensorReader.crc_byte data c = Crc16Modbus.register c data.
Proof.
  revert c. induction data as [|b data IH]; intros c; [reflexivity|].
  simpl. rewrite IH. unfold SensorReader.crc_byte.
  rewrite crc_shifts_spec. reflexivity.
Qed.

Lemma byte_val_of_Z (z : Z) : Py.byte_val (Py.byte_of_Z z) = z mod 256.
Proof.
  unfold Py.byte_val, Py.byte_of_Z.
  pose proof (Z.mod_pos_bound z 256 ltac:(lia)) as Hm.
  destruct (Byte.of_N (Z.to_N (z mod 256))) as [b|] eqn:E.
  - apply Byte.to_of_N in E. rewrite E. lia.
  - apply Byte.of_N_None_iff in E. lia.
Qed.

Lemma crc16_modbus_total (data : list byte) :
  SensorReader._crc16_modbus data = Some (Crc16Modbus.checksum data).
Proof.
  unfold SensorReader._crc16_modbus, Py.to_bytes_2_little,
    Crc16Modbus.checksum.
  pose proof (crc_register_range data) as Hr.
  replace ((0 <=? SensorReader.crc_register data)
           && (SensorReader.crc_register data <? 65536)) with true
    by (symmetry; apply andb_true_iff; split;
        [apply Z.leb_le | apply Z.ltb_lt]; lia).
  unfold SensorReader.crc_register. rewrite crc_fold_spec. reflexivity.
Qed.

(** C1. [_crc16_modbus] never overflows and is CRC-16/MODBUS as specified:
    register started at 0xFFFF, each byte XORed in and shifted eight times
    least significant bit first with 0xA001 applied when the low bit is set,
    the 16-bit register returned low byte first. On the poll command body
    [01 03 00 00 00 07] it gives [04 08], the trailer of [MODBUS_COMMAND], and
    on the ASCII digits 1 to 9 the catalogue check value 0x4B37. *)
Theorem C1_crc16_modbus :
  (forall data,
      SensorReader._crc16_modbus data = Some (Crc16Modbus.checksum data))
  /\ (forall data, exists lo hi,
         SensorReader._crc16_modbus data = Some [lo; hi]
         /\ Py.byte_val lo + 256 * Py.byte_val hi
            = Crc16Modbus.register 0xFFFF data
         /\ 0 <= Crc16Modbus.register 0xFFFF data < 65536)
  /\ SensorReader._crc16_modbus [x01; x03; x00; x00; x00; x07] = Some [x04; x08]
  /\ Config.MODBUS_COMMAND = [x01; x03; x00; x00; x00; x07] ++ [x04; x08]
  /\ SensorReader._crc16_modbus [x31; x32; x33; x34; x35; x36; x37; x38; x39]
     = Some [x37; x4b].
Proof.
  split; [exact crc16_modbus_total|].
  split.
  - intros data. rewrite crc16_modbus_total. unfold Crc16Modbus.checksum.
    pose proof (crc_register_range data) as Hr.
    unfold SensorReader.crc_register in Hr. rewrite crc_fold_spec in Hr.
    set (r := Crc16Modbus.register 65535 data) in *.
    exists (Py.byte_of_Z (r mod 256)), (Py.byte_of_Z (r / 256)).
    split; [reflexivity|]. split; [|exact Hr].
    rewrite !byte_val_of_Z, Z.mod_mod by lia.
    assert (Hq : 0 <= r / 256 < 256).
    { split; [apply Z.div_pos; lia | apply Z.div_lt_upper_bound; lia]. }
    rewrite (Z.mod_small (r / 256)) by lia.
    pose proof (Z.div_mod r 256 ltac:(lia)). lia.
  - repeat split; vm_compute; reflexivity.
Qed.

(** *** The monad *)

Lemma bind_ok {A B} (m : M A) (k : A -> M B) (w w1 : world) (a : A) :
  m w = (Ok a, w1) -> bind m k w = k a w1.
Proof. intros H. unfold bind. rewrite H. reflexivity. Qed.

Lemma bind_ok_inv {A B} (m : M A) (k : A -> M B) (w w2 : world) (b : B) :
  bind m k w = (Ok b, w2) ->
  exists a w1, m w = (Ok a, w1) /\ k a w1 = (Ok b, w2).
Proof.
  unfold bind. destruct (m w) as [[a|e] w1]; intros H.
  - exists a, w1. split; [reflexivity | exact H].
  - discriminate H.
Qed.

Lemma bind_run_ext {A B} (m : M A) (k k' : A -> M B) (w : world) :
  (forall a w1, m w = (Ok a, w1) -> k a w1 = k' a w1) ->
  bind m k w = bind m k' w.
Proof.
  intros H. unfold bind. destruct (m w) as [[a|e] w1]; [|reflexivity].
  apply H. reflexivity.
Qed.

Lemma advance_0 {A} (o : oracle A) : advance 0 o = o.
Proof. destruct o as [f n]. unfold advance. simpl. rewrite Nat.add_0_r. reflexivity. Qed.

Lemma advance_advance {A} (n m : nat) (o : oracle A) :
  advance m (advance n o) = advance (n + m) o.
Proof. unfold advance. simpl. rewrite Nat.add_assoc. reflexivity. Qed.

Lemma ask_advance {A} (o : oracle A) : ask o = (next o, advance 1 o).
Proof.
  unfold ask, next, advance. simpl. rewrite Nat.add_1_r. reflexivity.
Qed.

(** *** Decoding *)

Lemma int_from_bytes_big_2 (hi lo : byte) :
  Py.int_from_bytes_big [hi; lo] = 256 * Py.byte_val hi + Py.byte_val lo.
Proof. unfold Py.int_from_bytes_big. cbn [fold_left]. lia. Qed.

Lemma slice_2 {A} (d : A) (l : list A) (i : nat) :
  (S i < length l)%nat -> Py.slice l i (S (S i)) = [nth i l d; nth (S i) l d].
Proof.
  unfold Py.slice. replace (S (S i) - i)%nat with 2%nat by lia.
  revert l. induction i as [|i IH]; intros l Hl.
  - destruct l as [|a [|b l]]; simpl in *; try lia. reflexivity.
  - destruct l as [|a l]; simpl in *; [lia|]. apply IH. lia.
Qed.

Lemma be16_range (frame : list byte) (i : nat) : 0 <= be16 frame i < 65536.
Proof.
  unfold be16.
  pose proof (byte_val_range (nth i frame x00)).
  pose proof (byte_val_range (nth (S i) frame x00)). lia.
Qed.

Lemma field_be16 (frame : list byte) (i : nat) :
  (S i < length frame)%nat ->
  Py.int_from_bytes_big (Py.slice frame i (S (S i))) = be16 frame i.
Proof.
  intros H. rewrite (slice_2 x00) by exact H. apply int_from_bytes_big_2.
Qed.

(** C6. Decoding is a function of the frame alone for the seven measurements:
    on a frame of the configured length they are the big-endian unsigned
    16-bit fields at offsets 3, 5, 7, 9, 11, 13 and 15 divided by 10, in the
    order moisture, temperature, conductivity, pH, nitrogen, phosphorus,
    potassium; bytes 01 F4 at offset 3 decode to moisture 50 and bytes 00 FA
    at offset 5 to temperature 25. *)
Theorem C6_decode_fields (s : sensor_reader) (now : string)
    (frame : list byte) :
  length frame = Config.RESPONSE_LENGTH ->
  let r := SensorReader.parse_sensor_data s now frame in
  (moisture r = SensorReader.div10 (be16 frame 3)
   /\ temperature r = SensorReader.div10 (be16 frame 5)
   /\ conductivity r = SensorReader.div10 (be16 frame 7)
   /\ ph r = SensorReader.div10 (be16 frame 9)
   /\ nitrogen r = SensorReader.div10 (be16 frame 11)
   /\ phosphorus r = SensorReader.div10 (be16 frame 13)
   /\ potassium r = SensorReader.div10 (be16 frame 15))
  /\ (forall i, 0 <= be16 frame i < 65536)
  /\ (forall s' now',
         let r' := SensorReader.parse_sensor_data s' now' frame in
         (moisture r', temperature r', conductivity r', ph r',
          nitrogen r', phosphorus r', potassium r')
         = (moisture r, temperature r, conductivity r, ph r,
            nitrogen r, phosphorus r, potassium r))
  /\ (Py.slice frame 3 5 = [x01; xf4] -> (moisture r == 50)%Q)
  /\ (Py.slice frame 5 7 = [x00; xfa] -> (temperature r == 25)%Q).
Proof.
  intros Hlen r. unfold Config.RESPONSE_LENGTH in Hlen.
  split.
  { unfold r, SensorReader.parse_sensor_data. simpl.
    rewrite !field_be16 by lia. repeat split. }
  split; [intros i; apply be16_range|].
  split; [reflexivity|].
  split; intros H; unfold r, SensorReader.parse_sensor_data; simpl;
    rewrite H; vm_compute; reflexivity.
Qed.

(** *** Validation *)

Lemma bytes_eqb_eq (a b : list byte) : Py.bytes_eqb a b = true <-> a = b.
Proof.
  unfold Py.bytes_eqb. destruct (list_eq_dec Byte.byte_eq_dec a b); split;
    intros H; congruence.
Qed.

Lemma frame_validb_iff (frame : list byte) :
  frame_validb frame = true <-> frame_valid frame.
Proof.
  unfold frame_validb, frame_valid.
  rewrite andb_true_iff, Nat.eqb_eq.
  destruct (SensorReader._crc16_modbus (Py.slice_but_last frame 2)) as [crc|].
  - rewrite bytes_eqb_eq. split; intros [H1 H2]; split; congruence.
  - split; intros [_ H]; discriminate H.
Qed.

Lemma validate_and_parse_spec (frame : list byte) (w : world) :
  SensorReader.validate_and_parse frame w =
  if frame_validb frame
  then (Ok (Some (SensorReader.parse_sensor_data
                    (sensor w) (next (wall_clock w)) frame)),
        with_wall_clock (advance 1 (wall_clock w)) w)
  else (Ok None, w).
Proof.
  unfold SensorReader.validate_and_parse, frame_validb.
  destruct (length frame =? Config.RESPONSE_LENGTH)%nat; [|reflexivity].
  cbn [negb andb]. rewrite crc16_modbus_total.
  destruct (Py.bytes_eqb _ _); [|reflexivity].
  cbn [negb]. unfold bind, datetime_now, gets, ret.
  rewrite ask_advance. reflexivity.
Qed.

Lemma acquire_received (w w1 : world) (frame : list byte) :
  SensorReader.receive_response w = (Ok frame, w1) ->
  SensorReader.acquire w = SensorReader.validate_and_parse frame w1.
Proof.
  intros H. unfold SensorReader.acquire, try_except.
  rewrite (bind_ok _ _ _ _ _ H), validate_and_parse_spec.
  destruct (frame_validb frame); reflexivity.
Qed.

Lemma serial_read_inv (size : nat) (w w1 : world) (bs : list byte) :
  SensorReader.serial_read size w = (Ok bs, w1) ->
  next (port_read w) = ReadBytes bs
  /\ w1 = with_port_read (advance 1 (port_read w)) w.
Proof.
  unfold SensorReader.serial_read.
  destruct (serial_conn (sensor w)) as [c|]; [|discriminate].
  destruct (is_open c); [|discriminate].
  rewrite ask_advance. destruct (next (port_read w)) as [bs'|]; [|discriminate].
  intros H. injection H as <- <-. split; reflexivity.
Qed.

Lemma serial_write_inv (data : list byte) (w w1 : world) :
  SensorReader.serial_write data w = (Ok tt, w1) ->
  w1 = with_port_write (advance 1 (port_write w)) w.
Proof.
  unfold SensorReader.serial_write.
  destruct (serial_conn (sensor w)) as [c|]; [|discriminate].
  destruct (is_open c); [|discriminate].
  rewrite ask_advance. destruct (next (port_write w)); [|discriminate].
  intros H. injection H as <-. reflexivity.
Qed.

(** The exchange makes the first read and at most one more, and touches
    nothing but the port. *)
Lemma receive_response_inv (w w1 : world) (frame : list byte) :
  SensorReader.receive_response w = (Ok frame, w1) ->
  exists n,
    (1 <= n <= 2)%nat
    /\ w1 = with_port_read (advance n (port_read w))
              (with_port_write (advance 1 (port_write w)) w)
    /\ (n = 2%nat <-> (length (match next (port_read w) with
                               | ReadBytes bs => bs
                               | ReadFail => []
                               end) < Config.RESPONSE_LENGTH)%nat).
Proof.
  unfold SensorReader.receive_response. intros H.
  apply bind_ok_inv in H as ([] & wa & Hw & H).
  apply serial_write_inv in Hw. subst wa.
  apply bind_ok_inv in H as (first & wb & Hr & H).
  apply serial_read_inv in Hr as [Hfirst ->].
  cbn [port_read with_port_write] in Hfirst. rewrite Hfirst.
  unfold Config.RESPONSE_LENGTH in *.
  destruct (length first =? 19)%nat eqn:El;
    cbn [negb] in H.
  - injection H as <- <-. exists 1%nat. apply Nat.eqb_eq in El.
    repeat split; try lia.
  - apply Nat.eqb_neq in El.
    destruct (length first <? 19)%nat eqn:Es.
    + apply Nat.ltb_lt in Es.
      apply bind_ok_inv in H as (additional & wc & Hr & H).
      apply serial_read_inv in Hr as [_ ->].
      injection H as <- <-. exists 2%nat.
      repeat split; try lia.
      rewrite advance_advance. reflexivity.
    + apply Nat.ltb_ge in Es. injection H as <- <-. exists 1%nat.
      repeat split; try lia.
Qed.


(** *** Quantities an operation leaves alone *)

Section Preserves.

Context {X : Type} (f : world -> X).

Lemma preserves_ret {A} (a : A) : preserves f (ret a).
Proof. intros w. reflexivity. Qed.

Lemma preserves_raise {A} (e : exn) : preserves f (@raise A e).
Proof. intros w. reflexivity. Qed.

Lemma preserves_gets {A} (g : world -> A) : preserves f (gets g).
Proof. intros w. reflexivity. Qed.

Lemma preserves_modify (g : world -> world) :
  (forall w, f (g w) = f w) -> preserves f (modify g).
Proof. intros H w. apply H. Qed.

Lemma preserves_bind {A B} (m : M A) (k : A -> M B) :
  preserves f m -> (forall a, preserves f (k a)) -> preserves f (bind m k).
Proof.
  intros Hm Hk w. unfold bind. specialize (Hm w).
  destruct (m w) as [[a|e] w1]; simpl in *.
  - rewrite Hk. exact Hm.
  - exact Hm.
Qed.

Lemma preserves_try_except {A} (m : M A) (h : exn -> option (M A)) :
  preserves f m ->
  (forall e, match h e with Some k => preserves f k | None => True end) ->
  preserves f (try_except m h).
Proof.
  intros Hm Hh w. unfold try_except. specialize (Hm w).
  destruct (m w) as [[a|e] w1]; simpl in *; [exact Hm|].
  specialize (Hh e). destruct (h e) as [k|]; simpl.
  - rewrite Hh. exact Hm.
  - exact Hm.
Qed.

Lemma preserves_time_time :
  (forall o w, f (with_clock o w) = f w) -> preserves f time_time.
Proof. intros H w. unfold time_time. rewrite ask_advance. apply H. Qed.

Lemma preserves_datetime_now :
  (forall o w, f (with_wall_clock o w) = f w) -> preserves f datetime_now.
Proof. intros H w. unfold datetime_now. rewrite ask_advance. apply H. Qed.

Lemma preserves_http_request (rq : request) :
  (forall o rs w, f (with_http o rs w) = f w) ->
  preserves f (http_request rq).
Proof.
  intros H w. unfold http_request. rewrite ask_advance.
  destruct (next (http w)); apply H.
Qed.

Lemma preserves_response_json (r : response) :
  preserves f (response_json r).
Proof.
  intros w. unfold response_json.
  destruct (body r) as [fields| |[|]]; reflexivity.
Qed.

Lemma preserves_serial_Serial :
  (forall o w, f (with_port_open o w) = f w) ->
  preserves f SensorReader.serial_Serial.
Proof.
  intros H w. unfold SensorReader.serial_Serial. rewrite ask_advance.
  destruct (next (port_open w)); apply H.
Qed.

Lemma preserves_serial_write (data : list byte) :
  (forall o w, f (with_port_write o w) = f w) ->
  preserves f (SensorReader.serial_write data).
Proof.
  intros H w. unfold SensorReader.serial_write.
  destruct (serial_conn (sensor w)) as [c|]; [|reflexivity].
  destruct (is_open c); [|reflexivity].
  rewrite ask_advance. destruct (next (port_write w)); apply H.
Qed.

Lemma preserves_serial_read (size : nat) :
  (forall o w, f (with_port_read o w) = f w) ->
  preserves f (SensorReader.serial_read size).
Proof.
  intros H w. unfold SensorReader.serial_read.
  destruct (serial_conn (sensor w)) as [c|]; [|reflexivity].
  destruct (is_open c); [|reflexivity].
  rewrite ask_advance. destruct (next (port_read w)); apply H.
Qed.

End Preserves.

(** Goals [preserves f m] by the structure of [m]; side conditions on [f]
    hold by computation when [f] reads a field the step does not write. *)
Ltac preserve_step :=
  match goal with
  | |- True => exact I
  | H : preserves ?f ?m |- preserves ?f ?m => exact H
  | H : forall x, preserves ?f (?m x) |- preserves ?f (?m _) => apply H
  | H : forall x y, preserves ?f (?m x y) |- preserves ?f (?m _ _) => apply H
  | |- preserves _ (ret _) => apply preserves_ret
  | |- preserves _ (raise _) => apply preserves_raise
  | |- preserves _ (gets _) => apply preserves_gets
  | |- preserves _ (modify _) => apply preserves_modify; intros ?; reflexivity
  | |- preserves _ (bind _ _) => apply preserves_bind; [|intros ?]
  | |- preserves _ (try_except _ _) =>
      apply preserves_try_except; [|intros [[| |]| |]; cbv beta iota]
  | |- preserves _ time_time =>
      apply preserves_time_time; intros ? ?; reflexivity
  | |- preserves _ datetime_now =>
      apply preserves_datetime_now; intros ? ?; reflexivity
  | |- preserves _ (http_request _) =>
      apply preserves_http_request; intros ? ? ?; reflexivity
  | |- preserves _ (response_json _) => apply preserves_response_json
  | |- preserves _ SensorReader.serial_Serial =>
      apply preserves_serial_Serial; intros ? ?; reflexivity
  | |- preserves _ (SensorReader.serial_write _) =>
      apply preserves_serial_write; intros ? ?; reflexivity
  | |- preserves _ (SensorReader.serial_read _) =>
      apply preserves_serial_read; intros ? ?; reflexivity
  | |- preserves _ (if ?b then _ else _) => destruct b
  | |- preserves _ (match ?x with _ => _ end) => destruct x
  | H : context [preserves] |- preserves _ _ => apply H
  end.

Ltac preserve :=
  unfold SensorReader.update, NetworkManager.update, MainController.update,
    requests_get, requests_post;
  repeat preserve_step.

(** The same, through the operations that are not loops. *)
Ltac preserve_through :=
  unfold MainController.sync_offline_data,
    SensorReader.read_sensor_data, SensorReader.acquire,
    SensorReader.receive_response, SensorReader.validate_and_parse,
    SensorReader.initialize_serial, SensorReader.check_assignment_status,
    SensorReader.check_via_gateway, SensorReader.check_via_db,
    SensorReader.handle_assignment_response,
    NetworkManager.check_all_connectivity, NetworkManager.check_internet,
    NetworkManager.check_db_pi, NetworkManager.check_gateway_pi,
    NetworkManager.can_reach_gateway_pi,
    GatewayLogger.save, GatewayLogger.send_to_gateway,
    OfflineLogger.save, OfflineLogger.load_batch, OfflineLogger.remove_synced;
  preserve.

Lemma initialize_serial_keeps_assignment (attempts : list nat) :
  preserves (fun w => is_assigned (sensor w))
            (SensorReader.initialize_serial_loop attempts).
Proof.
  induction attempts as [|attempt rest IH];
    cbn [SensorReader.initialize_serial_loop]; preserve.
Qed.

Lemma acquire_keeps_assignment :
  preserves (fun w => is_assigned (sensor w)) SensorReader.acquire.
Proof.
  unfold SensorReader.acquire, SensorReader.receive_response,
    SensorReader.validate_and_parse. preserve.
Qed.


(** *** The assignment check *)

Lemma handle_assignment_response_object (fields : list (string * Py.value))
    (w : world) :
  SensorReader.handle_assignment_response (Some fields) w
  = (Ok tt, handled fields w).
Proof.
  unfold SensorReader.handle_assignment_response, handled.
  destruct (Py.dict_mem fields "assigned"); [|reflexivity].
  unfold bind, gets, SensorReader.update, modify. cbn.
  destruct (Py.truthy (Py.dict_get fields "assigned")); reflexivity.
Qed.

Lemma check_via_db_eq (current_time : Z) (w : world) :
  SensorReader.check_via_db current_time w =
  let w1 := logged (Get (Config.get_assignment_url (machine_id (sensor w)))) w in
  match next (http w) with
  | Failure _ => (Ok (is_assigned (sensor w1)), w1)
  | Response r =>
      if status_code r =? 200 then
        match body r with
        | JsonObject fields =>
            let w2 := stamped current_time (handled fields w1) in
            (Ok (is_assigned (sensor w2)), w2)
        | JsonInert =>
            let w2 := stamped current_time w1 in
            (Ok (is_assigned (sensor w2)), w2)
        | JsonError _ => (Ok (is_assigned (sensor w1)), w1)
        end
      else if status_code r =? 404 then
        (Ok (Py.PyBool false),
         stamped current_time
           (with_sensor
              (SensorReader.with_is_assigned (Py.PyBool false) (sensor w1))
              w1))
      else (Ok (is_assigned (sensor w1)), w1)
  end.
Proof.
  unfold SensorReader.check_via_db, try_except, bind at 1, gets at 1.
  unfold bind at 1, requests_get, http_request. rewrite ask_advance.
  fold (logged (Get (Config.get_assignment_url (machine_id (sensor w)))) w).
  cbv zeta.
  set (w1 := logged _ w).
  destruct (next (http w)) as [r|[| |]]; try reflexivity.
  destruct (status_code r =? 200).
  - unfold bind at 1, response_json.
    destruct (body r) as [fields| |[|]]; try reflexivity.
    unfold ret at 1, bind at 1.
    rewrite handle_assignment_response_object. reflexivity.
  - destruct (status_code r =? 404); reflexivity.
Qed.

Lemma check_via_gateway_eq (current_time : Z) (w : world) :
  SensorReader.check_via_gateway current_time w =
  let w1 := logged (Get (gateway_assignment_url w)) w in
  match next (http w) with
  | Failure _ => (Ok None, w1)
  | Response r =>
      if status_code r =? 200 then
        match body r with
        | JsonObject fields =>
            let w2 := stamped current_time (handled fields w1) in
            (Ok (Some (is_assigned (sensor w2))), w2)
        | JsonInert =>
            let w2 := stamped current_time w1 in
            (Ok (Some (is_assigned (sensor w2))), w2)
        | JsonError true => (Ok None, w1)
        | JsonError false => (Raise OtherException, w1)
        end
      else (Ok None, w1)
  end.
Proof.
  unfold SensorReader.check_via_gateway, try_except, bind at 1, gets at 1.
  unfold bind at 1, requests_get, http_request. rewrite ask_advance.
  fold (gateway_assignment_url w).
  fold (logged (Get (gateway_assignment_url w)) w).
  cbv zeta.
  set (w1 := logged _ w).
  destruct (next (http w)) as [r|[| |]]; try reflexivity.
  destruct (status_code r =? 200); [|reflexivity].
  unfold bind at 1, response_json.
  destruct (body r) as [fields| |[|]]; try reflexivity.
  unfold ret at 1, bind at 1.
  rewrite handle_assignment_response_object. reflexivity.
Qed.

Lemma check_assignment_status_eq (force : bool) (w : world) :
  SensorReader.check_assignment_status force w =
  let now := next (clock w) in
  let w0 := with_clock (advance 1 (clock w)) w in
  if negb force
     && (now - last_assignment_check (sensor w)
         <? Config.ASSIGNMENT_CHECK_INTERVAL)
  then (Ok (is_assigned (sensor w)), w0)
  else
    match SensorReader.check_via_gateway now w0 with
    | (Ok (Some v), w1) => (Ok v, w1)
    | (Ok None, w1) => SensorReader.check_via_db now w1
    | (Raise e, w1) => (Raise e, w1)
    end.
Proof.
  unfold SensorReader.check_assignment_status, bind at 1, time_time.
  rewrite ask_advance. unfold bind at 1, gets at 1. cbv zeta.
  cbn [sensor with_clock].
  destruct (negb force && _); [reflexivity|].
  unfold bind.
  destruct (SensorReader.check_via_gateway _ _) as [[[v|]|e] w1]; reflexivity.
Qed.

(** When the check returns, it returns the flag as it then stands. *)
Lemma check_assignment_status_returns_flag (force : bool) (w w1 : world)
    (v : Py.value) :
  SensorReader.check_assignment_status force w = (Ok v, w1) ->
  v = is_assigned (sensor w1).
Proof.
  rewrite check_assignment_status_eq. cbv zeta.
  destruct (negb force && _).
  { intros H. injection H as <- <-. reflexivity. }
  rewrite check_via_gateway_eq. cbv zeta.
  set (wg := logged _ _).
  assert (Hdb : forall t w2,
             SensorReader.check_via_db t wg = (Ok v, w2) ->
             v = is_assigned (sensor w2)).
  { intros t w2. rewrite check_via_db_eq. cbv zeta.
    destruct (next (http wg)) as [r|e].
    - destruct (status_code r =? 200).
      + destruct (body r) as [fields| |b];
          intros H; injection H as <- <-; reflexivity.
      + destruct (status_code r =? 404);
          intros H; injection H as <- <-; reflexivity.
    - intros H; injection H as <- <-; reflexivity. }
  destruct (next (http _)) as [r|e]; [|apply Hdb].
  destruct (status_code r =? 200); [|apply Hdb].
  destruct (body r) as [fields| |[|]]; try apply Hdb;
    intros H; try discriminate H; injection H as <- <-; reflexivity.
Qed.


(** C8. When an assignment check is due and the Gateway Pi does not settle
    it, the answer of the Database Pi decides: if that query fails for any
    reason other than a 404 (another status, a connection error, a timeout)
    the flag, the farm id and the zone code stay as they were and the old flag
    is returned; if it is a 404 the flag becomes [False]. A check that dies
    in the gateway branch leaves the assignment untouched as well. *)
Theorem C8_assignment_retained (force : bool) (w : world) :
  let now := next (clock w) in
  let w' := world_after (SensorReader.check_assignment_status force) w in
  let v := value_of (SensorReader.check_assignment_status force) w in
  force = true
  \/ Config.ASSIGNMENT_CHECK_INTERVAL <= now - last_assignment_check (sensor w) ->
  (falls_back (next (http w)) ->
   failed_other_than_404 (later (http w) 1) ->
   assignment w' = assignment w
   /\ last_assignment_check (sensor w') = last_assignment_check (sensor w)
   /\ v = Ok (is_assigned (sensor w)))
  /\ (falls_back (next (http w)) ->
      forall r, later (http w) 1 = Response r -> status_code r = 404 ->
      is_assigned (sensor w') = Py.PyBool false
      /\ v = Ok (Py.PyBool false)
      /\ assigned_farm_id (sensor w') = assigned_farm_id (sensor w)
      /\ assigned_zone_code (sensor w') = assigned_zone_code (sensor w)
      /\ last_assignment_check (sensor w') = now)
  /\ (forall r, next (http w) = Response r -> status_code r = 200 ->
      body r = JsonError false ->
      assignment w' = assignment w /\ v = Raise OtherException).
Proof.
  intros now w' v Hdue. unfold v, w', value_of, world_after.
  rewrite check_assignment_status_eq. cbv zeta. fold now.
  replace (negb force
           && (now - last_assignment_check (sensor w)
               <? Config.ASSIGNMENT_CHECK_INTERVAL)) with false.
  2:{ symmetry. apply andb_false_iff.
      destruct Hdue as [-> | H]; [left; reflexivity | right].
      apply Z.ltb_ge. exact H. }
  rewrite check_via_gateway_eq. cbv zeta.
  set (w0 := with_clock (advance 1 (clock w)) w).
  set (wg := logged (Get (gateway_assignment_url w0)) w0).
  change (next (http w0)) with (next (http w)).
  assert (Hnext : next (http wg) = later (http w) 1) by reflexivity.
  assert (Hretained : failed_other_than_404 (later (http w) 1) ->
            assignment (snd (SensorReader.check_via_db now wg)) = assignment w
            /\ last_assignment_check
                 (sensor (snd (SensorReader.check_via_db now wg)))
               = last_assignment_check (sensor w)
            /\ fst (SensorReader.check_via_db now wg)
               = Ok (is_assigned (sensor w))).
  { intros Hd. rewrite check_via_db_eq, Hnext. cbv zeta.
    destruct (later (http w) 1) as [r|e]; simpl in Hd.
    - destruct Hd as [[N2 N4] | [E2 [b Eb]]].
      + apply Z.eqb_neq in N2, N4. rewrite N2, N4. repeat split.
      + apply Z.eqb_eq in E2. rewrite E2, Eb. repeat split.
    - repeat split. }
  assert (Hunassigned : forall r,
            later (http w) 1 = Response r -> status_code r = 404 ->
            is_assigned (sensor (snd (SensorReader.check_via_db now wg)))
            = Py.PyBool false
            /\ fst (SensorReader.check_via_db now wg) = Ok (Py.PyBool false)
            /\ assigned_farm_id
                 (sensor (snd (SensorReader.check_via_db now wg)))
               = assigned_farm_id (sensor w)
            /\ assigned_zone_code
                 (sensor (snd (SensorReader.check_via_db now wg)))
               = assigned_zone_code (sensor w)
            /\ last_assignment_check
                 (sensor (snd (SensorReader.check_via_db now wg))) = now).
  { intros r Hr H4. rewrite check_via_db_eq, Hnext, Hr, H4. cbv zeta.
    repeat split. }
  destruct (next (http w)) as [g|e].
  - destruct (status_code g =? 200) eqn:E2.
    + destruct (body g) as [fields| |[|]] eqn:Eb.
      * split; [intros [N|N]; [apply Z.eqb_eq in E2; contradiction|congruence]|].
        split; [intros [N|N]; [apply Z.eqb_eq in E2; contradiction|congruence]|].
        intros r Hr _ Hb. injection Hr as <-. congruence.
      * split; [intros [N|N]; [apply Z.eqb_eq in E2; contradiction|congruence]|].
        split; [intros [N|N]; [apply Z.eqb_eq in E2; contradiction|congruence]|].
        intros r Hr _ Hb. injection Hr as <-. congruence.
      * split; [intros _; exact Hretained|].
        split; [intros _; exact Hunassigned|].
        intros r Hr _ Hb. injection Hr as <-. congruence.
      * split; [intros [N|N]; [apply Z.eqb_eq in E2; contradiction|congruence]|].
        split; [intros [N|N]; [apply Z.eqb_eq in E2; contradiction|congruence]|].
        intros _ _ _ _. split; reflexivity.
    + split; [intros _; exact Hretained|].
      split; [intros _; exact Hunassigned|].
      intros r Hr H2. injection Hr as <-. apply Z.eqb_neq in E2. contradiction.
  - split; [intros _; exact Hretained|].
    split; [intros _; exact Hunassigned|].
    intros r Hr. discriminate Hr.
Qed.


(** *** The assignment flag across an acquisition *)

Lemma initialize_serial_keeps_running (attempts : list nat) :
  preserves (fun w => running (controller w))
            (SensorReader.initialize_serial_loop attempts).
Proof.
  induction attempts as [|attempt rest IH];
    cbn [SensorReader.initialize_serial_loop]; preserve.
Qed.

Lemma check_internet_keeps_running (urls : list string) :
  preserves (fun w => running (controller w))
            (NetworkManager.check_internet_loop urls).
Proof.
  induction urls as [|url rest IH];
    cbn [NetworkManager.check_internet_loop]; preserve.
Qed.

Lemma sync_loop_keeps_running (records : list Reading) (n : nat) :
  preserves (fun w => running (controller w))
            (MainController.sync_loop records n).
Proof.
  revert n. induction records as [|data rest IH]; intros n;
    cbn [MainController.sync_loop]; preserve_through.
Qed.

Lemma read_sensor_data_inv (w w2 : world) (r : Reading) :
  SensorReader.read_sensor_data w = (Ok (Some r), w2) ->
  exists wa,
    SensorReader.acquire wa = (Ok (Some r), w2)
    /\ Py.truthy (is_assigned (sensor wa)) = true.
Proof.
  unfold SensorReader.read_sensor_data. intros H.
  apply bind_ok_inv in H as (v & w1 & Hv & H).
  apply check_assignment_status_returns_flag in Hv. subst v.
  destruct (Py.truthy (is_assigned (sensor w1))) eqn:Et;
    cbn [negb] in H; [|discriminate H].
  apply bind_ok_inv in H as (conn & wc & Hc & H).
  injection Hc as <- <-.
  apply bind_ok_inv in H as (ready & wa & Hr & H).
  destruct ready; cbn [negb] in H; [|discriminate H].
  exists wa. split; [exact H|].
  destruct (serial_conn (sensor w1)).
  - injection Hr as <-. exact Et.
  - pose proof (initialize_serial_keeps_assignment
                  (seq 0 Config.MAX_RETRY_ATTEMPTS) w1) as Hk.
    unfold SensorReader.initialize_serial in Hr. rewrite Hr in Hk.
    simpl in Hk. rewrite Hk. exact Et.
Qed.

Lemma read_sensor_data_assigned (w w2 : world) (r : Reading) :
  SensorReader.read_sensor_data w = (Ok (Some r), w2) ->
  Py.truthy (is_assigned (sensor w2)) = true.
Proof.
  intros H. apply read_sensor_data_inv in H as (wa & Ha & Ht).
  pose proof (acquire_keeps_assignment wa) as Hk.
  rewrite Ha in Hk. simpl in Hk. rewrite Hk. exact Ht.
Qed.

Lemma read_sensor_data_gate (w w2 : world) (r : Reading) :
  SensorReader.read_sensor_data w = (Ok (Some r), w2) ->
  exists wa, SensorReader.acquire wa = (Ok (Some r), w2).
Proof.
  intros H. apply read_sensor_data_inv in H as (wa & Ha & _). eauto.
Qed.

Lemma acquire_some_inv (w w2 : world) (r : Reading) :
  SensorReader.acquire w = (Ok (Some r), w2) ->
  exists frame w1,
    SensorReader.receive_response w = (Ok frame, w1)
    /\ SensorReader.validate_and_parse frame w1 = (Ok (Some r), w2).
Proof.
  unfold SensorReader.acquire, try_except.
  destruct (bind SensorReader.receive_response
              SensorReader.validate_and_parse w) as [[[r'|]|e] w'] eqn:E.
  - intros H. injection H as <- <-.
    apply bind_ok_inv in E as (frame & w1 & Hf & Hv). eauto.
  - discriminate.
  - destruct e as [[| |]| |]; discriminate.
Qed.

(** C2. Whatever frame the exchange with the sensor assembles, after at most
    one supplementary read, the acquisition yields a reading exactly when the
    frame has the configured length and its last two bytes are the checksum
    of the others; the reading is then the decoding of that frame, and any
    other frame is rejected with [None] and no further effect. Hence every
    reading [read_sensor_data] returns is the decoding of a frame that was
    received and is valid. *)
Theorem C2_frame_validation :
  (forall (w w1 : world) (frame : list byte),
      SensorReader.receive_response w = (Ok frame, w1) ->
      (asked (port_read w1) <= asked (port_read w) + 2)%nat
      /\ (frame_valid frame ->
          SensorReader.acquire w =
          (Ok (Some (SensorReader.parse_sensor_data
                       (sensor w) (next (wall_clock w)) frame)),
           with_wall_clock (advance 1 (wall_clock w)) w1))
      /\ (~ frame_valid frame -> SensorReader.acquire w = (Ok None, w1))
      /\ ((exists r w2, SensorReader.acquire w = (Ok (Some r), w2))
          <-> frame_valid frame))
  /\ (forall (w w3 : world) (r : Reading),
         SensorReader.read_sensor_data w = (Ok (Some r), w3) ->
         exists wa wb frame,
           SensorReader.receive_response wa = (Ok frame, wb)
           /\ frame_valid frame
           /\ r = SensorReader.parse_sensor_data
                    (sensor wb) (next (wall_clock wb)) frame).
Proof.
  split.
  - intros w w1 frame H.
    pose proof (receive_response_inv _ _ _ H) as (n & Hn & Hw1 & _).
    rewrite (acquire_received _ _ _ H), validate_and_parse_spec.
    assert (Hs : sensor w1 = sensor w) by (subst w1; reflexivity).
    assert (Hc : wall_clock w1 = wall_clock w) by (subst w1; reflexivity).
    rewrite Hs, Hc.
    split; [subst w1; simpl; lia|].
    destruct (frame_validb frame) eqn:E.
    + apply frame_validb_iff in E.
      split; [intros _; reflexivity|].
      split; [intros N; contradiction|].
      split; [intros _; exact E | intros _; eauto].
    + assert (N : ~ frame_valid frame).
      { intros V. apply frame_validb_iff in V. congruence. }
      split; [intros V; contradiction|].
      split; [intros _; reflexivity|].
      split; [intros (r & w2 & Hr); discriminate Hr | intros V; contradiction].
  - intros w w3 r H.
    apply read_sensor_data_gate in H as (wa & Ha).
    apply acquire_some_inv in Ha as (frame & wb & Hf & Hv).
    exists wa, wb, frame. split; [exact Hf|].
    rewrite validate_and_parse_spec in Hv.
    destruct (frame_validb frame) eqn:E; [|discriminate Hv].
    apply frame_validb_iff in E. split; [exact E|].
    injection Hv as <- _. reflexivity.
Qed.

(** C10. A reading returned by [read_sensor_data] is returned with the
    assignment flag of the device true (as Python tests it, and literally
    [True] when the flag is a Boolean); hence the controller never takes the
    branch that stops the run loop after a successful collection: the cycle
    is the cycle without that branch, and it leaves [running] as it found
    it. *)
Theorem C10_reading_implies_assigned :
  (forall w w2 r,
      SensorReader.read_sensor_data w = (Ok (Some r), w2) ->
      Py.truthy (is_assigned (sensor w2)) = true
      /\ (forall b, is_assigned (sensor w2) = Py.PyBool b -> b = true))
  /\ (forall w,
         MainController.collect_and_process_data w
         = collect_and_process_data_without_stop w)
  /\ (forall w,
         running (controller
                    (world_after MainController.collect_and_process_data w))
         = running (controller w)).
Proof.
  assert (Heq : forall w,
             MainController.collect_and_process_data w
             = collect_and_process_data_without_stop w).
  { intros w.
    unfold MainController.collect_and_process_data,
      collect_and_process_data_without_stop.
    apply bind_run_ext. intros c w1 _.
    apply bind_run_ext. intros [data|] w2 E; [|reflexivity].
    apply read_sensor_data_assigned in E.
    apply bind_run_ext. intros n w3 Hn. injection Hn as <- <-.
    apply bind_run_ext. intros [] w4 Hu. injection Hu as <-.
    unfold bind at 1, gets at 1.
    cbn [sensor with_controller]. rewrite E. reflexivity. }
  split; [|split; [exact Heq|]].
  - intros w w2 r H. apply read_sensor_data_assigned in H.
    split; [exact H|]. intros b Hb. rewrite Hb in H. exact H.
  - intros w. unfold world_after. rewrite Heq.
    revert w. change (preserves (fun w => running (controller w))
                        collect_and_process_data_without_stop).
    unfold collect_and_process_data_without_stop.
    pose proof initialize_serial_keeps_running.
    pose proof check_internet_keeps_running.
    pose proof sync_loop_keeps_running.
    preserve_through.
Qed.


(** *** The offline queue *)

Lemma tail_length {A} (l : list A) (n : nat) :
  length (Py.tail l n) = Nat.min (length l) n.
Proof. unfold Py.tail. rewrite length_skipn. lia. Qed.

Lemma tail_all {A} (l : list A) (n : nat) :
  (length l <= n)%nat -> Py.tail l n = l.
Proof.
  intros H. unfold Py.tail.
  replace (length l - n)%nat with 0%nat by lia. reflexivity.
Qed.

Lemma tail_suffix {A} (l : list A) (n : nat) :
  l = firstn (length l - n) l ++ Py.tail l n.
Proof. unfold Py.tail. symmetry. apply firstn_skipn. Qed.

Lemma tail_app_tail {A} (l ys : list A) (n : nat) :
  Py.tail (Py.tail l n ++ ys) n = Py.tail (l ++ ys) n.
Proof.
  destruct (Nat.le_gt_cases (length l) n) as [H|H].
  - rewrite (tail_all l n H). reflexivity.
  - unfold Py.tail at 1 3. rewrite !length_app, tail_length.
    replace (Nat.min (length l) n + length ys - n)%nat with (length ys) by lia.
    replace (length l + length ys - n)%nat
      with ((length l - n) + length ys)%nat by lia.
    rewrite Nat.add_comm, <- skipn_skipn.
    f_equal. unfold Py.tail. rewrite skipn_app.
    replace (length l - n - length l)%nat with 0%nat by lia.
    reflexivity.
Qed.

Lemma save_eq (data : Reading) (w : world) :
  OfflineLogger.save data w =
  (Ok true,
   with_offline
     (OfflineLogger.to_csv (OfflineLogger.combined (offline w) data)
                           (offline w)) w).
Proof. reflexivity. Qed.

Lemma rows_after_save (o : offline_logger) (data : Reading) :
  (1 <= max_records o)%nat ->
  OfflineLogger.combined o data
  = Py.tail (OfflineLogger.rows o ++ [data]) (max_records o).
Proof.
  intros Hcap. unfold OfflineLogger.combined, OfflineLogger.rows.
  destruct (storage o) as [df|].
  - destruct (max_records o <? length (df ++ [data]))%nat eqn:E;
      [reflexivity|].
    apply Nat.ltb_ge in E. symmetry. apply tail_all. exact E.
  - symmetry. apply tail_all. simpl. exact Hcap.
Qed.

Lemma save_all_rows (readings : list Reading) (w : world) :
  (1 <= max_records (offline w))%nat ->
  readings <> [] ->
  save_all readings w =
  (Ok tt,
   with_offline
     (OfflineLogger.to_csv
        (Py.tail (OfflineLogger.rows (offline w) ++ readings)
                 (max_records (offline w)))
        (offline w)) w).
Proof.
  revert w. induction readings as [|data rest IH]; intros w Hcap Hne;
    [contradiction|].
  cbn [save_all]. unfold bind. rewrite save_eq.
  rewrite (rows_after_save _ _ Hcap).
  destruct rest as [|data' rest'].
  - reflexivity.
  - rewrite IH; [|exact Hcap|discriminate].
    cbn [offline with_offline OfflineLogger.to_csv max_records
           OfflineLogger.rows storage].
    rewrite tail_app_tail, <- app_assoc. reflexivity.
Qed.

Lemma load_batch_eq (batch_size : nat) (w : world) :
  OfflineLogger.load_batch batch_size w
  = (Ok (firstn batch_size (OfflineLogger.rows (offline w))), w).
Proof.
  unfold OfflineLogger.load_batch, try_except, bind, gets,
    OfflineLogger.rows.
  destruct (storage (offline w)) as [[|data df]|]; cbn;
    rewrite ?firstn_nil; reflexivity.
Qed.

Lemma remove_synced_eq (count : nat) (w : world) :
  exists w',
    OfflineLogger.remove_synced count w = (Ok true, w')
    /\ OfflineLogger.rows (offline w')
       = skipn count (OfflineLogger.rows (offline w))
    /\ max_records (offline w') = max_records (offline w)
    /\ (forall o, with_offline o w' = with_offline o w).
Proof.
  unfold OfflineLogger.remove_synced, try_except, bind, gets,
    OfflineLogger.rows.
  destruct (storage (offline w)) as [df|] eqn:E.
  - destruct (length df <=? count)%nat eqn:El; cbn.
    + eexists. split; [reflexivity|]. cbn.
      apply Nat.leb_le in El. rewrite skipn_all2 by exact El.
      repeat split.
    + eexists. split; [reflexivity|]. cbn. repeat split.
  - exists w. rewrite E. rewrite skipn_nil. repeat split.
Qed.

(** C7. [load_batch n] returns the first [n] rows of the queue, that is at
    most [n] of its oldest entries in queue order; it changes nothing, so it
    removes no entry and gives the same batch when called again; on an empty
    queue the batch is empty; and after any sequence of enqueues on a fresh
    queue of capacity at least one, the batch is the oldest [n] surviving
    readings in the order they were enqueued. *)
Theorem C7_peek_batch (n : nat) (w : world) :
  let batch := firstn n (OfflineLogger.rows (offline w)) in
  OfflineLogger.load_batch n w = (Ok batch, w)
  /\ (length batch <= n)%nat
  /\ OfflineLogger.rows (offline w)
     = batch ++ skipn n (OfflineLogger.rows (offline w))
  /\ (OfflineLogger.rows (offline w) = [] -> batch = [])
  /\ OfflineLogger.load_batch n (world_after (OfflineLogger.load_batch n) w)
     = OfflineLogger.load_batch n w
  /\ (forall readings,
         storage (offline w) = None ->
         (1 <= max_records (offline w))%nat ->
         value_of (save_all readings ;; OfflineLogger.load_batch n) w
         = Ok (firstn n (Py.tail readings (max_records (offline w))))).
Proof.
  intros batch.
  split; [apply load_batch_eq|].
  split; [apply firstn_le_length|].
  split; [symmetry; apply firstn_skipn|].
  split; [unfold batch; intros ->; apply firstn_nil|].
  split.
  { unfold world_after. rewrite (load_batch_eq n w). cbn [snd].
    rewrite (load_batch_eq n w). reflexivity. }
  intros readings Hfresh Hcap. unfold value_of, bind.
  destruct readings as [|data rest].
  - cbn [save_all]. unfold ret. rewrite load_batch_eq.
    unfold OfflineLogger.rows, Py.tail. rewrite Hfresh. cbn.
    rewrite firstn_nil. reflexivity.
  - rewrite save_all_rows; [|exact Hcap|discriminate].
    rewrite load_batch_eq. cbn [fst].
    unfold OfflineLogger.rows at 2. rewrite Hfresh. reflexivity.
Qed.

(** C4. With a capacity of at least one (it is configured as 1000), an
    enqueue leaves at most [max_records] rows whatever the queue held before;
    the rows it discards are a prefix of the old rows followed by the new
    one, exactly as many as exceed the capacity, and the new reading is kept
    as the last row. The same holds after any non-empty sequence of
    enqueues. *)
Theorem C4_queue_bound (w : world) :
  (1 <= max_records (offline w))%nat ->
  let capacity := max_records (offline w) in
  let old := OfflineLogger.rows (offline w) in
  (forall data,
      let w' := world_after (OfflineLogger.save data) w in
      let kept := OfflineLogger.rows (offline w') in
      value_of (OfflineLogger.save data) w = Ok true
      /\ max_records (offline w') = capacity
      /\ (length kept <= capacity)%nat
      /\ value_of OfflineLogger.total_records w' = Ok (length kept)
      /\ (exists dropped,
             old ++ [data] = dropped ++ kept
             /\ length dropped = (length old + 1 - capacity)%nat)
      /\ last kept data = data
      /\ kept <> [])
  /\ (forall readings,
         readings <> [] ->
         let w' := world_after (save_all readings) w in
         let kept := OfflineLogger.rows (offline w') in
         (length kept <= capacity)%nat
         /\ value_of OfflineLogger.total_records w' = Ok (length kept)
         /\ kept = Py.tail (old ++ readings) capacity
         /\ exists dropped,
             old ++ readings = dropped ++ kept
             /\ length dropped
                = (length old + length readings - capacity)%nat).
Proof.
  intros Hcap capacity old.
  assert (Hseq : forall readings,
             readings <> [] ->
             let w' := world_after (save_all readings) w in
             let kept := OfflineLogger.rows (offline w') in
             (length kept <= capacity)%nat
             /\ value_of OfflineLogger.total_records w' = Ok (length kept)
             /\ kept = Py.tail (old ++ readings) capacity
             /\ exists dropped,
                 old ++ readings = dropped ++ kept
                 /\ length dropped
                    = (length old + length readings - capacity)%nat).
  { intros readings Hne w' kept.
    assert (Hk : kept = Py.tail (old ++ readings) capacity).
    { unfold kept, w', world_after. rewrite save_all_rows by assumption.
      reflexivity. }
    assert (Hs : storage (offline w') = Some kept).
    { unfold kept, w', world_after. rewrite save_all_rows by assumption.
      reflexivity. }
    split; [rewrite Hk, tail_length; lia|].
    split.
    { unfold value_of, OfflineLogger.total_records, bind, gets.
      rewrite Hs. reflexivity. }
    split; [exact Hk|].
    exists (firstn (length (old ++ readings) - capacity) (old ++ readings)).
    split; [rewrite Hk; apply tail_suffix|].
    rewrite length_firstn, length_app. lia. }
  split; [|exact Hseq].
  intros data w' kept.
  destruct (Hseq [data] ltac:(discriminate)) as (Hlen & Hcount & Hk & Hdrop).
  assert (Hw : world_after (save_all [data]) w = w') by reflexivity.
  rewrite Hw in Hlen, Hcount, Hk, Hdrop. fold kept in Hlen, Hcount, Hk, Hdrop.
  split; [reflexivity|].
  split; [reflexivity|].
  split; [exact Hlen|].
  split; [exact Hcount|].
  split; [exact Hdrop|].
  assert (Hlast : exists front, kept = front ++ [data]).
  { rewrite Hk. unfold Py.tail. rewrite skipn_app, length_app. cbn [length].
    replace (length old + 1 - capacity - length old)%nat with 0%nat by lia.
    eexists. reflexivity. }
  destruct Hlast as [front ->].
  split; [apply last_last|].
  intros N. apply app_eq_nil in N as [_ N]. discriminate N.
Qed.


(** *** The drain *)

Lemma with_http_same (w : world) : with_http (http w) (requests w) w = w.
Proof. destruct w. reflexivity. Qed.

Lemma send_to_gateway_eq (data : Reading) (w : world) :
  GatewayLogger.send_to_gateway data w
  = (Ok (accepted (next (http w))),
     logged (Post Config.get_gateway_data_url data) w).
Proof.
  unfold GatewayLogger.send_to_gateway, try_except, bind at 1,
    requests_post, http_request, accepted.
  rewrite ask_advance.
  fold (logged (Post Config.get_gateway_data_url data) w).
  destruct (next (http w)) as [r|[| |]]; try reflexivity.
  destruct (status_code r =? 200).
  - unfold bind, response_json.
    destruct (body r) as [fields| |[|]]; reflexivity.
  - destruct (status_code r =? 202); [reflexivity|].
    destruct (status_code r =? 403) eqn:E3.
    + apply Z.eqb_eq in E3. rewrite E3. reflexivity.
    + destruct (status_code r =? 503); reflexivity.
Qed.

Lemma confirmed_le (n : nat) (o : oracle http_outcome) :
  (confirmed o n <= n)%nat.
Proof.
  revert o. induction n as [|n IH]; intros o; cbn [confirmed]; [lia|].
  destruct (accepted (next o)); [|lia]. specialize (IH (advance 1 o)). lia.
Qed.

Lemma confirmed_all_accepted (n : nat) (o : oracle http_outcome) (i : nat) :
  (i < confirmed o n)%nat -> accepted (later o i) = true.
Proof.
  revert o i. induction n as [|n IH]; intros o i; cbn [confirmed]; [lia|].
  destruct (accepted (next o)) eqn:E; [|lia].
  destruct i as [|i]; intros Hi.
  - unfold later. rewrite Nat.add_0_r. exact E.
  - specialize (IH (advance 1 o) i ltac:(lia)).
    unfold later, advance in *. cbn [answers asked] in IH.
    replace (asked o + S i)%nat with (asked o + 1 + i)%nat by lia. exact IH.
Qed.

Lemma confirmed_first_failure (n : nat) (o : oracle http_outcome) :
  (confirmed o n < n)%nat -> accepted (later o (confirmed o n)) = false.
Proof.
  revert o. induction n as [|n IH]; intros o; cbn [confirmed]; [lia|].
  destruct (accepted (next o)) eqn:E; intros Hk.
  - specialize (IH (advance 1 o) ltac:(lia)).
    unfold later, advance in *. cbn [answers asked] in IH.
    replace (asked o + S (confirmed {| answers := answers o;
                                       asked := asked o + 1 |} n))%nat
      with (asked o + 1 + confirmed {| answers := answers o;
                                       asked := asked o + 1 |} n)%nat by lia.
    exact IH.
  - unfold later. rewrite Nat.add_0_r. exact E.
Qed.

Lemma sync_loop_eq (records : list Reading) (successful_syncs : nat)
    (w : world) :
  let k := confirmed (http w) (length records) in
  MainController.sync_loop records successful_syncs w
  = (Ok (successful_syncs + k)%nat,
     with_http (advance (Nat.min (S k) (length records)) (http w))
               (requests w ++ posts (firstn (S k) records)) w).
Proof.
  revert successful_syncs w.
  induction records as [|data rest IH]; intros n w k.
  - cbn. unfold ret. rewrite advance_0, app_nil_r, with_http_same.
    rewrite Nat.add_0_r. reflexivity.
  - cbn [MainController.sync_loop]. unfold bind, try_except.
    rewrite send_to_gateway_eq. unfold k. cbn [confirmed length].
    destruct (accepted (next (http w))).
    + rewrite IH. cbv zeta.
      cbn [logged http requests with_http].
      set (k' := confirmed (advance 1 (http w)) (length rest)).
      rewrite advance_advance.
      replace (n + 1 + k')%nat with (n + S k')%nat by lia.
      replace (Nat.min (S (S k')) (S (length rest)))
        with (1 + Nat.min (S k') (length rest))%nat by lia.
      cbn [firstn posts map]. rewrite <- app_assoc. reflexivity.
    + unfold ret. rewrite Nat.add_0_r. cbn [firstn posts map Nat.min].
      destruct (length rest); reflexivity.
Qed.

Lemma sync_offline_data_run (w : world) (batch : list Reading) (k : nat) :
  gateway_pi_available (network w) = true ->
  900 <= next (clock w) - last_sync_time (controller w) ->
  batch = firstn 20 (OfflineLogger.rows (offline w)) ->
  k = confirmed (http w) (length batch) ->
  exists wf,
    MainController.sync_offline_data w
    = (Ok (match batch with [] => true | _ :: _ => (0 <? k)%nat end), wf)
    /\ requests wf = requests w ++ posts (firstn (S k) batch)
    /\ asked (http wf) = (asked (http w) + Nat.min (S k) (length batch))%nat
    /\ OfflineLogger.rows (offline wf)
       = skipn k (OfflineLogger.rows (offline w)).
Proof.
  intros Hreach Hdue Hb Hk.
  unfold MainController.sync_offline_data.
  unfold bind at 1, NetworkManager.can_reach_gateway_pi, gets at 1.
  rewrite Hreach. cbn [negb].
  unfold bind at 1, time_time. rewrite ask_advance.
  unfold bind at 1, gets at 1. cbn [controller with_clock].
  replace (next (clock w) - last_sync_time (controller w) <? 900)
    with false by (symmetry; apply Z.ltb_ge; exact Hdue).
  unfold bind at 1. rewrite load_batch_eq.
  cbn [offline with_clock]. rewrite <- Hb.
  set (w1 := with_clock (advance 1 (clock w)) w).
  destruct batch as [|data rest].
  { exists w1. cbn in Hk. subst k. cbn. rewrite app_nil_r.
    repeat split; lia. }
  set (batch := data :: rest) in *.
  unfold bind at 1. rewrite sync_loop_eq. cbv zeta.
  change (http w1) with (http w). change (requests w1) with (requests w).
  rewrite <- Hk. cbn [Nat.add].
  set (w2 := with_http _ _ w1).
  destruct (0 <? k)%nat eqn:Ek.
  - destruct (remove_synced_eq k w2) as (w3 & Hrm & Hrows & _ & Hsame).
    unfold bind at 1. rewrite Hrm.
    unfold bind, MainController.update, modify, ret.
    eexists. split; [reflexivity|].
    cbn [requests http offline with_controller].
    assert (Hreq : requests w3 = requests w2).
    { pose proof (Hsame (offline w2)) as H.
      apply (f_equal requests) in H. exact H. }
    assert (Hhttp : http w3 = http w2).
    { pose proof (Hsame (offline w2)) as H.
      apply (f_equal http) in H. exact H. }
    rewrite Hreq, Hhttp, Hrows. repeat split.
  - apply Nat.ltb_ge in Ek. assert (k = 0%nat) as Hk0 by lia.
    exists w2. repeat (split; [reflexivity|]).
    rewrite Hk0. reflexivity.
Qed.

(** C3. When a drain runs (the gateway is held reachable and the last drain
    is at least 900 seconds old), the batch is the first twenty rows of the
    queue; its entries are posted one at a time in queue order up to and
    including the first one that fails, and none after it; the [k] entries
    confirmed before that failure, possibly none, are removed from the head
    of the queue, and the rest of the queue stays as it was, in order. *)
Theorem C3_drain_order (w : world) :
  gateway_pi_available (network w) = true ->
  900 <= next (clock w) - last_sync_time (controller w) ->
  let queue := OfflineLogger.rows (offline w) in
  let batch := firstn 20 queue in
  let k := confirmed (http w) (length batch) in
  let w' := world_after MainController.sync_offline_data w in
  (k <= length batch)%nat
  /\ requests w' = requests w ++ posts (firstn (S k) batch)
  /\ asked (http w') = (asked (http w) + Nat.min (S k) (length batch))%nat
  /\ (forall i, (i < k)%nat -> accepted (later (http w) i) = true)
  /\ ((k < length batch)%nat -> accepted (later (http w) k) = false)
  /\ OfflineLogger.rows (offline w') = skipn k queue
  /\ queue = firstn k queue ++ OfflineLogger.rows (offline w')
  /\ firstn k queue = firstn k batch
  /\ value_of MainController.sync_offline_data w
     = Ok (match batch with [] => true | _ :: _ => (0 <? k)%nat end).
Proof.
  intros Hreach Hdue queue batch k w'.
  split; [apply confirmed_le|].
  assert (Hprefix : firstn k queue = firstn k batch).
  { unfold batch. rewrite firstn_firstn.
    pose proof (confirmed_le (length batch) (http w)) as Hk. fold k in Hk.
    unfold batch in Hk. rewrite length_firstn in Hk.
    replace (Nat.min k 20) with k by lia. reflexivity. }
  destruct (sync_offline_data_run w batch k Hreach Hdue eq_refl eq_refl)
    as (wf & Hrun & Hreq & Hasked & Hrows).
  assert (Hw' : w' = wf) by (unfold w', world_after; rewrite Hrun; reflexivity).
  assert (Hval : value_of MainController.sync_offline_data w
                 = Ok (match batch with
                       | [] => true
                       | _ :: _ => (0 <? k)%nat
                       end))
    by (unfold value_of; rewrite Hrun; reflexivity).
  rewrite Hw'. clear Hw' w'.
  split; [exact Hreq|].
  split; [exact Hasked|].
  split; [intros i Hi; apply (confirmed_all_accepted (length batch)); exact Hi|].
  split; [apply confirmed_first_failure|].
  split; [exact Hrows|].
  split; [rewrite Hrows; symmetry; apply firstn_skipn|].
  split; [exact Hprefix | exact Hval].
Qed.


(** *** The connectivity cache *)

Lemma check_internet_loop_eq (urls : list string) (w : world) :
  NetworkManager.check_internet_loop urls w
  = (Ok (snd (internet_scan (http w) (length urls))),
     with_network
       (NetworkManager.with_internet_available
          (snd (internet_scan (http w) (length urls))) (network w))
       (with_http
          (advance (fst (internet_scan (http w) (length urls))) (http w))
          (requests w
           ++ map Get (firstn (fst (internet_scan (http w) (length urls)))
                              urls))
          w)).
Proof.
  revert w. induction urls as [|url rest IH]; intros w.
  - cbn. rewrite advance_0, app_nil_r, with_http_same. reflexivity.
  - cbn [NetworkManager.check_internet_loop length internet_scan].
    unfold bind at 1, try_except, bind at 1, requests_get, http_request.
    rewrite ask_advance. fold (logged (Get url) w).
    unfold online.
    destruct (next (http w)) as [r|e].
    + destruct ((status_code r =? 200) || (status_code r =? 301)
                || (status_code r =? 302)).
      * reflexivity.
      * unfold ret at 1. rewrite IH.
        cbn [logged http requests network with_http].
        destruct (internet_scan (advance 1 (http w)) (length rest))
          as [j found].
        cbn [fst snd firstn map]. rewrite advance_advance, <- app_assoc.
        reflexivity.
    + unfold ret at 1. rewrite IH.
      cbn [logged http requests network with_http].
      destruct (internet_scan (advance 1 (http w)) (length rest))
        as [j found].
      cbn [fst snd firstn map]. rewrite advance_advance, <- app_assoc.
      reflexivity.
Qed.

Lemma check_db_pi_eq (w : world) :
  NetworkManager.check_db_pi w
  = (Ok (reachable (next (http w))),
     with_network
       (NetworkManager.with_db_pi_available (reachable (next (http w)))
                                            (network w))
       (logged (Get Config.get_health_url) w)).
Proof.
  unfold NetworkManager.check_db_pi, try_except, bind at 1, requests_get,
    http_request, reachable.
  rewrite ask_advance. fold (logged (Get Config.get_health_url) w).
  destruct (next (http w)) as [r|e]; [|reflexivity].
  destruct (status_code r =? 200); reflexivity.
Qed.

Lemma check_gateway_pi_eq (w : world) :
  NetworkManager.check_gateway_pi w
  = (Ok (reachable (next (http w))),
     with_network
       (NetworkManager.with_gateway_pi_available (reachable (next (http w)))
                                                 (network w))
       (logged (Get (Config.GATEWAY_PI_URL ++ "/api/test")%string) w)).
Proof.
  unfold NetworkManager.check_gateway_pi, try_except, bind at 1, requests_get,
    http_request, reachable.
  rewrite ask_advance.
  fold (logged (Get (Config.GATEWAY_PI_URL ++ "/api/test")%string) w).
  destruct (next (http w)) as [r|e]; [|reflexivity].
  destruct (status_code r =? 200); reflexivity.
Qed.

Lemma internet_scan_bounds (n : nat) (o : oracle http_outcome) :
  (fst (internet_scan o n) <= n)%nat
  /\ (0 < n -> 1 <= fst (internet_scan o n))%nat.
Proof.
  revert o. induction n as [|n IH]; intros o; cbn [internet_scan].
  - cbn. lia.
  - destruct (online (next o)); [cbn; lia|].
    specialize (IH (advance 1 o)).
    destruct (internet_scan (advance 1 o) n) as [j found]. cbn in *. lia.
Qed.

Lemma check_all_connectivity_cached (w : world) :
  next (clock w) - last_internet_check (network w) < 300 ->
  NetworkManager.check_all_connectivity false w
  = (Ok (NetworkManager.status (network w)),
     with_clock (advance 1 (clock w)) w).
Proof.
  intros H. unfold NetworkManager.check_all_connectivity, bind at 1, time_time.
  rewrite ask_advance. unfold bind at 1, gets at 1.
  cbn [network with_clock negb andb].
  replace (next (clock w) - last_internet_check (network w) <? 300)
    with true by (symmetry; apply Z.ltb_lt; exact H).
  reflexivity.
Qed.

Lemma check_all_connectivity_probes (force : bool) (w : world) :
  force = true
  \/ 300 <= next (clock w) - last_internet_check (network w) ->
  NetworkManager.check_all_connectivity force w
  = (Ok (snd (fresh (http w))),
     probed (next (clock w)) (fst (fresh (http w))) (snd (fresh (http w))) w).
Proof.
  intros H. unfold NetworkManager.check_all_connectivity, bind at 1, time_time.
  rewrite ask_advance. unfold bind at 1, gets at 1.
  cbn [network with_clock].
  replace (negb force
           && (next (clock w) - last_internet_check (network w) <? 300))
    with false.
  2:{ symmetry. apply andb_false_iff.
      destruct H as [-> | H]; [left; reflexivity | right].
      apply Z.ltb_ge. exact H. }
  set (w0 := with_clock (advance 1 (clock w)) w).
  unfold bind at 1, NetworkManager.check_internet.
  rewrite check_internet_loop_eq.
  change (http w0) with (http w). change (requests w0) with (requests w).
  change (network w0) with (network w).
  unfold fresh.
  destruct (internet_scan (http w) (length Config.INTERNET_TEST_URLS))
    as [j found].
  cbn [fst snd].
  unfold bind at 1. rewrite check_db_pi_eq.
  unfold bind at 1. rewrite check_gateway_pi_eq.
  unfold bind, NetworkManager.update, modify, gets.
  unfold probed, logged, NetworkManager.status.
  cbn [network http requests with_network with_http internet db_pi gateway_pi
       NetworkManager.with_last_internet_check
       NetworkManager.with_internet_available
       NetworkManager.with_db_pi_available
       NetworkManager.with_gateway_pi_available
       last_internet_check internet_available db_pi_available
       gateway_pi_available].
  rewrite !advance_advance, <- !app_assoc.
  replace (j + 1 + 1)%nat with (j + 2)%nat by lia.
  unfold later, next, advance. cbn [answers asked].
  reflexivity.
Qed.

Lemma check_all_connectivity_returns_status (force : bool) (w w1 : world)
    (c : connectivity) :
  NetworkManager.check_all_connectivity force w = (Ok c, w1) ->
  c = NetworkManager.status (network w1).
Proof.
  destruct (Z_lt_ge_dec
              (next (clock w) - last_internet_check (network w)) 300)
    as [Hin|Hout].
  - destruct force.
    + rewrite check_all_connectivity_probes by (left; reflexivity).
      intros H. injection H as <- <-.
      destruct (snd (fresh (http w))); reflexivity.
    + rewrite check_all_connectivity_cached by exact Hin.
      intros H. injection H as <- <-. reflexivity.
  - rewrite check_all_connectivity_probes by (right; lia).
    intros H. injection H as <- <-.
    destruct (snd (fresh (http w))); reflexivity.
Qed.

(** C9. A reachability query made while the last check is less than 300
    seconds old answers from the cache: it returns the stored flags, issues no
    request and leaves the flags and the time of the last check as they were,
    so that a second query within the window returns what the first returned.
    A query made once the 300 seconds have passed makes one round of probes
    (the internet test URLs up to the first that answers, the Database Pi, the
    Gateway Pi), stores the time and the three results, and returns them;
    [has_internet] does so once more than 300 seconds have passed, the clock
    not running backwards between its two readings. *)
Theorem C9_reachability_cache (w : world) :
  let age := next (clock w) - last_internet_check (network w) in
  let w0 := with_clock (advance 1 (clock w)) w in
  (age < 300 ->
   NetworkManager.check_all_connectivity false w
   = (Ok (NetworkManager.status (network w)), w0))
  /\ (age <= 300 ->
      NetworkManager.has_internet w
      = (Ok (internet_available (network w)), w0))
  /\ (forall force c1 w1,
         NetworkManager.check_all_connectivity force w = (Ok c1, w1) ->
         next (clock w1) - last_internet_check (network w1) < 300 ->
         exists w2,
           NetworkManager.check_all_connectivity false w1 = (Ok c1, w2)
           /\ network w2 = network w1
           /\ http w2 = http w1
           /\ requests w2 = requests w1)
  /\ (300 <= age ->
      NetworkManager.check_all_connectivity false w
      = (Ok (snd (fresh (http w))),
         probed (next (clock w)) (fst (fresh (http w)))
                (snd (fresh (http w))) w)
      /\ (1 <= fst (fresh (http w)) <= 3)%nat)
  /\ (300 < age ->
      next (clock w) <= later (clock w) 1 ->
      NetworkManager.has_internet w
      = (Ok (internet (snd (fresh (http w)))),
         probed (later (clock w) 1) (fst (fresh (http w)))
                (snd (fresh (http w))) w0)).
Proof.
  intros age w0.
  split; [apply check_all_connectivity_cached|].
  split.
  { intros H. unfold NetworkManager.has_internet, bind at 1, time_time.
    rewrite ask_advance. unfold bind at 1, gets at 1.
    cbn [network with_clock]. fold age.
    replace (age >? 300) with false
      by (symmetry; rewrite Z.gtb_ltb; apply Z.ltb_ge; lia).
    reflexivity. }
  split.
  { intros force c1 w1 H1 Hin.
    apply check_all_connectivity_returns_status in H1. subst c1.
    rewrite (check_all_connectivity_cached w1 Hin).
    eexists. split; [reflexivity|]. repeat split. }
  split.
  { intros H. split.
    - apply check_all_connectivity_probes. right. exact H.
    - unfold fresh.
      pose proof (internet_scan_bounds (length Config.INTERNET_TEST_URLS)
                    (http w)) as [Hle Hge].
      destruct (internet_scan (http w) (length Config.INTERNET_TEST_URLS))
        as [j found].
      cbn in *. lia. }
  intros Hage Hmono.
  assert (Hlater : 300 <= later (clock w) 1 - last_internet_check (network w))
    by (unfold age in Hage; lia).
  unfold NetworkManager.has_internet, bind at 1, time_time.
  rewrite ask_advance. unfold bind at 1, gets at 1.
  cbn [network with_clock]. fold age. fold w0.
  replace (age >? 300) with true
    by (symmetry; rewrite Z.gtb_ltb; apply Z.ltb_lt; lia).
  unfold bind at 1. unfold bind at 1.
  rewrite check_all_connectivity_probes by (right; exact Hlater).
  reflexivity.
Qed.

(** *** Delivery of a rejected reading *)

Lemma check_all_connectivity_total (force : bool) (w : world) :
  exists c w1, NetworkManager.check_all_connectivity force w = (Ok c, w1).
Proof.
  destruct (Z_lt_ge_dec
              (next (clock w) - last_internet_check (network w)) 300)
    as [Hin|Hout].
  - destruct force.
    + rewrite check_all_connectivity_probes by (left; reflexivity). eauto.
    + rewrite check_all_connectivity_cached by exact Hin. eauto.
  - rewrite check_all_connectivity_probes by (right; lia). eauto.
Qed.

Lemma accepted_403 (r : response) :
  status_code r = 403 -> accepted (Response r) = false.
Proof. intros H. unfold accepted. rewrite H. reflexivity. Qed.

(** C5, as the code has it. When the gateway is held reachable, a reading has
    been acquired and the collector answers the send with a 403,
    [send_to_gateway] reports a plain failure, the reading is sent once, and
    the controller stores it in the offline queue as after any failed send:
    with a capacity of at least one it becomes the newest row. *)
Theorem C5_rejected_reading_is_queued (w w2 : world) (data : Reading)
    (r : response) :
  let w1 := world_after (NetworkManager.check_all_connectivity false) w in
  let w' := world_after MainController.collect_and_process_data w in
  gateway_pi_available (network w1) = true ->
  SensorReader.read_sensor_data w1 = (Ok (Some data), w2) ->
  next (http w2) = Response r ->
  status_code r = 403 ->
  value_of (GatewayLogger.send_to_gateway data) w2 = Ok false
  /\ requests w' = requests w2 ++ posts [data]
  /\ storage (offline w')
     = Some (OfflineLogger.combined (offline w2) data)
  /\ ((1 <= max_records (offline w2))%nat ->
      last (OfflineLogger.rows (offline w')) data = data
      /\ In data (OfflineLogger.rows (offline w'))).
Proof.
  intros w1 w' Hgw Hread Hnext H403.
  assert (Hsend : GatewayLogger.send_to_gateway data w2
                  = (Ok false, logged (Post Config.get_gateway_data_url data) w2)).
  { rewrite send_to_gateway_eq, Hnext, (accepted_403 r H403). reflexivity. }
  assert (Hrun : MainController.collect_and_process_data w
                 = (Ok tt,
                    with_offline
                      (OfflineLogger.to_csv
                         (OfflineLogger.combined (offline w2) data)
                         (offline w2))
                      (logged (Post Config.get_gateway_data_url data)
                         (with_controller
                            (MainController.with_data_points_collected
                               (data_points_collected (controller w2) + 1)
                               (controller w2)) w2)))).
  { unfold MainController.collect_and_process_data.
    destruct (check_all_connectivity_total false w) as (c & wc & Hc).
    assert (Hw1 : w1 = wc) by (unfold w1, world_after; rewrite Hc; reflexivity).
    rewrite (bind_ok _ _ _ _ _ Hc).
    apply check_all_connectivity_returns_status in Hc. subst c.
    rewrite <- Hw1.
    rewrite (bind_ok _ _ _ _ _ Hread).
    unfold bind at 1, gets at 1.
    unfold bind at 1, MainController.update, modify.
    unfold bind at 1, gets at 1. cbn [sensor with_controller].
    rewrite (read_sensor_data_assigned _ _ _ Hread). cbn [negb].
    unfold NetworkManager.status. cbn [gateway_pi]. rewrite Hgw.
    unfold bind at 1, GatewayLogger.save.
    rewrite send_to_gateway_eq.
    cbn [http with_controller]. rewrite Hnext, (accepted_403 r H403).
    unfold bind. rewrite save_eq. reflexivity. }
  assert (Hw' : w' = snd (MainController.collect_and_process_data w))
    by reflexivity.
  rewrite Hrun in Hw'. cbn [snd] in Hw'. rewrite Hw'. clear Hw' w'.
  split; [unfold value_of; rewrite Hsend; reflexivity|].
  split; [reflexivity|].
  split; [reflexivity|].
  intros Hcap.
  cbn [offline with_offline OfflineLogger.rows OfflineLogger.to_csv storage].
  rewrite (rows_after_save _ _ Hcap). unfold Py.tail.
  rewrite skipn_app, length_app. cbn [length].
  replace (length (OfflineLogger.rows (offline w2)) + 1
           - max_records (offline w2)
           - length (OfflineLogger.rows (offline w2)))%nat
    with 0%nat by lia.
  cbn [skipn]. split; [apply last_last|].
  apply in_or_app. right. left. reflexivity.
Qed.


(** C5 fails as stated: in the sample cycle the queue is empty, the only
    request is the send of the reading, the collector answers it with a 403,
    and the cycle ends with the reading stored in the queue. *)
Lemma C5_counterexample_rejected_reading_enqueued :
  (let w := Example.rejected_cycle in
   let w' := world_after MainController.collect_and_process_data w in
   next (http w) = Example.status_response 403
   /\ OfflineLogger.rows (offline w) = []
   /\ requests w' = posts [Example.reading "2024-05-01 12:00:00"]
   /\ OfflineLogger.rows (offline w') = [Example.reading "2024-05-01 12:00:00"])
  /\ ~ rejected_reading_not_enqueued.
Proof.
  split; [vm_compute; repeat split|].
  intros Hclaim.
  apply (Hclaim Example.rejected_cycle
           (world_after SensorReader.read_sensor_data
              (world_after (NetworkManager.check_all_connectivity false)
                 Example.rejected_cycle))
           (Example.reading "2024-05-01 12:00:00")
           {| status_code := 403; body := JsonError false |}).
  - vm_compute. reflexivity.
  - vm_compute. reflexivity.
  - vm_compute. reflexivity.
  - reflexivity.
  - vm_compute. left. reflexivity.
Qed.

(** *** Sample runs of the theorems *)

Lemma C5_rejected_reading_is_queued_witness :
  In (Example.reading "2024-05-01 12:00:00")
     (OfflineLogger.rows
        (offline (world_after MainController.collect_and_process_data
                    Example.rejected_cycle))).
Proof.
  refine (proj2 (proj2 (proj2 (proj2
    (C5_rejected_reading_is_queued Example.rejected_cycle
       (world_after SensorReader.read_sensor_data
          (world_after (NetworkManager.check_all_connectivity false)
             Example.rejected_cycle))
       (Example.reading "2024-05-01 12:00:00")
       {| status_code := 403; body := JsonError false |}
       _ _ _ _))) _)).
  - vm_compute. reflexivity.
  - vm_compute. reflexivity.
  - vm_compute. reflexivity.
  - reflexivity.
  - vm_compute. lia.
Defined.

Lemma C2_frame_validation_witness :
  frame_valid Example.frame
  /\ exists r w2, SensorReader.acquire Example.fragmented = (Ok (Some r), w2).
Proof.
  assert (V : frame_valid Example.frame) by (split; vm_compute; reflexivity).
  split; [exact V|].
  refine (proj2 (proj2 (proj2 (proj2
    (proj1 C2_frame_validation Example.fragmented
       (world_after SensorReader.receive_response Example.fragmented)
       Example.frame _)))) V).
  vm_compute. reflexivity.
Defined.

Lemma C3_drain_order_witness :
  map timestamp
    (OfflineLogger.rows
       (offline (world_after MainController.sync_offline_data
                   Example.failing_drain)))
  = map timestamp (skipn 1 (OfflineLogger.rows Example.backlog)).
Proof.
  refine (f_equal (map timestamp)
    (proj1 (proj2 (proj2 (proj2 (proj2 (proj2
      (C3_drain_order Example.failing_drain _ _))))))));
    [reflexivity | vm_compute; discriminate].
Defined.

Lemma C4_queue_bound_witness :
  (length
     (OfflineLogger.rows
        (offline (world_after (OfflineLogger.save (Example.reading "t3"))
                    Example.full_queue))) <= 2)%nat.
Proof.
  refine (proj1 (proj2 (proj2
    (proj1 (C4_queue_bound Example.full_queue _) (Example.reading "t3"))))).
  vm_compute. lia.
Defined.

Lemma C6_decode_fields_witness :
  length Example.frame = Config.RESPONSE_LENGTH
  /\ (moisture (Example.reading "t1") == 50)%Q
  /\ (temperature (Example.reading "t1") == 25)%Q.
Proof.
  pose proof (C6_decode_fields Example.device "t1" Example.frame eq_refl)
    as (_ & _ & _ & Hm & Ht).
  split; [reflexivity|].
  split; [apply Hm | apply Ht]; reflexivity.
Defined.

Lemma C7_peek_batch_witness :
  value_of
    (save_all [Example.reading "t1"; Example.reading "t2"; Example.reading "t3"] ;;
     OfflineLogger.load_batch 2) Example.within_window
  = Ok [Example.reading "t1"; Example.reading "t2"].
Proof.
  refine (proj2 (proj2 (proj2 (proj2 (proj2
    (C7_peek_batch 2 Example.within_window)))))
    [Example.reading "t1"; Example.reading "t2"; Example.reading "t3"] _ _).
  - reflexivity.
  - vm_compute. lia.
Defined.

Lemma C8_assignment_retained_witness :
  assignment
    (world_after (SensorReader.check_assignment_status false)
       Example.db_timeout)
  = (Py.PyBool true, Py.PyInt 7, Py.PyStr "A")
  /\ is_assigned
       (sensor (world_after (SensorReader.check_assignment_status false)
                  Example.db_not_found))
     = Py.PyBool false.
Proof.
  split.
  - refine (proj1 (proj1
      (C8_assignment_retained false Example.db_timeout _) _ _)).
    + right. vm_compute. discriminate.
    + left. vm_compute. discriminate.
    + exact I.
  - refine (proj1 (proj1 (proj2
      (C8_assignment_retained false Example.db_not_found _)) _
      {| status_code := 404; body := JsonError false |} _ _)).
    + right. vm_compute. discriminate.
    + exact I.
    + reflexivity.
    + reflexivity.
Defined.

Lemma C9_reachability_cache_witness :
  NetworkManager.check_all_connectivity false Example.within_window
  = (Ok {| internet := true; db_pi := true; gateway_pi := true |},
     with_clock (advance 1 (clock Example.within_window))
       Example.within_window)
  /\ NetworkManager.check_all_connectivity false Example.expired
     = (Ok {| internet := true; db_pi := true; gateway_pi := false |},
        probed 2000 2 {| internet := true; db_pi := true; gateway_pi := false |}
               Example.expired)
  /\ value_of NetworkManager.has_internet Example.expired = Ok true.
Proof.
  split; [|split].
  - refine (proj1 (C9_reachability_cache Example.within_window) _).
    vm_compute. reflexivity.
  - refine (proj1 (proj1 (proj2 (proj2 (proj2
      (C9_reachability_cache Example.expired)))) _)).
    vm_compute. discriminate.
  - refine (f_equal fst (proj2 (proj2 (proj2 (proj2
      (C9_reachability_cache Example.expired)))) _ _)).
    + vm_compute. reflexivity.
    + vm_compute. discriminate.
Defined.

Lemma C10_reading_implies_assigned_witness :
  Py.truthy
    (is_assigned
       (sensor (world_after SensorReader.read_sensor_data
                  Example.rejected_cycle)))
  = true.
Proof.
  refine (proj1 (proj1 C10_reading_implies_assigned
    Example.rejected_cycle
    (world_after SensorReader.read_sensor_data Example.rejected_cycle)
    (Example.reading "2024-05-01 12:00:00") _)).
  vm_compute. reflexivity.
Defined.

(** ** Further properties of the frame codec *)

Lemma slice_but_last_app {A} (l t : list A) (k : nat) :
  length t = k -> Py.slice_but_last (l ++ t) k = l.
Proof.
  intros H. unfold Py.slice_but_last. rewrite length_app, H.
  replace (length l + k - k)%nat with (length l + 0)%nat by lia.
  rewrite firstn_app_2. cbn [firstn]. apply app_nil_r.
Qed.

Lemma slice_last_app {A} (l t : list A) (k : nat) :
  length t = k -> Py.slice_last (l ++ t) k = t.
Proof.
  intros H. unfold Py.slice_last. rewrite length_app, H.
  replace (length l + k - k)%nat with (length l) by lia.
  rewrite skipn_app, skipn_all, Nat.sub_diag. reflexivity.
Qed.

(** A payload followed by the checksum computed for it is a frame that
    passes the CRC check, and, when the payload has [RESPONSE_LENGTH - 2]
    bytes, a valid frame that the acquisition decodes. *)
Theorem crc_trailer_validates (payload : list byte) :
  exists crc,
    SensorReader._crc16_modbus payload = Some crc
    /\ length crc = 2%nat
    /\ SensorReader._crc16_modbus (Py.slice_but_last (payload ++ crc) 2)
       = Some (Py.slice_last (payload ++ crc) 2)
    /\ (length payload = (Config.RESPONSE_LENGTH - 2)%nat ->
        frame_valid (payload ++ crc)
        /\ forall w,
            value_of (SensorReader.validate_and_parse (payload ++ crc)) w
            = Ok (Some (SensorReader.parse_sensor_data
                          (sensor w) (next (wall_clock w))
                          (payload ++ crc)))).
Proof.
  exists (Crc16Modbus.checksum payload).
  assert (Hlen : length (Crc16Modbus.checksum payload) = 2%nat) by reflexivity.
  split; [apply crc16_modbus_total|].
  split; [exact Hlen|].
  assert (Hcrc : SensorReader._crc16_modbus
                   (Py.slice_but_last
                      (payload ++ Crc16Modbus.checksum payload) 2)
                 = Some (Py.slice_last
                           (payload ++ Crc16Modbus.checksum payload) 2)).
  { rewrite slice_but_last_app, slice_last_app by exact Hlen.
    apply crc16_modbus_total. }
  split; [exact Hcrc|].
  intros Hp.
  assert (V : frame_valid (payload ++ Crc16Modbus.checksum payload)).
  { split; [|exact Hcrc]. rewrite length_app, Hp, Hlen. reflexivity. }
  split; [exact V|].
  intros w. unfold value_of. rewrite validate_and_parse_spec.
  apply frame_validb_iff in V. rewrite V. reflexivity.
Qed.

Lemma crc_trailer_validates_witness :
  frame_valid (firstn 17 Example.frame ++ skipn 17 Example.frame).
Proof.
  destruct (crc_trailer_validates (firstn 17 Example.frame))
    as (crc & Hcrc & _ & _ & Hv).
  assert (E : crc = skipn 17 Example.frame).
  { vm_compute in Hcrc. injection Hcrc as <-. reflexivity. }
  rewrite <- E. apply Hv. reflexivity.
Defined.

Lemma byte_val_inj (b b' : byte) : Py.byte_val b = Py.byte_val b' -> b = b'.
Proof.
  unfold Py.byte_val. intros H. apply N2Z.inj in H.
  pose proof (Byte.of_to_N b) as E. rewrite H, Byte.of_to_N in E.
  injection E as E. symmetry. exact E.
Qed.

Lemma lxor_cancel_r (a b c : Z) : Z.lxor a c = Z.lxor b c -> a = b.
Proof.
  intros H. apply (f_equal (fun x => Z.lxor x c)) in H.
  rewrite !Z.lxor_assoc, Z.lxor_nilpotent, !Z.lxor_0_r in H. exact H.
Qed.

Lemma lxor_cancel_l (a b c : Z) : Z.lxor c a = Z.lxor c b -> a = b.
Proof. rewrite !(Z.lxor_comm c). apply lxor_cancel_r. Qed.

Lemma polynomial_sets_top_bit (q : Z) :
  0 <= q < 32768 -> 32768 <= Z.lxor q 0xA001.
Proof.
  intros Hq.
  assert (Hb : Z.testbit (Z.lxor q 0xA001) 15 = true).
  { rewrite Z.lxor_spec.
    replace (Z.testbit q 15) with false; [reflexivity|].
    symmetry. apply Z.testbit_false; [lia|].
    change (2 ^ 15) with 32768. rewrite Z.div_small by lia. reflexivity. }
  assert (Hpos : 0 <= Z.lxor q 0xA001) by (apply Z.lxor_nonneg; lia).
  destruct (Z_lt_ge_dec (Z.lxor q 0xA001) 32768) as [Hlt|Hge]; [|lia].
  apply Z.testbit_true in Hb; [|lia].
  change (2 ^ 15) with 32768 in Hb. rewrite Z.div_small in Hb by lia.
  discriminate Hb.
Qed.

Lemma crc_shift_inj (c c' : Z) :
  0 <= c < 65536 -> 0 <= c' < 65536 ->
  SensorReader.crc_shift c = SensorReader.crc_shift c' -> c = c'.
Proof.
  intros Hc Hc'. rewrite !crc_shift_spec. unfold Crc16Modbus.shift.
  pose proof (Z.div2_odd c) as Ec. pose proof (Z.div2_odd c') as Ec'.
  rewrite Z.div2_div in Ec, Ec'.
  assert (Hq : 0 <= c / 2 < 32768)
    by (split; [apply Z.div_pos; lia | apply Z.div_lt_upper_bound; lia]).
  assert (Hq' : 0 <= c' / 2 < 32768)
    by (split; [apply Z.div_pos; lia | apply Z.div_lt_upper_bound; lia]).
  pose proof (polynomial_sets_top_bit _ Hq) as Ht.
  pose proof (polynomial_sets_top_bit _ Hq') as Ht'.
  destruct (Z.odd c), (Z.odd c'); cbn [Z.b2z] in *; intros H.
  - apply lxor_cancel_r in H. lia.
  - lia.
  - lia.
  - lia.
Qed.

Lemma crc_shifts_inj (n : nat) (c c' : Z) :
  0 <= c < 65536 -> 0 <= c' < 65536 ->
  Nat.iter n SensorReader.crc_shift c = Nat.iter n SensorReader.crc_shift c' ->
  c = c'.
Proof.
  intros Hc Hc'. induction n as [|n IH]; [intros H; exact H|].
  rewrite !Nat.iter_succ. intros H. apply IH.
  apply crc_shift_inj in H; [exact H| |]; apply crc_shifts_range; assumption.
Qed.

Lemma crc_byte_inj_register (b : byte) (c c' : Z) :
  0 <= c < 65536 -> 0 <= c' < 65536 ->
  SensorReader.crc_byte c b = SensorReader.crc_byte c' b -> c = c'.
Proof.
  intros Hc Hc' H. unfold SensorReader.crc_byte in H.
  pose proof (byte_val_range b).
  apply crc_shifts_inj in H.
  - apply lxor_cancel_r in H. exact H.
  - change 65536 with (2 ^ 16). apply lxor_below; simpl; lia.
  - change 65536 with (2 ^ 16). apply lxor_below; simpl; lia.
Qed.

Lemma crc_byte_inj_byte (c : Z) (b b' : byte) :
  0 <= c < 65536 ->
  SensorReader.crc_byte c b = SensorReader.crc_byte c b' -> b = b'.
Proof.
  intros Hc H. unfold SensorReader.crc_byte in H.
  pose proof (byte_val_range b). pose proof (byte_val_range b').
  apply crc_shifts_inj in H.
  - apply lxor_cancel_l in H. apply byte_val_inj. exact H.
  - change 65536 with (2 ^ 16). apply lxor_below; simpl; lia.
  - change 65536 with (2 ^ 16). apply lxor_below; simpl; lia.
Qed.

Lemma crc_fold_inj (data : list byte) (c c' : Z) :
  0 <= c < 65536 -> 0 <= c' < 65536 ->
  fold_left SensorReader.crc_byte data c
  = fold_left SensorReader.crc_byte data c' -> c = c'.
Proof.
  revert c c'. induction data as [|b data IH]; intros c c' Hc Hc' H;
    [exact H|].
  cbn [fold_left] in H. apply IH in H.
  - apply crc_byte_inj_register in H; assumption.
  - apply crc_byte_range; assumption.
  - apply crc_byte_range; assumption.
Qed.

Lemma crc16_modbus_inj_register (d d' : list byte) :
  SensorReader._crc16_modbus d = SensorReader._crc16_modbus d' ->
  SensorReader.crc_register d = SensorReader.crc_register d'.
Proof.
  rewrite !crc16_modbus_total. unfold Crc16Modbus.checksum.
  pose proof (crc_register_range d) as Hd.
  pose proof (crc_register_range d') as Hd'.
  unfold SensorReader.crc_register in *. rewrite !crc_fold_spec in *.
  set (r := Crc16Modbus.register 65535 d) in *.
  set (r' := Crc16Modbus.register 65535 d') in *.
  intros H. injection H as Hlo Hhi.
  apply (f_equal Py.byte_val) in Hlo, Hhi.
  rewrite !byte_val_of_Z, !Z.mod_mod in Hlo by lia.
  rewrite !byte_val_of_Z in Hhi.
  assert (Hq : 0 <= r / 256 < 256)
    by (split; [apply Z.div_pos; lia | apply Z.div_lt_upper_bound; lia]).
  assert (Hq' : 0 <= r' / 256 < 256)
    by (split; [apply Z.div_pos; lia | apply Z.div_lt_upper_bound; lia]).
  rewrite !Z.mod_small in Hhi by lia.
  pose proof (Z.div_mod r 256 ltac:(lia)).
  pose proof (Z.div_mod r' 256 ltac:(lia)). lia.
Qed.

(** The CRC check detects every corruption of a single byte: a frame that
    differs from a valid frame in exactly one byte, in the payload or in the
    trailer, is not valid. *)
Theorem single_byte_corruption_detected (pre post : list byte) (b b' : byte) :
  frame_valid (pre ++ b :: post) ->
  b <> b' ->
  ~ frame_valid (pre ++ b' :: post).
Proof.
  intros [Hlen Hcrc] Hne [_ Hcrc'].
  rewrite length_app in Hlen. cbn [length] in Hlen.
  unfold Config.RESPONSE_LENGTH in Hlen.
  unfold Py.slice_but_last, Py.slice_last in Hcrc, Hcrc'.
  rewrite !length_app in Hcrc, Hcrc'. cbn [length] in Hcrc, Hcrc'.
  replace (length pre + S (length post) - 2)%nat with 17%nat in * by lia.
  rewrite !firstn_app, !skipn_app in Hcrc, Hcrc'.
  destruct (Nat.le_gt_cases 17 (length pre)) as [Hin|Hin].
  - replace (17 - length pre)%nat with 0%nat in * by lia.
    cbn [firstn skipn] in Hcrc, Hcrc'. rewrite !app_nil_r in Hcrc, Hcrc'.
    rewrite Hcrc in Hcrc'. injection Hcrc' as H.
    apply app_inv_head in H. injection H as H. contradiction.
  - rewrite (firstn_all2 (n := 17) pre) in Hcrc, Hcrc' by lia.
    rewrite (skipn_all2 (n := 17) pre) in Hcrc, Hcrc' by lia.
    destruct (17 - length pre)%nat as [|m] eqn:Em; [lia|].
    cbn [firstn skipn app] in Hcrc, Hcrc'.
    rewrite <- Hcrc' in Hcrc. apply crc16_modbus_inj_register in Hcrc.
    unfold SensorReader.crc_register in Hcrc.
    rewrite !fold_left_app in Hcrc. cbn [fold_left] in Hcrc.
    pose proof (crc_fold_range pre 65535 ltac:(lia)) as Hr.
    apply crc_fold_inj in Hcrc; try (apply crc_byte_range; exact Hr).
    apply crc_byte_inj_byte in Hcrc; [contradiction | exact Hr].
Qed.

Lemma single_byte_corruption_detected_witness :
  ~ frame_valid (firstn 4 Example.frame ++ xf5 :: skipn 5 Example.frame).
Proof.
  apply (single_byte_corruption_detected
           (firstn 4 Example.frame) (skipn 5 Example.frame) xf4 xf5).
  - split; vm_compute; reflexivity.
  - discriminate.
Defined.

Lemma div10_range (n : Z) :
  0 <= n < 65536 ->
  (0 <= SensorReader.div10 n)%Q /\ (SensorReader.div10 n <= 65535 # 10)%Q.
Proof.
  intros H. unfold SensorReader.div10, Qle. cbn. lia.
Qed.

(** Decoding applies no plausibility check: on a frame of the configured
    length each of the seven measurements is some value between 0 and 6553.5,
    whatever the sensor sent. *)
Theorem measurements_in_range (s : sensor_reader) (now : string)
    (frame : list byte) :
  length frame = Config.RESPONSE_LENGTH ->
  let r := SensorReader.parse_sensor_data s now frame in
  Forall (fun q => (0 <= q)%Q /\ (q <= 65535 # 10)%Q)
         [moisture r; temperature r; conductivity r; ph r;
          nitrogen r; phosphorus r; potassium r].
Proof.
  intros Hlen r. unfold Config.RESPONSE_LENGTH in Hlen.
  unfold r, SensorReader.parse_sensor_data. cbn [moisture temperature
    conductivity ph nitrogen phosphorus potassium].
  rewrite !field_be16 by lia.
  repeat constructor; apply div10_range, be16_range.
Qed.

Lemma measurements_in_range_witness :
  (ph (Example.reading "t1") <= 65535 # 10)%Q.
Proof.
  pose proof (measurements_in_range Example.device "t1" Example.frame eq_refl)
    as H.
  cbv zeta in H.
  apply Forall_inv_tail, Forall_inv_tail, Forall_inv_tail, Forall_inv in H.
  exact (proj2 H).
Defined.

Lemma bind_raise_run {A B} (m : M A) (k : A -> M B) (w w1 : world) (e : exn) :
  m w = (Raise e, w1) -> bind m k w = (Raise e, w1).
Proof. intros H. unfold bind. rewrite H. reflexivity. Qed.

(** ** Further properties of the sensor link *)

Lemma later_0 {A} (o : oracle A) : later o 0 = next o.
Proof. unfold later, next. rewrite Nat.add_0_r. reflexivity. Qed.

Lemma next_advance {A} (n : nat) (o : oracle A) : next (advance n o) = later o n.
Proof. reflexivity. Qed.

Lemma initialize_serial_loop_cons (attempt : nat) (rest : list nat)
    (w : world) :
  SensorReader.initialize_serial_loop (attempt :: rest) w =
  let w1 := with_port_open (advance 1 (port_open w)) w in
  match next (port_open w) with
  | OpenOk true =>
      (Ok true,
       with_sensor
         (SensorReader.with_serial_conn (Some {| is_open := true |})
                                        (sensor w1)) w1)
  | OpenOk false =>
      SensorReader.initialize_serial_loop rest
        (with_sensor
           (SensorReader.with_serial_conn (Some {| is_open := false |})
                                          (sensor w1)) w1)
  | OpenFail =>
      if (attempt <? Config.MAX_RETRY_ATTEMPTS - 1)%nat
      then SensorReader.initialize_serial_loop rest w1
      else (Ok false,
            with_sensor (SensorReader.with_serial_conn None (sensor w1)) w1)
  end.
Proof.
  cbn [SensorReader.initialize_serial_loop].
  unfold bind at 1, try_except, bind at 1, SensorReader.serial_Serial.
  rewrite ask_advance. cbv zeta.
  destruct (next (port_open w)) as [[|]|]; try reflexivity.
  destruct (attempt <? Config.MAX_RETRY_ATTEMPTS - 1)%nat; reflexivity.
Qed.

(** One path through the three attempts, with its result and the number of
    attempts made. *)
Ltac initialize_serial_case b n :=
  exists b, n;
  cbn [fst snd port_open with_sensor sensor SensorReader.with_serial_conn
       serial_conn with_port_open Nat.sub];
  split; [reflexivity|];
  split; [lia|];
  split; [reflexivity|];
  split; [intros i Hi; destruct i as [|[|i]]; try lia; congruence|];
  split; [split; congruence|];
  split; [let Hb := fresh "Hb" in
          intros Hb; first [discriminate Hb | reflexivity]|];
  split; [let Hb := fresh "Hb" in
          intros Hb;
          first [discriminate Hb | split; [reflexivity | congruence]]|];
  let H := fresh "H" in
  intros H;
  pose proof (H 0%nat ltac:(lia));
  pose proof (H 1%nat ltac:(lia));
  pose proof (H 2%nat ltac:(lia));
  split; congruence.

(** [initialize_serial] never raises. It opens the port at most
    [MAX_RETRY_ATTEMPTS] times and stops at the first attempt that yields an
    open port; it returns [True] exactly then, with that port stored. When it
    returns [False] all three attempts were made and the stored connection is
    [None] or a port that is not open; it is [None] when all three attempts
    raised. *)
Theorem initialize_serial_attempts (w : world) :
  let w' := world_after SensorReader.initialize_serial w in
  exists (b : bool) (n : nat),
    value_of SensorReader.initialize_serial w = Ok b
    /\ (1 <= n <= Config.MAX_RETRY_ATTEMPTS)%nat
    /\ port_open w' = advance n (port_open w)
    /\ (forall i, (i < n - 1)%nat -> later (port_open w) i <> OpenOk true)
    /\ (b = true <-> later (port_open w) (n - 1) = OpenOk true)
    /\ (b = true -> serial_conn (sensor w') = Some {| is_open := true |})
    /\ (b = false ->
        n = Config.MAX_RETRY_ATTEMPTS
        /\ serial_conn (sensor w') <> Some {| is_open := true |})
    /\ ((forall i, (i < Config.MAX_RETRY_ATTEMPTS)%nat ->
                   later (port_open w) i = OpenFail) ->
        b = false /\ serial_conn (sensor w') = None).
Proof.
  unfold value_of, world_after, SensorReader.initialize_serial.
  unfold Config.MAX_RETRY_ATTEMPTS. cbn [seq].
  pose proof (later_0 (port_open w)) as L0.
  destruct (later (port_open w) 0) as [[|]|] eqn:E0;
    destruct (later (port_open w) 1) as [[|]|] eqn:E1;
    destruct (later (port_open w) 2) as [[|]|] eqn:E2;
    repeat (rewrite initialize_serial_loop_cons; cbv zeta;
            unfold Config.MAX_RETRY_ATTEMPTS;
            cbn [port_open with_sensor with_port_open
                 Nat.ltb Nat.leb Nat.sub];
            rewrite ?advance_advance, ?next_advance; cbn [Nat.add];
            rewrite <- ?L0, ?E1, ?E2);
    cbn [SensorReader.initialize_serial_loop]; unfold ret;
    first [ initialize_serial_case true 1%nat
          | initialize_serial_case true 2%nat
          | initialize_serial_case true 3%nat
          | initialize_serial_case false 3%nat ].
Qed.

Lemma initialize_serial_attempts_witness :
  serial_conn
    (sensor (world_after SensorReader.initialize_serial Example.fragmented))
  = None.
Proof.
  destruct (initialize_serial_attempts Example.fragmented)
    as (b & n & _ & _ & _ & _ & _ & _ & _ & Hall).
  apply Hall. intros i Hi.
  destruct i as [|[|[|i]]]; [reflexivity | reflexivity | reflexivity |].
  unfold Config.MAX_RETRY_ATTEMPTS in Hi. lia.
Defined.

(** The port and the stored connection, which an assignment check leaves
    alone. *)
Lemma check_assignment_status_keeps_port (force : bool) :
  preserves (fun w => (port_open w, port_write w, port_read w,
                       serial_conn (sensor w), offline w, controller w))
            (SensorReader.check_assignment_status force).
Proof. preserve_through. Qed.

(** While the device is unassigned nothing is asked of the sensor: when the
    assignment check returns a false flag, [read_sensor_data] returns [None]
    at once, without opening, writing to or reading from the port. *)
Theorem unassigned_suppresses_acquisition (w w1 : world) (v : Py.value) :
  SensorReader.check_assignment_status false w = (Ok v, w1) ->
  Py.truthy v = false ->
  SensorReader.read_sensor_data w = (Ok None, w1)
  /\ port_open w1 = port_open w
  /\ port_write w1 = port_write w
  /\ port_read w1 = port_read w
  /\ serial_conn (sensor w1) = serial_conn (sensor w).
Proof.
  intros Hcheck Hv.
  split.
  { unfold SensorReader.read_sensor_data.
    rewrite (bind_ok _ _ _ _ _ Hcheck), Hv. reflexivity. }
  pose proof (check_assignment_status_keeps_port false w) as H.
  rewrite Hcheck in H. cbn [snd] in H.
  injection H as Ho Hw Hr Hc _ _. repeat split; assumption.
Qed.

(** The [try] block of [read_sensor_data] lets no exception out. When the
    stored port is not open, the write fails, the first read fails, or the
    first read is short and the supplementary read fails, the result is
    [None] and the stored connection is reset to [None], so that the next
    call opens the port again. *)
Theorem acquire_contains_serial_errors (w : world) :
  (exists r w', SensorReader.acquire w = (Ok r, w'))
  /\ (forall c,
         serial_conn (sensor w) = Some c ->
         is_open c = false
         \/ next (port_write w) = false
         \/ next (port_read w) = ReadFail
         \/ (exists first,
                next (port_read w) = ReadBytes first
                /\ (length first < Config.RESPONSE_LENGTH)%nat
                /\ later (port_read w) 1 = ReadFail) ->
         value_of SensorReader.acquire w = Ok None
         /\ serial_conn (sensor (world_after SensorReader.acquire w)) = None).
Proof.
  split.
  { unfold SensorReader.acquire, try_except.
    destruct (bind SensorReader.receive_response
                SensorReader.validate_and_parse w) as [[r|e] w'].
    - eauto.
    - destruct e as [[| |]| |]; eexists; eexists; reflexivity. }
  intros c Hc Hfail.
  assert (Hraise : exists w1,
             SensorReader.receive_response w = (Raise SerialException, w1)).
  { unfold SensorReader.receive_response, bind at 1, SensorReader.serial_write.
    rewrite Hc. destruct (is_open c) eqn:Eo; [|eauto].
    rewrite ask_advance.
    destruct (next (port_write w)) eqn:Ew; [|eauto].
    unfold bind at 1, SensorReader.serial_read.
    cbn [sensor with_port_write port_read]. rewrite Hc, Eo, ask_advance.
    destruct (next (port_read w)) as [first|] eqn:Er; [|eauto].
    destruct Hfail as [H|[H|[H|(first' & H1 & H2 & H3)]]];
      try discriminate H.
    injection H1 as <-.
    unfold Config.RESPONSE_LENGTH in *.
    replace (length first =? 19)%nat with false
      by (symmetry; apply Nat.eqb_neq; lia).
    replace (length first <? 19)%nat with true
      by (symmetry; apply Nat.ltb_lt; lia).
    cbn [negb]. unfold bind at 1.
    cbn [sensor with_port_read with_port_write port_read].
    rewrite Hc, Eo, ask_advance, next_advance, H3. eauto. }
  destruct Hraise as [w1 Hraise].
  unfold value_of, world_after, SensorReader.acquire, try_except.
  rewrite (bind_raise_run _ _ _ _ _ Hraise). split; reflexivity.
Qed.

Lemma acquire_contains_serial_errors_witness :
  value_of SensorReader.acquire
    (with_port_write (script [false] true) Example.fragmented)
  = Ok None.
Proof.
  refine (proj1 (proj2 (acquire_contains_serial_errors
    (with_port_write (script [false] true) Example.fragmented))
    {| is_open := true |} eq_refl _)).
  right. left. reflexivity.
Defined.

(** [close] may be called again without effect, and a closed port is never
    written to: the next acquisition returns [None] and resets the stored
    connection. *)
Theorem close_then_acquire (w : world) :
  let wc := world_after SensorReader.close w in
  value_of SensorReader.close w = Ok tt
  /\ world_after SensorReader.close wc = wc
  /\ serial_conn (sensor wc) <> Some {| is_open := true |}
  /\ value_of SensorReader.acquire wc = Ok None
  /\ serial_conn (sensor (world_after SensorReader.acquire wc)) = None
  /\ port_write (world_after SensorReader.acquire wc) = port_write w
  /\ port_read (world_after SensorReader.acquire wc) = port_read w.
Proof.
  unfold value_of, world_after, SensorReader.close, bind, gets.
  destruct (serial_conn (sensor w)) as [[[|]]|] eqn:Ec;
    cbn [fst snd]; unfold SensorReader.update, modify, ret;
    cbn [fst snd sensor with_sensor SensorReader.with_serial_conn serial_conn
         is_open];
    rewrite ?Ec; cbn [fst snd];
    (split; [reflexivity|]); (split; [reflexivity|]);
    (split; [congruence|]);
    unfold SensorReader.acquire, try_except, bind,
      SensorReader.receive_response, bind, SensorReader.serial_write;
    cbn [sensor with_sensor SensorReader.with_serial_conn serial_conn is_open];
    rewrite ?Ec; repeat split; exact Ec.
Qed.

(** ** Further properties of the assignment check *)

Lemma handled_traffic (fields : list (string * Py.value)) (w : world) :
  http (handled fields w) = http w
  /\ requests (handled fields w) = requests w
  /\ clock (handled fields w) = clock w
  /\ last_assignment_check (sensor (handled fields w))
     = last_assignment_check (sensor w).
Proof.
  unfold handled. destruct (Py.dict_mem fields "assigned"); [|repeat split].
  destruct (Py.truthy (Py.dict_get fields "assigned")); repeat split.
Qed.

Lemma check_via_db_traffic (t : Z) (w : world) :
  http (snd (SensorReader.check_via_db t w)) = advance 1 (http w)
  /\ requests (snd (SensorReader.check_via_db t w))
     = requests w ++ [Get (Config.get_assignment_url (machine_id (sensor w)))].
Proof.
  rewrite check_via_db_eq. cbv zeta.
  destruct (next (http w)) as [r|e]; [|split; reflexivity].
  destruct (status_code r =? 200).
  - destruct (body r) as [fields| |b]; try (split; reflexivity).
    cbn [snd]. unfold stamped. cbn [http requests with_sensor].
    destruct (handled_traffic fields
                (logged (Get (Config.get_assignment_url
                                (machine_id (sensor w)))) w))
      as (-> & -> & _).
    split; reflexivity.
  - destruct (status_code r =? 404); split; reflexivity.
Qed.

(** An assignment check is answered from the stored flag, without any
    request, while the last settled check is less than
    [ASSIGNMENT_CHECK_INTERVAL] old. Otherwise it asks the Gateway Pi and, if
    that does not settle it, the Database Pi: never more than these two
    requests, in this order. A 200 answer of the Gateway Pi carrying a JSON
    object settles the check with one request and records its time, even when
    the object has no key ['assigned'], in which case the assignment is left
    as it was; with the key, the flag is its value and the farm and zone are
    those of the answer when the flag is true and [None] otherwise. *)
Theorem assignment_check_requests (force : bool) (w : world) :
  let now := next (clock w) in
  let w' := world_after (SensorReader.check_assignment_status force) w in
  let gateway_url := gateway_assignment_url w in
  let db_url := Config.get_assignment_url (machine_id (sensor w)) in
  (force = false ->
   now - last_assignment_check (sensor w) < Config.ASSIGNMENT_CHECK_INTERVAL ->
   SensorReader.check_assignment_status force w
   = (Ok (is_assigned (sensor w)), with_clock (advance 1 (clock w)) w))
  /\ (exists n,
         (n <= 2)%nat
         /\ http w' = advance n (http w)
         /\ requests w' = requests w ++ firstn n [Get gateway_url; Get db_url])
  /\ (force = true
      \/ Config.ASSIGNMENT_CHECK_INTERVAL
         <= now - last_assignment_check (sensor w) ->
      forall r fields,
        next (http w) = Response r ->
        status_code r = 200 ->
        body r = JsonObject fields ->
        value_of (SensorReader.check_assignment_status force) w
        = Ok (is_assigned (sensor w'))
        /\ requests w' = requests w ++ [Get gateway_url]
        /\ last_assignment_check (sensor w') = now
        /\ (Py.dict_mem fields "assigned" = false ->
            assignment w' = assignment w)
        /\ (Py.dict_mem fields "assigned" = true ->
            assignment w'
            = if Py.truthy (Py.dict_get fields "assigned")
              then (Py.dict_get fields "assigned",
                    Py.dict_get fields "farm_id",
                    Py.dict_get fields "zone_code")
              else (Py.dict_get fields "assigned", Py.PyNone, Py.PyNone))).
Proof.
  intros now w' gateway_url db_url.
  unfold w', world_after, value_of.
  rewrite check_assignment_status_eq. cbv zeta. fold now.
  set (w0 := with_clock (advance 1 (clock w)) w).
  split.
  { intros -> Hin. cbn [negb andb].
    replace (now - last_assignment_check (sensor w)
             <? Config.ASSIGNMENT_CHECK_INTERVAL) with true
      by (symmetry; apply Z.ltb_lt; exact Hin).
    reflexivity. }
  split.
  { destruct (negb force && _).
    { exists 0%nat. cbn [snd firstn]. rewrite advance_0, app_nil_r.
      repeat split. lia. }
    rewrite check_via_gateway_eq. cbv zeta.
    change (gateway_assignment_url w0) with gateway_url.
    change (next (http w0)) with (next (http w)).
    set (wg := logged (Get gateway_url) w0).
    assert (Hfall : exists n,
               (n <= 2)%nat
               /\ http (snd (SensorReader.check_via_db now wg))
                  = advance n (http w)
               /\ requests (snd (SensorReader.check_via_db now wg))
                  = requests w ++ firstn n [Get gateway_url; Get db_url]).
    { exists 2%nat. destruct (check_via_db_traffic now wg) as [-> ->].
      split; [lia|]. cbn [firstn]. unfold wg, logged.
      cbn [http requests with_http]. rewrite advance_advance, <- app_assoc.
      split; reflexivity. }
    assert (Hone : forall (x : world),
               http x = http wg -> requests x = requests wg ->
               exists n,
                 (n <= 2)%nat
                 /\ http x = advance n (http w)
                 /\ requests x
                    = requests w ++ firstn n [Get gateway_url; Get db_url]).
    { intros x Hh Hr. exists 1%nat. rewrite Hh, Hr.
      split; [lia|]. split; reflexivity. }
    destruct (next (http w)) as [r|e]; [|exact Hfall].
    destruct (status_code r =? 200); [|exact Hfall].
    destruct (body r) as [fields| |[|]]; cbn [snd].
    - apply Hone; unfold stamped; cbn [http requests with_sensor];
        apply handled_traffic.
    - apply Hone; reflexivity.
    - exact Hfall.
    - apply Hone; reflexivity. }
  intros Hdue r fields Hr H200 Hbody.
  replace (negb force
           && (now - last_assignment_check (sensor w)
               <? Config.ASSIGNMENT_CHECK_INTERVAL)) with false.
  2:{ symmetry. apply andb_false_iff.
      destruct Hdue as [-> | H]; [left; reflexivity | right].
      apply Z.ltb_ge. exact H. }
  rewrite check_via_gateway_eq. cbv zeta.
  change (gateway_assignment_url w0) with gateway_url.
  change (next (http w0)) with (next (http w)).
  rewrite Hr, H200, Hbody. cbn [Z.eqb Pos.eqb fst snd].
  set (wg := logged (Get gateway_url) w0).
  split; [reflexivity|].
  split.
  { unfold stamped. cbn [requests with_sensor].
    destruct (handled_traffic fields wg) as (_ & -> & _). reflexivity. }
  split; [reflexivity|].
  unfold assignment, stamped, handled.
  cbn [sensor with_sensor SensorReader.with_last_assignment_check
       is_assigned assigned_farm_id assigned_zone_code].
  split.
  - intros ->. reflexivity.
  - intros ->. destruct (Py.truthy (Py.dict_get fields "assigned"));
      reflexivity.
Qed.

(** ** Further properties of the gateway client *)

Lemma accepted_iff (a : http_outcome) :
  accepted a = true <->
  exists r,
    a = Response r
    /\ ((status_code r = 200 /\ exists fields, body r = JsonObject fields)
        \/ status_code r = 202
        \/ status_code r = 503).
Proof.
  unfold accepted. destruct a as [r|e].
  - destruct (status_code r =? 200) eqn:E2.
    + apply Z.eqb_eq in E2. split.
      * destruct (body r) as [fields| |b] eqn:Eb; try discriminate.
        intros _. exists r. split; [reflexivity|]. left. eauto.
      * intros (r' & Hr & [[_ [fields Hf]]|[H|H]]); injection Hr as <-.
        -- rewrite Hf. reflexivity.
        -- lia.
        -- lia.
    + apply Z.eqb_neq in E2. rewrite orb_true_iff, !Z.eqb_eq. split.
      * intros H. exists r. split; [reflexivity|]. right. exact H.
      * intros (r' & Hr & [[H _]|H]); injection Hr as <-;
          [contradiction | exact H].
  - split; [discriminate|]. intros (r & Hr & _). discriminate Hr.
Qed.

(** [send_to_gateway] issues exactly one request, the post of the reading,
    and never raises. It reports a delivery exactly when the collector answers
    200 with a JSON object, 202 or 503; a 200 whose body is not a JSON object,
    any other status and any failure of the request are reported as [False]. *)
Theorem send_to_gateway_outcomes (data : Reading) (w : world) :
  exists b,
    GatewayLogger.send_to_gateway data w
    = (Ok b, logged (Post Config.get_gateway_data_url data) w)
    /\ (b = true <->
        exists r,
          next (http w) = Response r
          /\ ((status_code r = 200
               /\ exists fields, body r = JsonObject fields)
              \/ status_code r = 202
              \/ status_code r = 503)).
Proof.
  exists (accepted (next (http w))).
  split; [apply send_to_gateway_eq | apply accepted_iff].
Qed.

(** [check_gateway_availability] never raises and returns the flag it
    stores. Without [force] and within [GATEWAY_CHECK_INTERVAL] of the last
    check it returns the stored flag and issues no request; otherwise it
    issues one request, stores whether the answer was a 200, and records the
    time. [connected_to_gateway] is set by a 200 and never cleared. *)
Theorem gateway_availability_cache (force : bool) (self : gateway_logger)
    (w : world) :
  let now := next (clock w) in
  let w0 := with_clock (advance 1 (clock w)) w in
  (force = false ->
   now - last_gateway_check self < Config.GATEWAY_CHECK_INTERVAL ->
   GatewayLogger.check_gateway_availability force self w
   = (Ok (gateway_available self, self), w0))
  /\ (force = true
      \/ Config.GATEWAY_CHECK_INTERVAL <= now - last_gateway_check self ->
      let up := reachable (next (http w)) in
      GatewayLogger.check_gateway_availability force self w
      = (Ok (up,
             {| last_gateway_check := now;
                gateway_available := up;
                connected_to_gateway := connected_to_gateway self || up |}),
         logged (Get (Config.GATEWAY_PI_URL ++ "/api/test")%string) w0))
  /\ (exists self' w',
         GatewayLogger.check_gateway_availability force self w
         = (Ok (gateway_available self', self'), w')
         /\ (connected_to_gateway self = true ->
             connected_to_gateway self' = true)).
Proof.
  intros now w0.
  assert (Hcached :
    force = false ->
    now - last_gateway_check self < Config.GATEWAY_CHECK_INTERVAL ->
    GatewayLogger.check_gateway_availability force self w
    = (Ok (gateway_available self, self), w0)).
  { intros -> Hin.
    unfold GatewayLogger.check_gateway_availability, bind at 1, time_time.
    rewrite ask_advance. fold now. cbn [negb andb].
    replace (now - last_gateway_check self <? Config.GATEWAY_CHECK_INTERVAL)
      with true by (symmetry; apply Z.ltb_lt; exact Hin).
    reflexivity. }
  assert (Hprobe :
    force = true
    \/ Config.GATEWAY_CHECK_INTERVAL <= now - last_gateway_check self ->
    GatewayLogger.check_gateway_availability force self w
    = (Ok (reachable (next (http w)),
           {| last_gateway_check := now;
              gateway_available := reachable (next (http w));
              connected_to_gateway :=
                connected_to_gateway self || reachable (next (http w)) |}),
       logged (Get (Config.GATEWAY_PI_URL ++ "/api/test")%string) w0)).
  { intros Hdue.
    unfold GatewayLogger.check_gateway_availability, bind at 1, time_time.
    rewrite ask_advance. fold now. fold w0.
    replace (negb force
             && (now - last_gateway_check self
                 <? Config.GATEWAY_CHECK_INTERVAL)) with false.
    2:{ symmetry. apply andb_false_iff.
        destruct Hdue as [-> | H]; [left; reflexivity | right].
        apply Z.ltb_ge. exact H. }
    unfold bind at 1, try_except, bind at 1, requests_get, http_request.
    rewrite ask_advance.
    fold (logged (Get (Config.GATEWAY_PI_URL ++ "/api/test")%string) w0).
    change (next (http w0)) with (next (http w)).
    unfold reachable.
    destruct (next (http w)) as [r|[| |]];
      try (cbn; rewrite orb_false_r; reflexivity).
    destruct (status_code r =? 200); cbn;
      rewrite ?orb_true_r, ?orb_false_r; reflexivity. }
  split; [exact Hcached|]. split; [exact Hprobe|].
  assert (Hsticky :
    force = true
    \/ Config.GATEWAY_CHECK_INTERVAL <= now - last_gateway_check self ->
    exists self' w',
      GatewayLogger.check_gateway_availability force self w
      = (Ok (gateway_available self', self'), w')
      /\ (connected_to_gateway self = true ->
          connected_to_gateway self' = true)).
  { intros Hdue. rewrite (Hprobe Hdue).
    exists {| last_gateway_check := now;
              gateway_available := reachable (next (http w));
              connected_to_gateway :=
                connected_to_gateway self || reachable (next (http w)) |}.
    eexists. split; [reflexivity|].
    cbn. intros ->. reflexivity. }
  destruct force.
  - apply Hsticky. left. reflexivity.
  - destruct (Z_lt_ge_dec (now - last_gateway_check self)
                          Config.GATEWAY_CHECK_INTERVAL) as [Hin|Hout].
    + rewrite (Hcached eq_refl Hin).
      exists self. eexists. split; [reflexivity|]. intros H. exact H.
    + apply Hsticky. right. lia.
Qed.

(** ** Further properties of the connectivity checks *)

Lemma later_advance {A} (m i : nat) (o : oracle A) :
  later (advance m o) i = later o (m + i).
Proof. unfold later, advance. cbn. rewrite Nat.add_assoc. reflexivity. Qed.

Lemma internet_scan_spec (n : nat) (o : oracle http_outcome) :
  (forall i, (i < fst (internet_scan o n) - 1)%nat ->
             online (later o i) = false)
  /\ (snd (internet_scan o n) = true ->
      (1 <= fst (internet_scan o n))%nat
      /\ online (later o (fst (internet_scan o n) - 1)) = true)
  /\ (snd (internet_scan o n) = false ->
      fst (internet_scan o n) = n
      /\ forall i, (i < n)%nat -> online (later o i) = false).
Proof.
  revert o. induction n as [|n IH]; intros o; cbn [internet_scan].
  - cbn. repeat split; try discriminate; intros; lia.
  - destruct (online (next o)) eqn:E.
    + cbn [fst snd Nat.sub]. repeat split; try discriminate; try lia.
      rewrite later_0. exact E.
    + specialize (IH (advance 1 o)).
      destruct (internet_scan (advance 1 o) n) as [j found].
      cbn [fst snd] in *. destruct IH as (Hbefore & Hfound & Hnone).
      assert (Hshift : forall i, later (advance 1 o) i = later o (S i))
        by (intros i; apply later_advance).
      split; [|split].
      * intros i Hi. destruct i as [|i].
        -- rewrite later_0. exact E.
        -- rewrite <- Hshift. apply Hbefore. lia.
      * intros Hf. destruct (Hfound Hf) as [Hj Ho]. split; [lia|].
        rewrite Hshift in Ho.
        replace (S j - 1)%nat with (S (j - 1)) by lia. exact Ho.
      * intros Hf. destruct (Hnone Hf) as [Hj Ho]. split; [lia|].
        intros i Hi. destruct i as [|i].
        -- rewrite later_0. exact E.
        -- rewrite <- Hshift. apply Ho. lia.
Qed.

(** [check_internet] never raises. It requests the test URLs in order and
    stops at the first that answers 200, 301 or 302; it returns and stores
    [True] exactly when one of the three does, and [False] after all three
    have failed. The other flags and the time of the last check are left
    alone. *)
Theorem check_internet_first_answer (w : world) :
  let w' := world_after NetworkManager.check_internet w in
  exists (b : bool) (j : nat),
    value_of NetworkManager.check_internet w = Ok b
    /\ (1 <= j <= length Config.INTERNET_TEST_URLS)%nat
    /\ requests w'
       = requests w ++ map Get (firstn j Config.INTERNET_TEST_URLS)
    /\ http w' = advance j (http w)
    /\ network w' = NetworkManager.with_internet_available b (network w)
    /\ (forall i, (i < j - 1)%nat -> online (later (http w) i) = false)
    /\ (b = true -> online (later (http w) (j - 1)) = true)
    /\ (b = false -> j = length Config.INTERNET_TEST_URLS)
    /\ (b = true <->
        exists i, (i < length Config.INTERNET_TEST_URLS)%nat
                  /\ online (later (http w) i) = true).
Proof.
  unfold value_of, world_after, NetworkManager.check_internet.
  rewrite check_internet_loop_eq.
  pose proof (internet_scan_spec (length Config.INTERNET_TEST_URLS) (http w))
    as (Hbefore & Hfound & Hnone).
  pose proof (internet_scan_bounds (length Config.INTERNET_TEST_URLS) (http w))
    as [Hle Hge].
  destruct (internet_scan (http w) (length Config.INTERNET_TEST_URLS))
    as [j b].
  cbn [fst snd] in *. exists b, j.
  split; [reflexivity|].
  split; [split; [apply Hge; cbn; lia | exact Hle]|].
  split; [reflexivity|]. split; [reflexivity|]. split; [reflexivity|].
  split; [exact Hbefore|].
  split; [intros Hb; apply Hfound; exact Hb|].
  split; [intros Hb; apply Hnone; exact Hb|].
  split.
  - intros Hb. destruct (Hfound Hb) as [Hj Ho].
    exists (j - 1)%nat. split; [lia | exact Ho].
  - intros (i & Hi & Ho). destruct b; [reflexivity|].
    destruct (Hnone eq_refl) as [_ Hall]. rewrite (Hall i Hi) in Ho.
    discriminate Ho.
Qed.

(** Constructing a [NetworkManager] always probes: whatever the clock reads,
    the flags are those of a fresh round of probes and the time of the check
    is recorded; more generally a forced check never answers from the
    cache. *)
Theorem forced_check_probes (w : world) :
  NetworkManager.check_all_connectivity true w
  = (Ok (snd (fresh (http w))),
     probed (next (clock w)) (fst (fresh (http w))) (snd (fresh (http w))) w)
  /\ NetworkManager.__init__ w
     = (Ok tt,
        probed (next (clock w)) (fst (fresh (http w))) (snd (fresh (http w)))
               (with_network NetworkManager.init w))
  /\ NetworkManager.status
       (network (world_after NetworkManager.__init__ w))
     = snd (fresh (http w))
  /\ last_internet_check (network (world_after NetworkManager.__init__ w))
     = next (clock w).
Proof.
  assert (Hforce : forall x,
             NetworkManager.check_all_connectivity true x
             = (Ok (snd (fresh (http x))),
                probed (next (clock x)) (fst (fresh (http x)))
                       (snd (fresh (http x))) x))
    by (intros x; apply check_all_connectivity_probes; left; reflexivity).
  assert (Hinit : NetworkManager.__init__ w
     = (Ok tt,
        probed (next (clock w)) (fst (fresh (http w))) (snd (fresh (http w)))
               (with_network NetworkManager.init w))).
  { unfold NetworkManager.__init__, bind at 1, modify.
    unfold bind at 1. rewrite Hforce. reflexivity. }
  split; [apply Hforce|]. split; [exact Hinit|].
  unfold world_after. rewrite Hinit. cbn [snd].
  split; [|reflexivity].
  unfold probed, NetworkManager.status. cbn.
  destruct (snd (fresh (http w))); reflexivity.
Qed.

(** ** The drain in full *)

(** Every path through [sync_offline_data]. *)
Lemma sync_offline_data_cases (w : world) :
  let now := next (clock w) in
  let w1 := with_clock (advance 1 (clock w)) w in
  let batch := firstn 20 (OfflineLogger.rows (offline w)) in
  let k := confirmed (http w) (length batch) in
  let w2 :=
    with_http (advance (Nat.min (S k) (length batch)) (http w))
              (requests w ++ posts (firstn (S k) batch)) w1 in
  let w3 := world_after (OfflineLogger.remove_synced k) w2 in
  MainController.sync_offline_data w =
  if negb (gateway_pi_available (network w)) then (Ok false, w)
  else if now - last_sync_time (controller w) <? 900 then (Ok true, w1)
  else
    match batch with
    | [] => (Ok true, w1)
    | _ :: _ =>
        if (0 <? k)%nat then
          (Ok true,
           with_controller
             (MainController.with_last_sync_time now (controller w3)) w3)
        else (Ok false, w2)
    end.
Proof.
  intros now w1 batch k w2 w3.
  unfold MainController.sync_offline_data.
  unfold bind at 1, NetworkManager.can_reach_gateway_pi, gets at 1.
  destruct (gateway_pi_available (network w)); cbn [negb]; [|reflexivity].
  unfold bind at 1, time_time. rewrite ask_advance. fold now. fold w1.
  unfold bind at 1, gets at 1. cbn [controller with_clock].
  change (last_sync_time (controller w1)) with (last_sync_time (controller w)).
  destruct (now - last_sync_time (controller w) <? 900); [reflexivity|].
  unfold bind at 1. rewrite load_batch_eq.
  change (offline w1) with (offline w). fold batch.
  destruct batch as [|data rest] eqn:Eb; [reflexivity|].
  rewrite <- Eb. unfold bind at 1. rewrite sync_loop_eq. cbv zeta.
  change (http w1) with (http w). change (requests w1) with (requests w).
  assert (Hk : confirmed (http w) (length batch) = k)
    by (unfold k; rewrite Eb; reflexivity).
  rewrite Hk. cbn [Nat.add]. rewrite Eb.
  change (with_http (advance (Nat.min (S k) (length (data :: rest))) (http w))
            (requests w ++ posts (firstn (S k) (data :: rest))) w1) with w2.
  destruct (0 <? k)%nat; [|reflexivity].
  unfold bind at 1.
  destruct (remove_synced_eq k w2) as (x & Hx & _).
  assert (Hw3 : w3 = x) by (unfold w3, world_after; rewrite Hx; reflexivity).
  rewrite Hx, Hw3. reflexivity.
Qed.

(** Whatever [remove_synced] keeps true of the queue, a drain keeps true. *)
Lemma sync_offline_data_offline (w : world) (P : offline_logger -> Prop) :
  P (offline w) ->
  (forall count x,
      P (offline x) ->
      P (offline (world_after (OfflineLogger.remove_synced count) x))) ->
  P (offline (world_after MainController.sync_offline_data w)).
Proof.
  intros Hw Hremove. unfold world_after at 1.
  rewrite sync_offline_data_cases. cbv zeta.
  destruct (negb (gateway_pi_available (network w))); [exact Hw|].
  destruct (next (clock w) - last_sync_time (controller w) <? 900);
    [exact Hw|].
  destruct (firstn 20 (OfflineLogger.rows (offline w))) as [|data rest];
    [exact Hw|].
  destruct (0 <? _)%nat; [|exact Hw].
  cbn [snd offline with_controller]. apply Hremove. exact Hw.
Qed.

(** ** Further properties of the offline queue *)

Lemma remove_synced_storage (count : nat) (w : world) :
  value_of (OfflineLogger.remove_synced count) w = Ok true
  /\ storage (offline (world_after (OfflineLogger.remove_synced count) w))
     = match storage (offline w) with
       | None => None
       | Some df =>
           if (length df <=? count)%nat then None else Some (skipn count df)
       end
  /\ max_records (offline (world_after (OfflineLogger.remove_synced count) w))
     = max_records (offline w).
Proof.
  unfold value_of, world_after, OfflineLogger.remove_synced, try_except, bind,
    gets.
  destruct (storage (offline w)) as [df|] eqn:E.
  - destruct (length df <=? count)%nat; cbn; repeat split.
  - cbn. rewrite E. repeat split.
Qed.

(** [remove_synced] removes a prefix and nothing else: the file keeps the
    rows after the first [count], and is deleted, not left empty, when
    [count] reaches the number of rows; on a missing file it does nothing.
    Removing [a] and then [b] rows is removing [a + b]. *)
Theorem remove_synced_prefix (a b : nat) (w : world) :
  let w1 := world_after (OfflineLogger.remove_synced a) w in
  let w2 := world_after (OfflineLogger.remove_synced b) w1 in
  value_of (OfflineLogger.remove_synced a) w = Ok true
  /\ OfflineLogger.rows (offline w)
     = firstn a (OfflineLogger.rows (offline w))
       ++ OfflineLogger.rows (offline w1)
  /\ ((length (OfflineLogger.rows (offline w)) <= a)%nat ->
      storage (offline w1) = None)
  /\ ((a < length (OfflineLogger.rows (offline w)))%nat ->
      storage (offline w1)
      = Some (skipn a (OfflineLogger.rows (offline w))))
  /\ storage (offline w2)
     = storage (offline (world_after (OfflineLogger.remove_synced (a + b)) w)).
Proof.
  intros w1 w2.
  destruct (remove_synced_storage a w) as (Hv & Hs & _).
  destruct (remove_synced_storage b w1) as (_ & Hs2 & _).
  destruct (remove_synced_storage (a + b) w) as (_ & Hs3 & _).
  fold w1 in Hs. fold w2 in Hs2.
  split; [exact Hv|].
  unfold OfflineLogger.rows. rewrite Hs2, Hs3, Hs.
  destruct (storage (offline w)) as [df|].
  - destruct (length df <=? a)%nat eqn:Ea.
    + apply Nat.leb_le in Ea.
      split; [rewrite firstn_all2 by exact Ea; symmetry; apply app_nil_r|].
      split; [reflexivity|]. split; [lia|].
      replace (length df <=? a + b)%nat with true
        by (symmetry; apply Nat.leb_le; lia).
      reflexivity.
    + apply Nat.leb_gt in Ea.
      split; [symmetry; apply firstn_skipn|].
      split; [lia|]. split; [reflexivity|].
      rewrite length_skipn, skipn_skipn, (Nat.add_comm b a).
      destruct (length df - a <=? b)%nat eqn:Eb.
      * apply Nat.leb_le in Eb.
        replace (length df <=? a + b)%nat with true
          by (symmetry; apply Nat.leb_le; lia).
        reflexivity.
      * apply Nat.leb_gt in Eb.
        replace (length df <=? a + b)%nat with false
          by (symmetry; apply Nat.leb_gt; lia).
        reflexivity.
  - cbn. rewrite firstn_nil. repeat split. intros H. cbn in H. lia.
Qed.

Lemma remove_synced_prefix_witness :
  storage
    (offline (world_after (OfflineLogger.remove_synced 3)
                Example.failing_drain))
  = None.
Proof.
  refine (proj1 (proj2 (proj2
    (remove_synced_prefix 3 0 Example.failing_drain))) _).
  vm_compute. lia.
Defined.

Lemma load_all_eq (w : world) :
  OfflineLogger.load_all w = (Ok (OfflineLogger.rows (offline w)), w).
Proof.
  unfold OfflineLogger.load_all, try_except, bind, gets, OfflineLogger.rows.
  destruct (storage (offline w)); reflexivity.
Qed.

Lemma clear_storage (w : world) :
  storage (offline (world_after OfflineLogger.clear w)) = None.
Proof.
  unfold world_after, OfflineLogger.clear, try_except, bind, gets.
  destruct (storage (offline w)) eqn:E; cbn; [reflexivity | exact E].
Qed.

(** [clear] deletes the file whatever it held and may be repeated; after it
    the queue is empty for [load_all], [load_batch] and the record count, and
    the next [save] starts a file holding that one reading. [load_all]
    returns every row, oldest first, and changes nothing. *)
Theorem clear_empties_queue (w : world) :
  let w' := world_after OfflineLogger.clear w in
  value_of OfflineLogger.clear w = Ok true
  /\ storage (offline w') = None
  /\ world_after OfflineLogger.clear w' = w'
  /\ value_of OfflineLogger.load_all w' = Ok []
  /\ value_of OfflineLogger.total_records w' = Ok 0%nat
  /\ (forall n, value_of (OfflineLogger.load_batch n) w' = Ok [])
  /\ (forall data,
         storage (offline (world_after (OfflineLogger.save data) w'))
         = Some [data])
  /\ OfflineLogger.load_all w = (Ok (OfflineLogger.rows (offline w)), w)
  /\ OfflineLogger.load_all w
     = OfflineLogger.load_batch (length (OfflineLogger.rows (offline w))) w.
Proof.
  intros w'.
  pose proof (load_all_eq w) as Hall.
  pose proof (clear_storage w) as Hs. fold w' in Hs.
  split.
  { unfold value_of, OfflineLogger.clear, try_except, bind, gets.
    destruct (storage (offline w)); reflexivity. }
  split; [exact Hs|].
  split.
  { unfold world_after at 1, OfflineLogger.clear, try_except, bind, gets.
    rewrite Hs. reflexivity. }
  split.
  { unfold value_of, OfflineLogger.load_all, try_except, bind, gets.
    rewrite Hs. reflexivity. }
  split.
  { unfold value_of, OfflineLogger.total_records, bind, gets.
    rewrite Hs. reflexivity. }
  split.
  { intros n. unfold value_of. rewrite load_batch_eq.
    unfold OfflineLogger.rows. rewrite Hs. cbn. rewrite firstn_nil.
    reflexivity. }
  split.
  { intros data. unfold world_after at 1. rewrite save_eq.
    cbn [snd offline with_offline OfflineLogger.to_csv storage].
    unfold OfflineLogger.combined. rewrite Hs. reflexivity. }
  split; [exact Hall|].
  rewrite Hall, load_batch_eq, firstn_all. reflexivity.
Qed.

(** The file of the queue, when it exists, holds at least one row: no
    operation on it writes an empty file. [save] establishes this (for a
    capacity of at least one); [remove_synced], [clear], the loads and a
    whole drain keep it. *)
Theorem queue_file_never_empty (w : world) :
  (forall data,
      (1 <= max_records (offline w))%nat ->
      storage (offline (world_after (OfflineLogger.save data) w)) <> Some [])
  /\ (storage (offline w) <> Some [] ->
      (forall count,
          storage (offline (world_after (OfflineLogger.remove_synced count) w))
          <> Some [])
      /\ storage (offline (world_after OfflineLogger.clear w)) <> Some []
      /\ (forall n,
             storage (offline (world_after (OfflineLogger.load_batch n) w))
             <> Some [])
      /\ storage (offline (world_after OfflineLogger.load_all w)) <> Some []
      /\ storage (offline (world_after MainController.sync_offline_data w))
         <> Some []
      /\ (value_of OfflineLogger.total_records w = Ok 0%nat <->
          storage (offline w) = None)).
Proof.
  split.
  { intros data Hcap. unfold world_after. rewrite save_eq.
    cbn [snd offline with_offline OfflineLogger.to_csv storage].
    rewrite (rows_after_save _ _ Hcap). intros H. injection H as H.
    apply (f_equal (@length Reading)) in H.
    rewrite tail_length, length_app in H. cbn [length] in H. lia. }
  intros Hinv.
  assert (Hremove : forall count x,
             storage (offline x) <> Some [] ->
             storage (offline (world_after
                                 (OfflineLogger.remove_synced count) x))
             <> Some []).
  { intros count x Hx.
    destruct (remove_synced_storage count x) as (_ & -> & _).
    destruct (storage (offline x)) as [df|]; [|discriminate].
    destruct (length df <=? count)%nat eqn:E; [discriminate|].
    apply Nat.leb_gt in E. intros H. injection H as H.
    apply (f_equal (@length Reading)) in H. rewrite length_skipn in H.
    cbn [length] in H. lia. }
  split; [intros count; apply Hremove; exact Hinv|].
  split.
  { rewrite clear_storage. discriminate. }
  split; [intros n; unfold world_after; rewrite load_batch_eq; exact Hinv|].
  split; [unfold world_after; rewrite load_all_eq; exact Hinv|].
  split.
  { apply (sync_offline_data_offline w (fun o => storage o <> Some []));
      [exact Hinv|].
    intros count x Hx. apply Hremove. exact Hx. }
  unfold value_of, OfflineLogger.total_records, bind, gets.
  destruct (storage (offline w)) as [[|data df]|]; cbn.
  - contradiction Hinv. reflexivity.
  - split; discriminate.
  - split; reflexivity.
Qed.

(** ** Further properties of the drain *)

Lemma confirmed_all (n : nat) (o : oracle http_outcome) :
  (forall i, (i < n)%nat -> accepted (later o i) = true) ->
  confirmed o n = n.
Proof.
  revert o. induction n as [|n IH]; intros o H; cbn [confirmed]; [reflexivity|].
  rewrite <- later_0, (H 0%nat) by lia. f_equal. apply IH.
  intros i Hi. rewrite later_advance. apply H. lia.
Qed.

(** A drain is gated three times. While the gateway flag is down it does
    nothing at all and returns [False]; within 900 seconds of the last
    successful drain, or on an empty queue, it reads the clock, sends
    nothing and returns [True]. When it does send, the time of the drain is
    recorded only if at least one entry was confirmed; if the first entry
    fails it returns [False] and leaves the time as it was, so that the next
    cycle tries again. *)
Theorem drain_gates (w : world) :
  let now := next (clock w) in
  let w1 := with_clock (advance 1 (clock w)) w in
  let w' := world_after MainController.sync_offline_data w in
  let batch := firstn 20 (OfflineLogger.rows (offline w)) in
  let k := confirmed (http w) (length batch) in
  (gateway_pi_available (network w) = false ->
   MainController.sync_offline_data w = (Ok false, w))
  /\ (gateway_pi_available (network w) = true ->
      now - last_sync_time (controller w) < 900 ->
      MainController.sync_offline_data w = (Ok true, w1))
  /\ (gateway_pi_available (network w) = true ->
      OfflineLogger.rows (offline w) = [] ->
      MainController.sync_offline_data w = (Ok true, w1))
  /\ (gateway_pi_available (network w) = true ->
      900 <= now - last_sync_time (controller w) ->
      batch <> [] ->
      value_of MainController.sync_offline_data w = Ok (0 <? k)%nat
      /\ last_sync_time (controller w')
         = (if (0 <? k)%nat then now else last_sync_time (controller w))
      /\ running (controller w') = running (controller w)
      /\ data_points_collected (controller w')
         = data_points_collected (controller w)).
Proof.
  intros now w1 w' batch k.
  unfold w', world_after, value_of.
  rewrite sync_offline_data_cases. cbv zeta. fold now w1 batch k.
  split; [intros ->; reflexivity|].
  split.
  { intros -> Hin. cbn [negb].
    replace (now - last_sync_time (controller w) <? 900) with true
      by (symmetry; apply Z.ltb_lt; exact Hin).
    reflexivity. }
  split.
  { intros -> Hempty. cbn [negb].
    destruct (now - last_sync_time (controller w) <? 900); [reflexivity|].
    unfold batch. rewrite Hempty. reflexivity. }
  intros -> Hdue Hne. cbn [negb].
  replace (now - last_sync_time (controller w) <? 900) with false
    by (symmetry; apply Z.ltb_ge; exact Hdue).
  destruct batch as [|data rest]; [contradiction|].
  destruct (0 <? k)%nat; cbn [fst snd].
  - set (w2 := with_http _ _ w1).
    destruct (remove_synced_eq k w2) as (x & Hx & _ & _ & Hsame).
    unfold world_after. rewrite Hx. cbn [snd].
    assert (Hc : controller x = controller w).
    { pose proof (Hsame (offline w2)) as H.
      apply (f_equal controller) in H. exact H. }
    cbn [controller with_controller MainController.with_last_sync_time
         last_sync_time running data_points_collected].
    rewrite Hc. repeat split.
  - repeat split.
Qed.

Lemma sync_offline_data_all_accepted (w : world) :
  let w' := world_after MainController.sync_offline_data w in
  let queue := OfflineLogger.rows (offline w) in
  let batch := firstn 20 queue in
  gateway_pi_available (network w) = true ->
  900 <= next (clock w) - last_sync_time (controller w) ->
  (forall i, (i < length batch)%nat -> accepted (later (http w) i) = true) ->
  requests w' = requests w ++ posts batch
  /\ OfflineLogger.rows (offline w') = skipn 20 queue
  /\ ((length queue <= 20)%nat ->
      queue <> [] ->
      storage (offline w') = None
      /\ value_of OfflineLogger.total_records w' = Ok 0%nat).
Proof.
  intros w' queue batch Hreach Hdue Hall.
  pose proof (confirmed_all _ _ Hall) as Hk.
  pose proof (sync_offline_data_cases w) as Hc. cbv zeta in Hc.
  fold queue in Hc. fold batch in Hc.
  rewrite Hk, Hreach in Hc. cbn [negb] in Hc.
  replace (next (clock w) - last_sync_time (controller w) <? 900) with false
    in Hc by (symmetry; apply Z.ltb_ge; exact Hdue).
  assert (Hw' : w' = snd (MainController.sync_offline_data w)) by reflexivity.
  assert (Hb : batch = firstn 20 queue) by reflexivity.
  assert (Hq : OfflineLogger.rows (offline w) = queue) by reflexivity.
  clearbody w' batch queue. rewrite Hc in Hw'. clear Hc Hk Hall.
  destruct batch as [|data rest].
  { cbn [snd] in Hw'. subst w'.
    assert (Hnil : queue = [])
      by (destruct queue; [reflexivity | discriminate Hb]).
    cbn [requests offline with_clock posts map]. rewrite Hq, Hnil, app_nil_r.
    split; [reflexivity|]. split; [reflexivity|].
    intros _ N. contradiction. }
  set (batch := data :: rest) in *.
  assert (Hlen : length batch = Nat.min 20 (length queue))
    by (rewrite Hb; apply length_firstn).
  assert (Hpos : (0 <? length batch)%nat = true) by reflexivity.
  rewrite Hpos in Hw'. cbn [snd] in Hw'.
  set (w2 := with_http _ _ _) in Hw'.
  destruct (remove_synced_eq (length batch) w2) as (x & Hx & Hrows & _ & Hsame).
  destruct (remove_synced_storage (length batch) w2) as (_ & Hst & _).
  unfold world_after in Hw', Hst. rewrite Hx in Hw', Hst. cbn [snd] in Hw', Hst.
  subst w'. cbn [requests offline with_controller].
  assert (Hreq : requests x = requests w2).
  { pose proof (Hsame (offline w2)) as H.
    apply (f_equal requests) in H. exact H. }
  split.
  { rewrite Hreq. unfold w2. cbn [requests with_http].
    rewrite firstn_all2 by lia. reflexivity. }
  split.
  { rewrite Hrows. change (offline w2) with (offline w). rewrite Hq, Hlen.
    destruct (Nat.le_gt_cases 20 (length queue)) as [H|H].
    - replace (Nat.min 20 (length queue)) with 20%nat by lia. reflexivity.
    - rewrite !skipn_all2 by lia. reflexivity. }
  intros Hshort Hne.
  assert (Hnone : storage (offline x) = None).
  { rewrite Hst. change (offline w2) with (offline w).
    unfold OfflineLogger.rows in Hq.
    destruct (storage (offline w)) as [df|]; [|reflexivity].
    subst queue.
    replace (length df <=? length batch)%nat with true
      by (symmetry; apply Nat.leb_le; lia).
    reflexivity. }
  split; [exact Hnone|].
  unfold value_of, OfflineLogger.total_records, bind, gets.
  cbn [offline with_controller]. rewrite Hnone. reflexivity.
Qed.

(** When every entry of the batch is accepted, a drain posts the whole batch
    in queue order and removes it: the queue keeps the rows after the first
    twenty, and when it held at most twenty rows its file is deleted and the
    record count is zero. *)
Theorem drain_empties_queue (w : world) :
  let w' := world_after MainController.sync_offline_data w in
  let queue := OfflineLogger.rows (offline w) in
  let batch := firstn 20 queue in
  gateway_pi_available (network w) = true ->
  900 <= next (clock w) - last_sync_time (controller w) ->
  (forall i, (i < length batch)%nat -> accepted (later (http w) i) = true) ->
  requests w' = requests w ++ posts batch
  /\ OfflineLogger.rows (offline w') = skipn 20 queue
  /\ ((length queue <= 20)%nat ->
      queue <> [] ->
      storage (offline w') = None
      /\ value_of OfflineLogger.total_records w' = Ok 0%nat).
Proof. apply sync_offline_data_all_accepted. Qed.

(** ** Further properties of the cycle *)

Lemma sync_offline_data_appends (w : world) :
  exists b l,
    MainController.sync_offline_data w
    = (Ok b, world_after MainController.sync_offline_data w)
    /\ requests (world_after MainController.sync_offline_data w)
       = requests w ++ l.
Proof.
  unfold world_after. rewrite sync_offline_data_cases. cbv zeta.
  destruct (negb (gateway_pi_available (network w))).
  { exists false, []. rewrite app_nil_r. split; reflexivity. }
  destruct (next (clock w) - last_sync_time (controller w) <? 900).
  { exists true, []. rewrite app_nil_r. split; reflexivity. }
  destruct (firstn 20 (OfflineLogger.rows (offline w))) as [|data rest] eqn:Eb.
  { exists true, []. rewrite app_nil_r. split; reflexivity. }
  set (k := confirmed (http w) (length (data :: rest))).
  set (w2 := with_http _ _ _).
  destruct (0 <? k)%nat.
  - destruct (remove_synced_eq k w2) as (x & Hx & _ & _ & Hsame).
    unfold world_after. rewrite Hx. cbn [snd].
    exists true, (posts (firstn (S k) (data :: rest))).
    split; [reflexivity|]. cbn [requests with_controller].
    pose proof (Hsame (offline w2)) as H. apply (f_equal requests) in H.
    cbn [requests with_offline] in H. rewrite H. reflexivity.
  - exists false, (posts (firstn (S k) (data :: rest))).
    split; reflexivity.
Qed.


(** Every path through [collect_and_process_data], given the outcome of the
    acquisition. *)
Lemma collect_and_process_data_cases (w : world) :
  let w1 := world_after (NetworkManager.check_all_connectivity false) w in
  MainController.collect_and_process_data w =
  match SensorReader.read_sensor_data w1 with
  | (Raise e, w2) => (Raise e, w2)
  | (Ok None, w2) => (Ok tt, w2)
  | (Ok (Some data), w2) =>
      let w3 :=
        with_controller
          (MainController.with_data_points_collected
             (data_points_collected (controller w2) + 1) (controller w2))
          w2 in
      let sent := logged (Post Config.get_gateway_data_url data) w3 in
      let stored x :=
        with_offline
          (OfflineLogger.to_csv (OfflineLogger.combined (offline w2) data)
                                (offline w2)) x in
      if gateway_pi_available (network w1) then
        if accepted (next (http w2))
        then (Ok tt, world_after MainController.sync_offline_data sent)
        else (Ok tt, stored sent)
      else (Ok tt, stored w3)
  end.
Proof.
  intros w1. unfold MainController.collect_and_process_data.
  destruct (check_all_connectivity_total false w) as (c & wc & Hc).
  assert (Hw1 : w1 = wc) by (unfold w1, world_after; rewrite Hc; reflexivity).
  rewrite (bind_ok _ _ _ _ _ Hc).
  apply check_all_connectivity_returns_status in Hc. subst c.
  rewrite <- Hw1. clear Hw1 wc.
  unfold bind at 1.
  destruct (SensorReader.read_sensor_data w1) as [[[data|]|e] w2] eqn:Hread;
    try reflexivity.
  unfold bind at 1, gets at 1.
  unfold bind at 1, MainController.update, modify.
  unfold bind at 1, gets at 1. cbn [sensor with_controller].
  rewrite (read_sensor_data_assigned _ _ _ Hread). cbn [negb].
  unfold NetworkManager.status. cbn [gateway_pi].
  destruct (gateway_pi_available (network w1)).
  - unfold bind at 1, GatewayLogger.save. rewrite send_to_gateway_eq.
    cbn [http with_controller].
    destruct (accepted (next (http w2))).
    + unfold bind.
      destruct (sync_offline_data_appends
                  (logged (Post Config.get_gateway_data_url data)
                     (with_controller
                        (MainController.with_data_points_collected
                           (data_points_collected (controller w2) + 1)
                           (controller w2)) w2)))
        as (b & l & -> & _).
      reflexivity.
    + unfold bind. rewrite save_eq. reflexivity.
  - unfold bind. rewrite save_eq. reflexivity.
Qed.



Lemma get_keeps_delivery_state (url : string) :
  preserves delivery_state (http_request (Get url)).
Proof.
  intros w. unfold http_request. rewrite ask_advance.
  assert (H : delivery_state
                (with_http (advance 1 (http w)) (requests w ++ [Get url]) w)
              = delivery_state w).
  { unfold delivery_state, posted. cbn [offline controller requests with_http].
    rewrite flat_map_app. cbn [flat_map app]. rewrite app_nil_r.
    reflexivity. }
  destruct (next (http w)); exact H.
Qed.

Lemma initialize_serial_keeps_delivery_state (attempts : list nat) :
  preserves delivery_state (SensorReader.initialize_serial_loop attempts).
Proof.
  induction attempts as [|attempt rest IH];
    cbn [SensorReader.initialize_serial_loop]; preserve.
Qed.

Lemma check_internet_keeps_delivery_state (urls : list string) :
  preserves delivery_state (NetworkManager.check_internet_loop urls).
Proof.
  pose proof get_keeps_delivery_state as Hget.
  induction urls as [|url rest IH];
    cbn [NetworkManager.check_internet_loop]; preserve.
Qed.

Lemma check_all_connectivity_keeps_delivery_state (force : bool) :
  preserves delivery_state (NetworkManager.check_all_connectivity force).
Proof.
  pose proof get_keeps_delivery_state as Hget.
  pose proof check_internet_keeps_delivery_state as Hloop.
  preserve_through.
Qed.

Lemma read_sensor_data_keeps_delivery_state :
  preserves delivery_state SensorReader.read_sensor_data.
Proof.
  pose proof get_keeps_delivery_state as Hget.
  pose proof initialize_serial_keeps_delivery_state as Hloop.
  preserve_through.
Qed.



(** A cycle that acquires no reading stops there: nothing is posted, and the
    queue and the controller's counters and flags are as before the cycle. *)
Theorem cycle_without_reading (w w2 : world) :
  let w1 := world_after (NetworkManager.check_all_connectivity false) w in
  SensorReader.read_sensor_data w1 = (Ok None, w2) ->
  MainController.collect_and_process_data w = (Ok tt, w2)
  /\ offline w2 = offline w
  /\ controller w2 = controller w
  /\ posted w2 = posted w.
Proof.
  intros w1 Hread.
  split.
  { rewrite collect_and_process_data_cases. cbv zeta. fold w1.
    rewrite Hread. reflexivity. }
  pose proof (read_sensor_data_keeps_delivery_state w1) as H2.
  rewrite Hread in H2. cbn [snd] in H2.
  pose proof (check_all_connectivity_keeps_delivery_state false w) as H1.
  fold (world_after (NetworkManager.check_all_connectivity false) w) in H1.
  fold w1 in H1. rewrite H1 in H2. unfold delivery_state in H2.
  injection H2 as Ho Hc Hp. repeat split; assumption.
Qed.

Lemma initialize_serial_loop_total (attempts : list nat) (w : world) :
  exists b w', SensorReader.initialize_serial_loop attempts w = (Ok b, w').
Proof.
  revert w. induction attempts as [|attempt rest IH]; intros w.
  - cbn. unfold ret. eauto.
  - rewrite initialize_serial_loop_cons. cbv zeta.
    destruct (next (port_open w)) as [[|]|]; [eauto | apply IH |].
    destruct (attempt <? Config.MAX_RETRY_ATTEMPTS - 1)%nat;
      [apply IH | eauto].
Qed.

Lemma acquire_total (w : world) :
  exists r w', SensorReader.acquire w = (Ok r, w').
Proof.
  unfold SensorReader.acquire, try_except.
  destruct (bind SensorReader.receive_response
              SensorReader.validate_and_parse w) as [[r|e] w'].
  - eauto.
  - destruct e as [[| |]| |]; eexists; eexists; reflexivity.
Qed.

Lemma check_via_db_total (t : Z) (w : world) :
  exists v w', SensorReader.check_via_db t w = (Ok v, w').
Proof.
  rewrite check_via_db_eq. cbv zeta.
  destruct (next (http w)) as [r|e]; [|eauto].
  destruct (status_code r =? 200).
  - destruct (body r) as [fields| |b]; eauto.
  - destruct (status_code r =? 404); eauto.
Qed.

Lemma check_assignment_status_raises (force : bool) (w w' : world) (e : exn) :
  SensorReader.check_assignment_status force w = (Raise e, w') <->
  e = OtherException
  /\ (force = true
      \/ Config.ASSIGNMENT_CHECK_INTERVAL
         <= next (clock w) - last_assignment_check (sensor w))
  /\ (exists r,
         next (http w) = Response r
         /\ status_code r = 200
         /\ body r = JsonError false)
  /\ w' = logged (Get (gateway_assignment_url w))
                 (with_clock (advance 1 (clock w)) w).
Proof.
  rewrite check_assignment_status_eq. cbv zeta.
  set (now := next (clock w)).
  set (w0 := with_clock (advance 1 (clock w)) w).
  assert (Hdue : negb force
                 && (now - last_assignment_check (sensor w)
                     <? Config.ASSIGNMENT_CHECK_INTERVAL) = false
                 <-> force = true
                     \/ Config.ASSIGNMENT_CHECK_INTERVAL
                        <= now - last_assignment_check (sensor w)).
  { rewrite andb_false_iff, negb_false_iff, Z.ltb_ge. reflexivity. }
  destruct (negb force && _) eqn:Ed.
  { split; [discriminate|]. intros (_ & H & _).
    apply Hdue in H. discriminate H. }
  rewrite check_via_gateway_eq. cbv zeta.
  change (gateway_assignment_url w0) with (gateway_assignment_url w).
  change (next (http w0)) with (next (http w)).
  set (wg := logged (Get (gateway_assignment_url w)) w0).
  assert (Hdb : forall P : Prop,
             SensorReader.check_via_db now wg = (Raise e, w') -> P).
  { intros P H. destruct (check_via_db_total now wg) as (v & x & Hx).
    rewrite Hx in H. discriminate H. }
  destruct (next (http w)) as [r|err] eqn:Er.
  - destruct (status_code r =? 200) eqn:E2.
    + apply Z.eqb_eq in E2.
      destruct (body r) as [fields| |[|]] eqn:Eb.
      * split; [discriminate|].
        intros (_ & _ & (r' & Hr & _ & Hb) & _). injection Hr as <-.
        congruence.
      * split; [discriminate|].
        intros (_ & _ & (r' & Hr & _ & Hb) & _). injection Hr as <-.
        congruence.
      * split; [apply Hdb|].
        intros (_ & _ & (r' & Hr & _ & Hb) & _). injection Hr as <-.
        congruence.
      * split.
        -- intros H. injection H as <- <-.
           split; [reflexivity|]. split; [apply Hdue; reflexivity|].
           split; [|reflexivity]. exists r. repeat split; assumption.
        -- intros (-> & _ & _ & ->). reflexivity.
    + apply Z.eqb_neq in E2. split; [apply Hdb|].
      intros (_ & _ & (r' & Hr & H2 & _) & _). injection Hr as <-.
      contradiction.
  - split; [apply Hdb|].
    intros (_ & _ & (r' & Hr & _) & _). discriminate Hr.
Qed.

Lemma read_sensor_data_raises (w w' : world) (e : exn) :
  SensorReader.read_sensor_data w = (Raise e, w') <->
  SensorReader.check_assignment_status false w = (Raise e, w').
Proof.
  unfold SensorReader.read_sensor_data. split.
  - unfold bind at 1.
    destruct (SensorReader.check_assignment_status false w) as [[v|e'] w1];
      [|intros H; injection H as <- <-; reflexivity].
    destruct (Py.truthy v); cbn [negb]; [|discriminate].
    unfold bind at 1, gets at 1. unfold bind at 1.
    destruct (serial_conn (sensor w1)).
    + unfold ret at 1. cbn [negb].
      destruct (acquire_total w1) as (r & x & ->). discriminate.
    + unfold SensorReader.initialize_serial.
      destruct (initialize_serial_loop_total
                  (seq 0 Config.MAX_RETRY_ATTEMPTS) w1) as (b & x & ->).
      destruct b; cbn [negb]; [|discriminate].
      destruct (acquire_total x) as (r & y & ->). discriminate.
  - apply bind_raise_run.
Qed.

(** A cycle raises, which ends the run loop, in exactly one situation: the
    assignment check is due and the Gateway Pi answers it with a 200 whose
    body raises something other than a [RequestException] when it is decoded
    or used. Every other failure of the network, of the sensor or of the
    collector is absorbed. When the cycle raises, nothing has been posted
    and the queue and the controller are untouched. *)
Theorem cycle_raises_iff (w w' : world) (e : exn) :
  let w1 := world_after (NetworkManager.check_all_connectivity false) w in
  (MainController.collect_and_process_data w = (Raise e, w') <->
   e = OtherException
   /\ Config.ASSIGNMENT_CHECK_INTERVAL
      <= next (clock w1) - last_assignment_check (sensor w1)
   /\ (exists r,
          next (http w1) = Response r
          /\ status_code r = 200
          /\ body r = JsonError false)
   /\ w' = logged (Get (gateway_assignment_url w1))
                  (with_clock (advance 1 (clock w1)) w1))
  /\ (MainController.collect_and_process_data w = (Raise e, w') ->
      offline w' = offline w
      /\ controller w' = controller w
      /\ posted w' = posted w).
Proof.
  intros w1.
  assert (Hiff : MainController.collect_and_process_data w = (Raise e, w') <->
                 SensorReader.read_sensor_data w1 = (Raise e, w')).
  { rewrite collect_and_process_data_cases. cbv zeta. fold w1.
    destruct (SensorReader.read_sensor_data w1) as [[[data|]|e1] w2].
    - split; [|discriminate].
      destruct (gateway_pi_available (network w1));
        [destruct (accepted (next (http w2)))|]; discriminate.
    - split; discriminate.
    - split; intros H; injection H as <- <-; reflexivity. }
  split.
  - rewrite Hiff, read_sensor_data_raises, check_assignment_status_raises.
    split.
    + intros (He & [Hf|Hd] & Hr & Hw); [discriminate Hf|]. auto.
    + intros (He & Hd & Hr & Hw). auto.
  - intros H. apply Hiff in H.
    pose proof (read_sensor_data_keeps_delivery_state w1) as H2.
    rewrite H in H2. cbn [snd] in H2.
    pose proof (check_all_connectivity_keeps_delivery_state false w) as H1.
    fold (world_after (NetworkManager.check_all_connectivity false) w) in H1.
    fold w1 in H1. rewrite H1 in H2. unfold delivery_state in H2.
    injection H2 as Ho Hc Hp. repeat split; assumption.
Qed.

(** ** Store and forward *)

(** Readings stored while the collector could not be reached are replayed
    oldest first once it can be. After the readings have been enqueued (with a
    capacity of at least one), a drain that is due, with the gateway flag up
    and every send accepted, posts the first twenty rows of the queue in the
    order in which they were enqueued, behind what the queue already held, and
    leaves the rest queued. In particular at most twenty readings enqueued on
    an empty queue that can hold them are all posted, in their order, and the
    file is deleted. *)
Theorem store_and_forward_order (readings : list Reading) (w : world) :
  let w' :=
    world_after (save_all readings ;; MainController.sync_offline_data) w in
  let queue :=
    Py.tail (OfflineLogger.rows (offline w) ++ readings)
            (max_records (offline w)) in
  (1 <= max_records (offline w))%nat ->
  readings <> [] ->
  gateway_pi_available (network w) = true ->
  900 <= next (clock w) - last_sync_time (controller w) ->
  (forall i, (i < length (firstn 20 queue))%nat ->
             accepted (later (http w) i) = true) ->
  requests w' = requests w ++ posts (firstn 20 queue)
  /\ OfflineLogger.rows (offline w') = skipn 20 queue
  /\ (storage (offline w) = None ->
      (length readings <= 20)%nat ->
      (length readings <= max_records (offline w))%nat ->
      posted w' = posted w ++ readings
      /\ storage (offline w') = None).
Proof.
  intros w' queue Hcap Hne Hreach Hdue Hall.
  set (wq := with_offline (OfflineLogger.to_csv queue (offline w)) w).
  assert (Hw' : w' = world_after MainController.sync_offline_data wq).
  { unfold w', world_after, bind.
    rewrite (save_all_rows readings w Hcap Hne). reflexivity. }
  assert (Hrows : OfflineLogger.rows (offline wq) = queue) by reflexivity.
  pose proof (sync_offline_data_all_accepted wq) as H. cbv zeta in H.
  rewrite Hrows in H. rewrite <- Hw' in H.
  specialize (H Hreach Hdue Hall). destruct H as (Hposts & Hrest & Hfile).
  split; [exact Hposts|]. split; [exact Hrest|].
  intros Hnone Hlen Hfit.
  assert (Hq : queue = readings).
  { unfold queue, OfflineLogger.rows. rewrite Hnone. cbn [app].
    apply tail_all. exact Hfit. }
  split.
  - unfold posted. rewrite Hposts. change (requests wq) with (requests w).
    rewrite flat_map_app. f_equal. rewrite Hq.
    rewrite firstn_all2 by exact Hlen. unfold posts.
    clear. induction readings as [|data rest IH]; [reflexivity|].
    cbn [map flat_map app]. rewrite IH. reflexivity.
  - apply Hfile; rewrite Hq; assumption.
Qed.

(** ** Sample runs of the further properties *)

Lemma unassigned_suppresses_acquisition_witness :
  SensorReader.read_sensor_data Example.unassigned
  = (Ok None,
     with_clock (advance 1 (clock Example.unassigned)) Example.unassigned).
Proof.
  refine (proj1 (unassigned_suppresses_acquisition
                   Example.unassigned _ (Py.PyBool false) _ _)).
  - reflexivity.
  - reflexivity.
Defined.

Lemma assignment_check_requests_witness :
  SensorReader.check_assignment_status false Example.within_window
  = (Ok (Py.PyBool true),
     with_clock (advance 1 (clock Example.within_window))
                Example.within_window)
  /\ assignment
       (world_after (SensorReader.check_assignment_status false)
                    Example.reassigned)
     = (Py.PyBool true, Py.PyInt 9, Py.PyStr "B").
Proof.
  split.
  - refine (proj1 (assignment_check_requests false Example.within_window)
                  eq_refl _).
    vm_compute. reflexivity.
  - refine (proj2 (proj2 (proj2 (proj2
             (proj2 (proj2 (assignment_check_requests
                              false Example.reassigned))
                    _ _ _ eq_refl eq_refl eq_refl)))) eq_refl).
    right. vm_compute. discriminate.
Defined.

Lemma gateway_availability_cache_witness :
  GatewayLogger.check_gateway_availability
    false GatewayLogger.init Example.within_window
  = (Ok (false, GatewayLogger.init),
     with_clock (advance 1 (clock Example.within_window))
                Example.within_window)
  /\ value_of (GatewayLogger.check_gateway_availability
                 false GatewayLogger.init) Example.failing_drain
     = Ok (true, {| last_gateway_check := 5000;
                    gateway_available := true;
                    connected_to_gateway := true |}).
Proof.
  split.
  - refine (proj1 (gateway_availability_cache
                     false GatewayLogger.init Example.within_window)
                  eq_refl _).
    vm_compute. reflexivity.
  - refine (f_equal fst
              (proj1 (proj2 (gateway_availability_cache
                               false GatewayLogger.init
                               Example.failing_drain)) _)).
    right. vm_compute. discriminate.
Defined.

Lemma check_internet_first_answer_witness :
  exists b j,
    value_of NetworkManager.check_internet Example.expired = Ok b
    /\ b = true
    /\ online (later (http Example.expired) (j - 1)) = true.
Proof.
  destruct (check_internet_first_answer Example.expired)
    as (b & j & Hv & _ & _ & _ & _ & _ & Hhit & _ & Hiff).
  assert (Hb : b = true).
  { apply Hiff. exists 1%nat. split; [|reflexivity].
    unfold Config.INTERNET_TEST_URLS. cbn [length]. lia. }
  exists b, j. split; [exact Hv|]. split; [exact Hb|]. exact (Hhit Hb).
Defined.

Lemma queue_file_never_empty_witness :
  storage (offline (world_after (OfflineLogger.save (Example.reading "t3"))
                                Example.full_queue)) <> Some []
  /\ storage (offline (world_after (OfflineLogger.remove_synced 2)
                                   Example.full_queue)) <> Some [].
Proof.
  split.
  - refine (proj1 (queue_file_never_empty Example.full_queue) _ _).
    cbn. lia.
  - refine (proj1 (proj2 (queue_file_never_empty Example.full_queue) _) 2%nat).
    cbn. discriminate.
Defined.

Lemma drain_gates_witness :
  MainController.sync_offline_data Example.early_drain
  = (Ok true,
     with_clock (advance 1 (clock Example.early_drain)) Example.early_drain)
  /\ value_of MainController.sync_offline_data Example.failing_drain = Ok true
  /\ last_sync_time
       (controller (world_after MainController.sync_offline_data
                                Example.failing_drain)) = 5000.
Proof.
  split.
  - refine (proj1 (proj2 (drain_gates Example.early_drain)) eq_refl _).
    vm_compute. reflexivity.
  - destruct (proj2 (proj2 (proj2 (drain_gates Example.failing_drain)))
                eq_refl) as (Hv & Ht & _).
    + vm_compute. discriminate.
    + vm_compute. discriminate.
    + split; [exact Hv | exact Ht].
Defined.

Lemma drain_empties_queue_witness :
  requests (world_after MainController.sync_offline_data Example.full_drain)
  = posts [Example.reading "t1"; Example.reading "t2"; Example.reading "t3"]
  /\ storage
       (offline (world_after MainController.sync_offline_data
                             Example.full_drain)) = None.
Proof.
  destruct (drain_empties_queue Example.full_drain eq_refl)
    as (Hposts & _ & Hfile).
  - vm_compute. discriminate.
  - intros i Hi. cbn in Hi.
    destruct i as [|[|[|i]]]; [reflexivity | reflexivity | reflexivity | lia].
  - split; [exact Hposts|]. apply Hfile.
    + cbn. lia.
    + cbn. discriminate.
Defined.

Lemma store_and_forward_order_witness :
  posted (world_after
            (save_all [Example.reading "t1"; Example.reading "t2"] ;;
             MainController.sync_offline_data)
            Example.reconnected)
  = [Example.reading "t1"; Example.reading "t2"]
  /\ storage
       (offline
          (world_after
             (save_all [Example.reading "t1"; Example.reading "t2"] ;;
              MainController.sync_offline_data)
             Example.reconnected)) = None.
Proof.
  refine (proj2 (proj2 (store_and_forward_order
                          [Example.reading "t1"; Example.reading "t2"]
                          Example.reconnected _ _ eq_refl _ _)) eq_refl _ _).
  - apply Nat.leb_le. reflexivity.
  - discriminate.
  - vm_compute. discriminate.
  - intros i Hi. cbn in Hi.
    destruct i as [|[|i]]; [reflexivity | reflexivity | lia].
  - apply Nat.leb_le. reflexivity.
  - apply Nat.leb_le. reflexivity.
Defined.


Lemma cycle_without_reading_witness :
  value_of MainController.collect_and_process_data Example.unassigned = Ok tt
  /\ posted (world_after MainController.collect_and_process_data
                         Example.unassigned) = [].
Proof.
  destruct (cycle_without_reading
              Example.unassigned
              (world_after SensorReader.read_sensor_data
                 (world_after (NetworkManager.check_all_connectivity false)
                              Example.unassigned)))
    as (Hrun & _ & _ & Hposted).
  - vm_compute. reflexivity.
  - unfold value_of, world_after. rewrite Hrun. cbn [fst snd].
    split; [reflexivity | exact Hposted].
Defined.

Lemma cycle_raises_iff_witness :
  let w1 := world_after (NetworkManager.check_all_connectivity false)
                        Example.malformed_assignment in
  let w' := logged (Get (gateway_assignment_url w1))
                   (with_clock (advance 1 (clock w1)) w1) in
  MainController.collect_and_process_data Example.malformed_assignment
  = (Raise OtherException, w')
  /\ posted w' = [].
Proof.
  intros w1 w'.
  assert (Hrun : MainController.collect_and_process_data
                   Example.malformed_assignment
                 = (Raise OtherException, w')).
  { apply (proj1 (cycle_raises_iff Example.malformed_assignment w'
                                   OtherException)).
    split; [reflexivity|]. split; [vm_compute; discriminate|].
    split; [|reflexivity].
    exists {| status_code := 200; body := JsonError false |}.
    repeat split. }
  split; [exact Hrun|].
  exact (proj2 (proj2 (proj2 (cycle_raises_iff Example.malformed_assignment w'
                                               OtherException) Hrun))).
Defined.
